(* ===== verification/_CoqProject ===== *)
-Q . S2P
Prelude.v
PyValue.v
StateExc.v
FileSystem.v
World.v
Logging.v
PyFormat.v
Query.v
JsonDump.v
JsonLoad.v
Client.v
Pagination.v
Index.v
Spider.v
PageOrder.v
UserAgent.v
Script.v
