(* ===== verification/Prelude.v ===== *)
(** * A verification development of Tencent-Spider ([src/tencent_spider.py])

    The program is one Python script that pages through the Tencent careers
    API and writes one JSON file per result page.  Its parts, and how they
    interact:

    - [scrape_api(url)] (lines 18-27): the API client.  It logs the URL,
      issues one HTTP GET with a random User-Agent, returns [response.json()]
      on status 200, and otherwise logs an error and returns [None].  Every
      exception raised inside the [try] is caught.
    - [get_total_page(keyword)] (lines 30-34): fetches page 1 of the index
      endpoint, reads [Data.Count] and computes the number of pages as
      [count // 10 + 1 if count % 10 else count // 10].
    - [scrape_index] / [scrape_detail] (lines 37-39, 55-57): format a URL
      template with [str.format] and call [scrape_api].
    - [parse_index(index_json)] (lines 42-47): a generator that yields the
      [PostId] of every entry of [Data.Posts].
    - [save_data(data, filename)] (lines 50-52): [open(filename, 'w')] and
      [json.dump(data, f, ensure_ascii=False, indent=2)].
    - the module level (lines 7-15, 80-81): the URL and file-name
      templates, [logging.basicConfig(level=INFO, format=..., datefmt=...)],
      which sends every record of level INFO or above to standard error as
      one timestamped line, and the entry point that calls [main()].
    - [main()] (lines 60-77): reads the keyword from standard input, computes
      the page count, creates the output directory, and for every page
      fetches the index, consumes the generator, fetches each detail,
      checks [Code == 200] and saves the page.

    The development models every one of these functions, and the parts of
    Python and of its standard library that they call, as executable Rocq
    definitions over an explicit world.  The files, in dependency order:

    - [Prelude] (this file): the [spider_scope] notation scope, the
      [spider] hint databases, the development's tactics and the generic
      lemmas on strings (concatenation, prefixes), lists and options.
    - [PyValue]: Python values restricted to what [json.loads] produces
      ([None], [bool], [int], [str], [list], [dict]; floats are not
      modelled), the exceptions the script can raise, the [result] type of
      a fallible operation, and the operations the script applies to
      values: truthiness, [dict.get], iteration, [//], [%], [+], [== 200],
      [range], [str()] and [repr()].
    - [StateExc]: the state-and-exception monad [ST] in which an exception
      keeps the effects performed before it, as in Python; [try]/[except],
      [for]; the monad laws and the combinators that carry an invariant
      ([preserves]) through a computation.
    - [FileSystem]: the directory tree, POSIX path resolution (a trailing
      slash names the directory before it), [os.path.split],
      [os.path.exists], [os.mkdir], [os.makedirs] and [open(path, 'w')]
      followed by writes; the well-formedness invariant of the tree.
    - [World]: the world of a run (standard input, the log, the trace of
      HTTP requests with the headers sent with each, the network as an
      oracle indexed by the position of the request in the trace, the
      filesystem, the User-Agent generator [UA = UserAgent()] of line 14 as
      an oracle of random picks with a count of the draws made) and the
      primitive effects [input], [logging.info]/[logging.error],
      [UA.random], [requests.get].
    - [Logging]: the configuration of line 9 as data (threshold, [%]-style
      record format, [strftime] date format) and what the stream handler
      writes for a log: the [%(name)s] interpreter, the [strftime]
      directives the script uses, the level filter, with the local time of
      each record given by a clock oracle.
    - [PyFormat]: [str.format] on the templates [INDEX_URL], [DETAIL_URL]
      and [FILENAME] (lines 7, 8, 15) and the URL and file-name equations.
    - [Query]: how the server reads the query string of the index URL.
    - [JsonDump]: [json.dump] with [indent=2] and [ensure_ascii=False]
      ([json.encoder._make_iterencode] and [encode_basestring]).
    - [JsonLoad]: a JSON decoder as [json.loads] reads a document, used to
      read back what [save_data] writes.  It is not part of the program
      model: [response.json()] (line 24) is the network oracle's decoded
      value.
    - [Client]: [scrape_api]; its contract as the type class [ApiClient]
      with the laws [ApiClientLaws], which [scrape_api] satisfies; the
      log-audit invariant.
    - [Pagination]: [get_total_page] and the page-count arithmetic.
    - [Index]: [parse_index] as a finite generator (yields, then stops or
      raises).
    - [Spider]: [scrape_index], [scrape_detail], [save_data], the detail
      loop, the page loop body and [main]; the spec's description of a run
      ([expected_files], [page_requests]) and the end-to-end theorems.
    - [PageOrder]: the index requests of a run, followed through every
      statement of [main] whatever the network answers.
    - [UserAgent]: what a run promises of the headers: one draw per
      request, and the [i]-th request goes out with [{'User-Agent':
      UA.random}] of the [i]-th draw.
    - [Script]: the entry point (lines 80-81): [main()] run with the
      concrete client, and the text the logging configuration writes to
      standard error for the run.
    [Pagination], [Index], [Spider] and [PageOrder] are written against
    the class [ApiClient], so their theorems hold for every client that
    satisfies the laws; the concrete runs use [scrape_api].

    What the theorems show, by group (each group is in its component's file):
    - refinement ([Spider.main_refines]): on a fresh output directory and a
      server that answers as the spec assumes, [main] ends normally, creates
      only the output directory, writes exactly the files the spec's
      page-by-page description gives and issues exactly its requests;
    - order and progress ([PageOrder.main_index_requests],
      [Spider.page_loop_visits_every_page]): whatever the network answers,
      a run asks for page 1 for the count and then for the pages
      [1..m] of [range(1, n + 1)] in order, all [n] of them when it
      returns; on pages answered as the spec assumes the loop skips failed
      or empty pages without stopping;
    - errors ([Spider], [Pagination], [Index]): a detail whose [Code] is not
      200 ends the run with [NameError] (line 73 names the undefined
      variable [detail_url]); a failed detail fetch ends it with
      [AttributeError]; the first index request is unguarded;
      [parse_index(None)] raises; for a keyword [a/b] the file of a page
      lies in [./a/b/a], which is never created, so its save raises
      [FileNotFoundError];
    - one page ([Spider]): a page with valid records writes their
      [json.dump] to the [FILENAME] path, a falsy index is skipped, and
      the detail loop keeps the records in order;
    - arithmetic ([Pagination]): the page count is the ceiling of
      [count / 10] for every integer, and pages [1..total] cover exactly
      the results;
    - client ([Client]): [scrape_api] never raises, issues exactly one
      request, with the User-Agent header of the generator's next draw,
      logs one info line and at most one error line, and returns the body
      only on status 200 with a JSON body;
    - run-wide invariants ([Spider.main_log_audit], [UserAgent], by one
      lemma [main_inv] parameterised by the invariant): the log is an
      exact audit trail of the requests, and the requests and the draws
      of the User-Agent generator stay paired one to one, in order;
    - persistence ([JsonLoad]): the text [save_data] writes decodes back
      to the records;
    - logging ([Logging]): a log line reads back to its level and message,
      and its timestamp has 19 characters for every valid time;
    - URLs ([Query]): the index URL carries exactly the three parameters
      when the keyword has no [&] and no [#].

    Fuel: [os.makedirs] recurses on [os.path.split]'s head, which is
    strictly shorter than its argument; the model recurses with fuel equal
    to the length of the path plus one, and [FileSystem.makedirs_fuel_enough]
    shows that any larger fuel gives the same run.  The JSON decoder spends
    one step per value and per item; [JsonLoad.json_size_le] shows that the
    length of the text bounds what it needs.  All other recursion is
    structural (over lists, strings, the page range and the generator).

    Not modelled: the HTTP transport itself ([requests], a library the
    script only calls: timeouts, retries, the exchange) is an oracle
    indexed by the position and URL of the request, which does not look
    at the headers; the decoding [response.json()] does is the oracle's;
    which browsers [fake_useragent] picks from is left to the generator's
    oracle; the imports (lines 1-5); the prompt [input()] writes to
    standard output; the local time of a log record is an oracle (a
    clock), and the tracebacks Python writes to standard error (the one
    [exc_info=True] appends to the record of line 27, and the one of an
    uncaught exception) are not; [logging] directives other than the ones
    lines 11 and 12 use; [str.format] fields other than plain names (the
    templates use no others); JSON floats; [\u] escapes above [\u007f]
    in the decoder; the process-level behaviour of an uncaught exception
    (the model returns it as a value); paths are resolved without
    symbolic links; strings are byte strings (UTF-8), so Python's
    character-level iteration over a non-ASCII [str] is modelled byte by
    byte. *)

From stdpp Require Export base strings list pretty sets gmap.
From Stdlib Require Export ZArith Ascii.

Declare Scope spider_scope.
Delimit Scope spider_scope with spider.

Create HintDb spider.
Create Rewrite HintDb spider_rw.

(** stdpp makes [String.append] opaque to [simpl]; the models compute on
    string literals, so let [simpl] unfold it on a constructor. *)
#[global] Arguments String.append _ _ : simpl nomatch.

(** ** Strings as lists of characters *)

Lemma string_app_assoc (a b c : string) : a +:+ (b +:+ c) = (a +:+ b) +:+ c.
Proof. induction a as [|x a IH]; simpl; [done | by rewrite IH]. Qed.

Lemma string_app_nil_r (a : string) : a +:+ "" = a.
Proof. induction a as [|x a IH]; simpl; [done | by rewrite IH]. Qed.

Lemma string_length_app (a b : string) :
  String.length (a +:+ b) = String.length a + String.length b.
Proof. induction a as [|x a IH]; simpl; auto. Qed.

Lemma list_ascii_of_string_app (a b : string) :
  String.list_ascii_of_string (a +:+ b) =
  String.list_ascii_of_string a ++ String.list_ascii_of_string b.
Proof. induction a as [|x a IH]; simpl; [done | by rewrite IH]. Qed.

Lemma list_ascii_of_string_inj (a b : string) :
  String.list_ascii_of_string a = String.list_ascii_of_string b -> a = b.
Proof.
  intros H. rewrite <- (String.string_of_list_ascii_of_string a),
    <- (String.string_of_list_ascii_of_string b), H. done.
Qed.

Lemma string_app_inv_head (a b c : string) : a +:+ b = a +:+ c -> b = c.
Proof. apply (inj (String.append a)). Qed.

Lemma string_app_inv_tail (a b c : string) : a +:+ c = b +:+ c -> a = b.
Proof.
  intros H%(f_equal String.list_ascii_of_string). rewrite !list_ascii_of_string_app in H.
  apply app_inv_tail in H. by apply list_ascii_of_string_inj.
Qed.

#[export] Hint Rewrite string_app_nil_r list_ascii_of_string_app : spider_rw.

(** ** Options and lists *)

Lemma fmap_Some_inv {A B} (f : A -> B) (o : option A) (b : B) :
  f <$> o = Some b -> exists a, o = Some a /\ b = f a.
Proof. destruct o; simpl; intros; simplify_eq; eauto. Qed.

Lemma Forall_app_inv_r {A} (P : A -> Prop) (l1 l2 : list A) :
  Forall P (l1 ++ l2) -> Forall P l2.
Proof. rewrite Forall_app. tauto. Qed.

(** ** Tactics *)

(** [case_eqb] splits on a boolean string or integer test in the
    goal and rewrites its reflection. *)
(** ** Prefixes *)

(** [s] without the prefix [p], when [s] starts with [p]. *)
Fixpoint strip_prefix (p s : string) : option string :=
  match p, s with
  | EmptyString, _ => Some s
  | String a p', String b s' => if Ascii.eqb a b then strip_prefix p' s' else None
  | String _ _, EmptyString => None
  end.

Lemma strip_prefix_app p s : strip_prefix p (p +:+ s) = Some s.
Proof. induction p as [|a p IH]; simpl; [done|]. by rewrite Ascii.eqb_refl. Qed.

#[export] Hint Rewrite strip_prefix_app : spider_rw.

Ltac case_eqb :=
  match goal with
  | |- context [String.eqb ?a ?b] =>
      destruct (String.eqb_spec a b); subst
  | |- context [Z.eqb ?a ?b] =>
      destruct (Z.eqb_spec a b); subst
  | |- context [Nat.eqb ?a ?b] =>
      destruct (Nat.eqb_spec a b); subst
  end.
