(* ===== verification/PyValue.v ===== *)
(** * Python values, exceptions and the value operations of the script

    The script only handles values that [response.json()] returns, so a
    Python value is a JSON value: [None], [bool], [int], [str], [list] and
    [dict] with string keys (floats are not modelled).  This file gives
    the exceptions the script can raise, the result type of a fallible
    operation, and the Python operations the script applies to values:
    truthiness ([if not x]), [d.get(k)], iteration ([for x in v]), [//],
    [%], [+], the test [x != 200], and [str()]/[repr()] as used by
    [str.format] and [logging]. *)

From S2P Require Import Prelude.

(** ** Exceptions *)

(** The Python exceptions that the modelled code can raise.  The [OSError]
    subclasses raised by [os] and [open] are listed individually;
    [RequestException] stands for every exception of [requests.get]
    (timeout, connection error, ...) and [JSONDecodeError] for the one of
    [response.json()] on a body that is not JSON. *)
Inductive exn :=
  | AttributeError | TypeError | NameError | KeyError | ValueError
  | IndexError | ZeroDivisionError | EOFError
  | FileNotFoundError | FileExistsError | NotADirectoryError
  | IsADirectoryError
  | RequestException | JSONDecodeError.

#[global] Instance exn_eq_dec : EqDecision exn.
Proof. solve_decision. Defined.

(** A fallible computation: a value, or a raised exception. *)
Inductive result (A : Type) :=
  | Ok (a : A)
  | Exc (e : exn).
Arguments Ok {A} a.
Arguments Exc {A} e.

Definition result_bind {A B} (r : result A) (f : A -> result B) : result B :=
  match r with Ok a => f a | Exc e => Exc e end.

Notation "x <-? r ;; k" := (result_bind r (fun x => k))
  (at level 100, r at next level, right associativity) : spider_scope.
Open Scope spider_scope.

(** ** Values *)

Local Unset Elimination Schemes.
Inductive pyval :=
  | PyNone
  | PyBool (b : bool)
  | PyInt (z : Z)
  | PyStr (s : string)
  | PyList (l : list pyval)
  | PyDict (kvs : list (string * pyval)).
Local Set Elimination Schemes.

(** The induction principle that sees through the nested lists. *)
Section pyval_ind.
Variable P : pyval -> Prop.
Hypothesis HNone : P PyNone.
Hypothesis HBool : forall b, P (PyBool b).
Hypothesis HInt : forall z, P (PyInt z).
Hypothesis HStr : forall s, P (PyStr s).
Hypothesis HList : forall l, Forall P l -> P (PyList l).
Hypothesis HDict : forall kvs, Forall (fun kv => P kv.2) kvs -> P (PyDict kvs).

Fixpoint pyval_ind' (v : pyval) : P v :=
  match v with
  | PyNone => HNone
  | PyBool b => HBool b
  | PyInt z => HInt z
  | PyStr s => HStr s
  | PyList l =>
      HList l ((fix go (l : list pyval) : Forall P l :=
                  match l with
                  | [] => Forall_nil_2 _
                  | x :: l' => Forall_cons_2 _ x l' (pyval_ind' x) (go l')
                  end) l)
  | PyDict kvs =>
      HDict kvs ((fix go (kvs : list (string * pyval))
                    : Forall (fun kv => P kv.2) kvs :=
                    match kvs with
                    | [] => Forall_nil_2 _
                    | kv :: kvs' =>
                        Forall_cons_2 _ kv kvs' (pyval_ind' kv.2) (go kvs')
                    end) kvs)
  end.
End pyval_ind.

Fixpoint pyval_beq (x y : pyval) : bool :=
  match x, y with
  | PyNone, PyNone => true
  | PyBool a, PyBool b => Bool.eqb a b
  | PyInt a, PyInt b => Z.eqb a b
  | PyStr a, PyStr b => String.eqb a b
  | PyList a, PyList b =>
      (fix go (a b : list pyval) : bool :=
         match a, b with
         | [], [] => true
         | x :: a', y :: b' => pyval_beq x y && go a' b'
         | _, _ => false
         end) a b
  | PyDict a, PyDict b =>
      (fix go (a b : list (string * pyval)) : bool :=
         match a, b with
         | [], [] => true
         | (k, x) :: a', (k', y) :: b' =>
             String.eqb k k' && pyval_beq x y && go a' b'
         | _, _ => false
         end) a b
  | _, _ => false
  end.

Lemma pyval_beq_eq (x y : pyval) : pyval_beq x y = true <-> x = y.
Proof.
  revert y. induction x as [| b | z | s | l IH | kvs IH] using pyval_ind';
    intros [| b' | z' | s' | l' | kvs']; simpl;
    try (split; congruence).
  - rewrite Bool.eqb_true_iff. split; congruence.
  - rewrite Z.eqb_eq. split; congruence.
  - rewrite String.eqb_eq. split; congruence.
  - revert l'. induction IH as [| x l Hx Hl IHl]; intros [| y l']; simpl;
      try (split; congruence).
    rewrite andb_true_iff, Hx, IHl. split; [intros [-> [= ->]] | intros [= -> ->]]; done.
  - revert kvs'. induction IH as [| [k x] kvs Hx Hl IHl]; intros [| [k' y] kvs']; simpl;
      try (split; congruence).
    simpl in Hx. rewrite !andb_true_iff, String.eqb_eq, Hx, IHl.
    split; [intros [[-> ->] [= ->]] | intros [= -> -> ->]]; done.
Qed.

#[global] Instance pyval_eq_dec : EqDecision pyval.
Proof.
  intros x y. destruct (pyval_beq x y) eqn:E.
  - left. by apply pyval_beq_eq.
  - right. intros H%pyval_beq_eq. congruence.
Defined.

(** ** Truthiness: [bool(v)] *)

Definition truthy (v : pyval) : bool :=
  match v with
  | PyNone => false
  | PyBool b => b
  | PyInt z => negb (Z.eqb z 0)
  | PyStr s => negb (String.eqb s "")
  | PyList l => negb (length l =? 0)%nat
  | PyDict kvs => negb (length kvs =? 0)%nat
  end.

(** ** [d.get(k)] *)

(** A dict built by [json.loads] has distinct keys; the lookup returns the
    value of the key, or [None] when it is absent. *)
Fixpoint dict_lookup (k : string) (kvs : list (string * pyval)) : option pyval :=
  match kvs with
  | [] => None
  | (k', v) :: kvs' => if String.eqb k k' then Some v else dict_lookup k kvs'
  end.

(** [v.get(k)]: only a dict has the method [get]; on any other value the
    attribute lookup raises [AttributeError]. *)
Definition py_get (v : pyval) (k : string) : result pyval :=
  match v with
  | PyDict kvs =>
      match dict_lookup k kvs with Some x => Ok x | None => Ok PyNone end
  | _ => Exc AttributeError
  end.

(** ** Iteration: [for x in v] *)

Fixpoint string_chars (s : string) : list pyval :=
  match s with
  | EmptyString => []
  | String c s' => PyStr (String c EmptyString) :: string_chars s'
  end.

(** A list yields its elements, a dict its keys, a string its characters;
    [None], [bool] and [int] are not iterable. *)
Definition py_iter (v : pyval) : result (list pyval) :=
  match v with
  | PyList l => Ok l
  | PyDict kvs => Ok (map (fun kv => PyStr kv.1) kvs)
  | PyStr s => Ok (string_chars s)
  | _ => Exc TypeError
  end.

(** ** Integer operations *)

(** [bool] is a subclass of [int] in Python. *)
Definition as_int (v : pyval) : option Z :=
  match v with
  | PyInt z => Some z
  | PyBool b => Some (if b then 1 else 0)%Z
  | _ => None
  end.

(** [a // b] and [a % b] on integers round towards minus infinity, as
    [Z.div] and [Z.modulo] do.  On a non-integer operand both raise
    [TypeError] (a [str] left operand of [%] is printf-style formatting
    instead, but the script applies [//] to the same operand right after,
    which raises [TypeError] in every case). *)
Definition py_floordiv (a b : pyval) : result pyval :=
  match as_int a, as_int b with
  | Some x, Some y => if Z.eqb y 0 then Exc ZeroDivisionError else Ok (PyInt (x / y))
  | _, _ => Exc TypeError
  end.

Definition py_mod (a b : pyval) : result pyval :=
  match as_int a, as_int b with
  | Some x, Some y => if Z.eqb y 0 then Exc ZeroDivisionError else Ok (PyInt (x mod y))
  | _, _ => Exc TypeError
  end.

Definition py_add (a b : pyval) : result pyval :=
  match a, b with
  | PyStr x, PyStr y => Ok (PyStr (x +:+ y))
  | PyList x, PyList y => Ok (PyList (x ++ y))
  | _, _ =>
      match as_int a, as_int b with
      | Some x, Some y => Ok (PyInt (x + y))
      | _, _ => Exc TypeError
      end
  end.

(** [v == n] for an integer literal [n]: only an [int] (or a [bool], whose
    value is 0 or 1) can be equal to it. *)
Definition py_eq_int (v : pyval) (n : Z) : bool :=
  match as_int v with Some z => Z.eqb z n | None => false end.

(** [range(a, b)] with step 1. *)
Definition py_range (a b : pyval) : result (list pyval) :=
  match as_int a, as_int b with
  | Some x, Some y =>
      Ok (map (fun i => PyInt (x + Z.of_nat i)) (seq 0 (Z.to_nat (y - x))))
  | _, _ => Exc TypeError
  end.

(** ** [repr()] and [str()] *)

Definition hex_digit (n : N) : ascii :=
  match String.get (N.to_nat n) "0123456789abcdef" with
  | Some c => c
  | None => "0"%char
  end.

(** One character of [repr(s)], given the quote character in use:
    backslash and the quote are escaped, [\t], [\n], [\r] get their short
    escapes, other control characters and DEL become [\xNN]. *)
Definition repr_char (q c : ascii) : string :=
  let n := Ascii.N_of_ascii c in
  if Ascii.eqb c q || Ascii.eqb c "\"%char then String "\"%char (String c EmptyString)
  else if Ascii.eqb c "009"%char then "\t"
  else if Ascii.eqb c "010"%char then "\n"
  else if Ascii.eqb c "013"%char then "\r"
  else if (n <? 32)%N || (n =? 127)%N then
    String "\"%char (String "x"%char (String (hex_digit (n / 16))
      (String (hex_digit (n mod 16)) EmptyString)))
  else String c EmptyString.

Fixpoint string_has (c : ascii) (s : string) : bool :=
  match s with
  | EmptyString => false
  | String c' s' => Ascii.eqb c c' || string_has c s'
  end.

Fixpoint repr_chars (q : ascii) (s : string) : string :=
  match s with
  | EmptyString => EmptyString
  | String c s' => repr_char q c +:+ repr_chars q s'
  end.

(** [repr(s)] uses single quotes unless [s] has a single quote and no
    double quote. *)
Definition dquote : ascii := "034"%char.

Definition repr_str (s : string) : string :=
  let q := if string_has "'"%char s && negb (string_has dquote s)
           then dquote else "'"%char in
  String q (repr_chars q s +:+ String q EmptyString).

Fixpoint py_repr (v : pyval) : string :=
  match v with
  | PyNone => "None"
  | PyBool true => "True"
  | PyBool false => "False"
  | PyInt z => pretty z
  | PyStr s => repr_str s
  | PyList l => "[" +:+ String.concat ", " (map py_repr l) +:+ "]"
  | PyDict kvs =>
      "{" +:+ String.concat ", "
        (map (fun '(k, x) => repr_str k +:+ ": " +:+ py_repr x) kvs) +:+ "}"
  end.

(** [str(v)] is [repr(v)] except on a [str], which is its own text. *)
Definition py_str (v : pyval) : string :=
  match v with
  | PyStr s => s
  | _ => py_repr v
  end.
