(* ===== verification/StateExc.v ===== *)
(** * A state-and-exception monad in which an exception keeps the state

    Python statements change the world before a later statement raises, and
    those changes stay: a log line written before an [AttributeError], the
    directories [os.makedirs] created before [mkdir] fails.  [ST S A] is a
    computation from a state to a result and the final state, whether the
    result is a value or an exception.  The file gives [ret], [bind],
    [raise], [catch], the lifting of a [result], the loop over a list, the
    monad laws (pointwise in the state), and the run lemmas that the
    components use to step through a computation. *)

From S2P Require Import Prelude PyValue.

Definition ST (S A : Type) : Type := S -> result A * S.

Section ST.
Context {S : Type}.

Definition st_ret {A} (a : A) : ST S A := fun s => (Ok a, s).

Definition st_bind {A B} (m : ST S A) (k : A -> ST S B) : ST S B :=
  fun s => match m s with
           | (Ok a, s') => k a s'
           | (Exc e, s') => (Exc e, s')
           end.

Definition st_raise {A} (e : exn) : ST S A := fun s => (Exc e, s).

Definition st_lift {A} (r : result A) : ST S A := fun s => (r, s).

Definition st_get : ST S S := fun s => (Ok s, s).

Definition st_modify (f : S -> S) : ST S unit := fun s => (Ok tt, f s).

(** [try: m except: h(e)], the handler seeing the state [m] left. *)
Definition st_catch {A} (m : ST S A) (h : exn -> ST S A) : ST S A :=
  fun s => match m s with
           | (Exc e, s') => h e s'
           | o => o
           end.

(** [for x in l: body(x)]. *)
Fixpoint st_for_each {A} (l : list A) (body : A -> ST S unit) : ST S unit :=
  match l with
  | [] => st_ret tt
  | x :: l' => st_bind (body x) (fun _ => st_for_each l' body)
  end.
End ST.

Notation "x <- m ;; k" := (st_bind m (fun x => k))
  (at level 100, m at next level, right associativity) : spider_scope.
Notation "m ;;; k" := (st_bind m (fun _ => k))
  (at level 100, right associativity) : spider_scope.

(** ** Laws and run lemmas *)

Section laws.
Context {S : Type}.

Lemma st_bind_ret_l {A B} (a : A) (k : A -> ST S B) s :
  st_bind (st_ret a) k s = k a s.
Proof. done. Qed.

Lemma st_bind_ret_r {A} (m : ST S A) s : st_bind m st_ret s = m s.
Proof. unfold st_bind. by destruct (m s) as [[] ?]. Qed.

Lemma st_bind_assoc {A B C} (m : ST S A) (k : A -> ST S B) (j : B -> ST S C) s :
  st_bind (st_bind m k) j s = st_bind m (fun a => st_bind (k a) j) s.
Proof. unfold st_bind. by destruct (m s) as [[] ?]. Qed.

Lemma st_bind_lift_ok {A B} (r : result A) (a : A) (k : A -> ST S B) s :
  r = Ok a -> st_bind (st_lift r) k s = k a s.
Proof. by intros ->. Qed.

Lemma st_bind_ok {A B} (m : ST S A) (k : A -> ST S B) s a s' :
  m s = (Ok a, s') -> st_bind m k s = k a s'.
Proof. unfold st_bind. by intros ->. Qed.

Lemma st_bind_exc {A B} (m : ST S A) (k : A -> ST S B) s e s' :
  m s = (Exc e, s') -> st_bind m k s = (Exc e, s').
Proof. unfold st_bind. by intros ->. Qed.

(** Two computations that agree on every state are interchangeable under
    [bind]. *)
Lemma st_bind_ext {A B} (m m' : ST S A) (k k' : A -> ST S B) s :
  (forall s, m s = m' s) -> (forall a s, k a s = k' a s) ->
  st_bind m k s = st_bind m' k' s.
Proof. intros Hm Hk. unfold st_bind. rewrite Hm. by destruct (m' s) as [[] ?]. Qed.

Lemma st_catch_ext {A} (m m' : ST S A) (h : exn -> ST S A) s :
  (forall s, m s = m' s) -> st_catch m h s = st_catch m' h s.
Proof. intros Hm. unfold st_catch. by rewrite Hm. Qed.

Lemma st_for_each_app {A} (l1 l2 : list A) (body : A -> ST S unit) s :
  st_for_each (l1 ++ l2) body s =
  st_bind (st_for_each l1 body) (fun _ => st_for_each l2 body) s.
Proof.
  revert s. induction l1 as [|x l1 IH]; intros s; simpl; [done|].
  rewrite st_bind_assoc. apply st_bind_ext; [done|]. intros [] s'. apply IH.
Qed.

(** [preserves I m]: whatever [m] returns, value or exception, it leaves
    a state satisfying [I] when it starts in one. *)
Definition preserves {A} (I : S -> Prop) (m : ST S A) : Prop :=
  forall s, I s -> I (m s).2.

Lemma preserves_ret {A} I (a : A) : preserves I (st_ret a).
Proof. by intros s. Qed.

Lemma preserves_raise {A} I e : preserves I (@st_raise S A e).
Proof. by intros s. Qed.

Lemma preserves_lift {A} I (r : result A) : preserves I (st_lift r).
Proof. by intros s. Qed.

Lemma preserves_get I : preserves I st_get.
Proof. by intros s. Qed.

Lemma preserves_bind {A B} I (m : ST S A) (k : A -> ST S B) :
  preserves I m -> (forall a, preserves I (k a)) -> preserves I (st_bind m k).
Proof.
  intros Hm Hk s Hs. unfold st_bind. specialize (Hm s Hs).
  destruct (m s) as [[a|e] s']; simpl in *; [by apply Hk | done].
Qed.

Lemma preserves_catch {A} I (m : ST S A) (h : exn -> ST S A) :
  preserves I m -> (forall e, preserves I (h e)) -> preserves I (st_catch m h).
Proof.
  intros Hm Hh s Hs. unfold st_catch. specialize (Hm s Hs).
  destruct (m s) as [[a|e] s']; simpl in *; [done | by apply Hh].
Qed.

(** A loop whose body preserves [I] on every element preserves [I]. *)
Lemma preserves_for_each {A} I (l : list A) (body : A -> ST S unit) :
  (forall x, x ∈ l -> preserves I (body x)) -> preserves I (st_for_each l body).
Proof.
  induction l as [|x l IH]; intros Hb; simpl; [apply preserves_ret|].
  apply preserves_bind; [apply Hb; set_solver|].
  intros _. apply IH. intros y Hy. apply Hb. set_solver.
Qed.
End laws.

#[export] Hint Rewrite @st_bind_ret_l @st_bind_assoc : spider_rw.
#[export] Hint Resolve preserves_ret preserves_raise preserves_lift preserves_get
  preserves_bind preserves_catch : spider.

(** [run_bind] steps through [st_bind] when the first computation has been
    computed to a value or an exception in a hypothesis. *)
Ltac run_bind :=
  match goal with
  | H : ?m ?s = (Ok _, _) |- context [st_bind ?m _ ?s] => rewrite (st_bind_ok _ _ _ _ _ H)
  | H : ?m ?s = (Exc _, _) |- context [st_bind ?m _ ?s] => rewrite (st_bind_exc _ _ _ _ _ H)
  end.
