(* ===== verification/FileSystem.v ===== *)
(** * The filesystem the script writes to

    [main] calls [os.path.exists(dirname) or os.makedirs(dirname)] (line 64)
    and [save_data] calls [open(filename, 'w')] (line 51).  This file models
    the directory tree those calls act on, POSIX path resolution (without
    symbolic links), and the library functions: [os.path.split]
    ([posixpath.split]), [os.path.exists], [os.path.isdir], [os.mkdir],
    [os.makedirs] (with [exist_ok=False]) and [open(path, 'w')] followed by
    writes.  The tree is a set of directories and a map from file paths to
    contents, both keyed by absolute lists of components.  Its
    well-formedness invariant [fs_wf] (the tree is closed under parents,
    files live in directories, and no path is both) is preserved by every
    operation. *)

From S2P Require Import Prelude PyValue StateExc.

(** ** State *)

Record fs := mkFs {
  fs_cwd : list string;                 (** absolute path of [os.getcwd()] *)
  fs_dirs : gset (list string);         (** existing directories *)
  fs_files : gmap (list string) string  (** regular files and their text *)
}.

Definition is_dir (F : fs) (p : list string) : bool := bool_decide (p ∈ fs_dirs F).
Definition is_file (F : fs) (p : list string) : bool := bool_decide (is_Some (fs_files F !! p)).

(** The tree is closed under parents, the working directory is a directory,
    every file's parent is a directory, and no path is both. *)
Definition fs_wf (F : fs) : Prop :=
  [] ∈ fs_dirs F /\ fs_cwd F ∈ fs_dirs F /\
  (forall d, d ∈ fs_dirs F -> removelast d ∈ fs_dirs F) /\
  (forall f, is_Some (fs_files F !! f) -> removelast f ∈ fs_dirs F /\ f ∉ fs_dirs F).

(** ** Path syntax *)

Fixpoint split_on (sep : ascii) (s : string) : list string :=
  match s with
  | EmptyString => [EmptyString]
  | String c s' =>
      let rest := split_on sep s' in
      if Ascii.eqb c sep then EmptyString :: rest
      else match rest with
           | [] => [String c EmptyString]
           | w :: ws => String c w :: ws
           end
  end.

Definition slash : ascii := "/"%char.

(** [posixpath.split]: [head] is everything up to the last slash, with its
    trailing slashes removed unless it is made only of slashes; [tail] is
    what follows the last slash. *)
Fixpoint span_to_slash (l : list ascii) : list ascii * list ascii :=
  match l with
  | [] => ([], [])
  | c :: l' =>
      if Ascii.eqb c slash then ([], l)
      else let '(a, b) := span_to_slash l' in (c :: a, b)
  end.

Fixpoint drop_slashes (l : list ascii) : list ascii :=
  match l with
  | c :: l' => if Ascii.eqb c slash then drop_slashes l' else l
  | [] => []
  end.

Definition path_split (p : string) : string * string :=
  let '(rtail, rhead) := span_to_slash (rev (String.list_ascii_of_string p)) in
  let rhead' := match drop_slashes rhead with [] => rhead | l => l end in
  (String.string_of_list_ascii (rev rhead'), String.string_of_list_ascii (rev rtail)).

(** ** Resolution *)

(** The last component of a path names the object; [""] and ["."] name the
    directory reached so far and [".."] its parent. *)
Definition final_component (cur : list string) (c : string) : list string :=
  if String.eqb c "" || String.eqb c "." then cur
  else if String.eqb c ".." then removelast cur
  else cur ++ [c].

(** Every component before the last must be an existing directory. *)
Fixpoint walk (F : fs) (cur : list string) (comps : list string) : result (list string) :=
  match comps with
  | [] => Ok cur
  | [c] => Ok (final_component cur c)
  | c :: rest =>
      if String.eqb c "" || String.eqb c "." then walk F cur rest
      else if String.eqb c ".." then walk F (removelast cur) rest
      else if is_dir F (cur ++ [c]) then walk F (cur ++ [c]) rest
      else if is_file F (cur ++ [c]) then Exc NotADirectoryError
      else Exc FileNotFoundError
  end.

(** The empty components that trailing slashes leave after the last name;
    POSIX resolves [a/] as [a], which then has to be a directory. *)
Fixpoint drop_empty (l : list string) : list string :=
  match l with
  | EmptyString :: l' => drop_empty l'
  | _ => l
  end.

Definition strip_trailing (comps : list string) : list string := rev (drop_empty (rev comps)).

Fixpoint ends_with_slash (p : string) : bool :=
  match p with
  | EmptyString => false
  | String c EmptyString => Ascii.eqb c slash
  | String _ p' => ends_with_slash p'
  end.

Definition resolve (F : fs) (p : string) : result (list string) :=
  match p with
  | EmptyString => Exc FileNotFoundError
  | String c _ =>
      walk F (if Ascii.eqb c slash then [] else fs_cwd F) (strip_trailing (split_on slash p))
  end.

(** ** Library functions *)

(** [os.path.exists(p)]: [stat] succeeds; with a trailing slash only a
    directory does. *)
Definition path_exists (F : fs) (p : string) : bool :=
  match resolve F p with
  | Ok r => is_dir F r || (negb (ends_with_slash p) && is_file F r)
  | Exc _ => false
  end.

Definition path_isdir (F : fs) (p : string) : bool :=
  match resolve F p with Ok r => is_dir F r | Exc _ => false end.

(** [os.mkdir(p)]. *)
Definition mkdir (p : string) : ST fs unit :=
  fun F =>
    match resolve F p with
    | Exc e => (Exc e, F)
    | Ok r =>
        if is_dir F r || is_file F r then (Exc FileExistsError, F)
        else if is_dir F (removelast r) then
          (Ok tt, mkFs (fs_cwd F) ({[r]} ∪ fs_dirs F) (fs_files F))
        else (Exc FileNotFoundError, F)
    end.

(** [os.makedirs(name)] with [exist_ok=False]:
<<
    head, tail = path.split(name)
    if not tail:
        head, tail = path.split(head)
    if head and tail and not path.exists(head):
        try:
            makedirs(head, exist_ok=exist_ok)
        except FileExistsError:
            pass
        if tail == curdir:
            return
    mkdir(name, mode)
>>
    ([exist_ok=False] re-raises every [OSError] of [mkdir].)  The head is
    strictly shorter than [name], so [String.length name + 1] steps of
    fuel never run out ([makedirs_fuel_enough]). *)
Fixpoint makedirs_go (fuel : nat) (name : string) : ST fs unit :=
  match fuel with
  | O => st_raise FileNotFoundError
  | S fuel' =>
      let '(h0, t0) := path_split name in
      let '(h, t) := if String.eqb t0 "" then path_split h0 else (h0, t0) in
      F <- st_get ;;
      if negb (String.eqb h "") && negb (String.eqb t "") && negb (path_exists F h) then
        st_catch (makedirs_go fuel' h)
          (fun e => if decide (e = FileExistsError) then st_ret tt else st_raise e) ;;;
        if String.eqb t "." then st_ret tt else mkdir name
      else mkdir name
  end.

Definition makedirs (name : string) : ST fs unit :=
  makedirs_go (S (String.length name)) name.

(** [open(p, 'w')]: create or truncate the file; a directory, a name
    ending in a slash, a missing parent or a parent that is a file raise.
    Returns the resolved path that the following writes go to. *)
Definition open_w (p : string) : ST fs (list string) :=
  fun F =>
    match resolve F p with
    | Exc e => (Exc e, F)
    | Ok r =>
        if is_dir F r || ends_with_slash p then (Exc IsADirectoryError, F)
        else if is_dir F (removelast r) then
          (Ok r, mkFs (fs_cwd F) (fs_dirs F) (<[r := EmptyString]> (fs_files F)))
        else (Exc FileNotFoundError, F)
    end.

(** [f.write(text)] on a file opened by [open_w]. *)
Definition write_text (r : list string) (text : string) : ST fs unit :=
  fun F =>
    match fs_files F !! r with
    | Some old => (Ok tt, mkFs (fs_cwd F) (fs_dirs F) (<[r := old +:+ text]> (fs_files F)))
    | None => (Exc FileNotFoundError, F)
    end.

(** ** The invariant is preserved *)

Lemma is_dir_true F p : is_dir F p = true <-> p ∈ fs_dirs F.
Proof. unfold is_dir. by rewrite bool_decide_eq_true. Qed.

Lemma is_file_false F p : is_file F p = false <-> fs_files F !! p = None.
Proof.
  unfold is_file. rewrite bool_decide_eq_false.
  split; [by intros ?%eq_None_not_Some | intros -> []; discriminate].
Qed.

(** [is_dir]/[is_file] tests in hypotheses, turned into set membership. *)
Ltac fs_facts :=
  repeat match goal with
  | H : (_ || _) = false |- _ => apply orb_false_iff in H as [? ?]
  | H : is_dir _ _ = true |- _ => apply is_dir_true in H
  | H : is_dir _ _ = false |- _ =>
      apply not_true_iff_false in H; rewrite is_dir_true in H
  | H : is_file _ _ = false |- _ => apply is_file_false in H
  end.

Lemma mkdir_wf p : preserves fs_wf (mkdir p).
Proof.
  intros F (Hroot & Hcwd & Hpar & Hfiles). unfold mkdir.
  destruct (resolve F p) as [r|e]; simpl; [|done].
  destruct (is_dir F r) eqn:Hd, (is_file F r) eqn:Hf; simpl; try done.
  destruct (is_dir F (removelast r)) eqn:Hp; simpl; [|done].
  fs_facts. split_and!; simpl; [set_solver | set_solver | |].
  - intros d [->%elem_of_singleton | Hd']%elem_of_union; set_solver.
  - intros f Hf'. destruct (Hfiles f Hf') as [Hf1 Hf2]. split; [set_solver|].
    apply not_elem_of_union. split; [|done].
    intros ->%elem_of_singleton. rewrite Hf in Hf'. by destruct Hf'.
Qed.

Lemma open_w_wf p : preserves fs_wf (open_w p).
Proof.
  intros F (Hroot & Hcwd & Hpar & Hfiles). unfold open_w.
  destruct (resolve F p) as [r|e]; simpl; [|done].
  destruct (is_dir F r) eqn:Hd; simpl; [done|].
  destruct (ends_with_slash p); simpl; [done|].
  destruct (is_dir F (removelast r)) eqn:Hp; simpl; [|done].
  fs_facts. split_and!; simpl; [done | done | done |].
  intros f. rewrite lookup_insert_is_Some'. intros [<- | Hf]; [done|]. by apply Hfiles.
Qed.

Lemma write_text_wf r text : preserves fs_wf (write_text r text).
Proof.
  intros F (Hroot & Hcwd & Hpar & Hfiles). unfold write_text.
  destruct (fs_files F !! r) as [old|] eqn:Hr; simpl; [|done].
  split_and!; simpl; [done | done | done |].
  intros f. rewrite lookup_insert_is_Some'. intros [<- | Hf]; [|by apply Hfiles].
  apply Hfiles. by rewrite Hr.
Qed.

Lemma makedirs_go_wf fuel name : preserves fs_wf (makedirs_go fuel name).
Proof.
  revert name. induction fuel as [|fuel IH]; intros name; simpl; [apply preserves_raise|].
  destruct (path_split name) as [h0 t0].
  destruct (if String.eqb t0 "" then path_split h0 else (h0, t0)) as [h t].
  apply preserves_bind; [apply preserves_get|]. intros F.
  destruct (_ && _ && _); [|apply mkdir_wf].
  apply preserves_bind.
  - apply preserves_catch; [apply IH|]. intros e. case_decide; auto with spider.
  - intros _. destruct (String.eqb t "."); [apply preserves_ret | apply mkdir_wf].
Qed.

Lemma makedirs_wf name : preserves fs_wf (makedirs name).
Proof. apply makedirs_go_wf. Qed.

#[export] Hint Resolve mkdir_wf open_w_wf write_text_wf makedirs_wf : spider.

(** ** Plain names *)

(** A name with no slash that is not [""], ["."] or [".."] names one new
    entry of a directory. *)
Definition plain_name (n : string) : bool :=
  negb (string_has slash n) && negb (String.eqb n "") &&
  negb (String.eqb n ".") && negb (String.eqb n "..").

Lemma string_has_app c a b : string_has c (a +:+ b) = string_has c a || string_has c b.
Proof. induction a as [|x a IH]; simpl; [done|]. by rewrite IH, orb_assoc. Qed.

Lemma split_on_nosep sep a : string_has sep a = false -> split_on sep a = [a].
Proof.
  induction a as [|x a IH]; simpl; [done|].
  intros [Hx Ha]%orb_false_iff. rewrite IH by done. by rewrite Ascii.eqb_sym, Hx.
Qed.

Lemma split_on_sep_app sep a b :
  string_has sep a = false -> split_on sep (a +:+ String sep b) = a :: split_on sep b.
Proof.
  induction a as [|x a IH]; simpl.
  - by rewrite Ascii.eqb_refl.
  - intros [Hx Ha]%orb_false_iff. rewrite IH by done. by rewrite Ascii.eqb_sym, Hx.
Qed.

Lemma plain_name_spec n :
  plain_name n = true ->
  string_has slash n = false /\ n <> "" /\ n <> "." /\ n <> "..".
Proof.
  unfold plain_name. rewrite !andb_true_iff, !negb_true_iff, !String.eqb_neq.
  naive_solver.
Qed.

Lemma final_component_plain cur n : plain_name n = true -> final_component cur n = cur ++ [n].
Proof.
  intros (_ & H1 & H2 & H3)%plain_name_spec. unfold final_component.
  by rewrite (proj2 (String.eqb_neq _ _) H1), (proj2 (String.eqb_neq _ _) H2),
    (proj2 (String.eqb_neq _ _) H3).
Qed.

Lemma strip_trailing_last l x : x <> "" -> strip_trailing (l ++ [x]) = l ++ [x].
Proof.
  intros Hx. unfold strip_trailing. rewrite rev_app_distr. cbn [rev app].
  destruct x; [done|]. cbn [drop_empty rev]. by rewrite rev_involutive.
Qed.

Lemma ends_with_slash_plain n : string_has slash n = false -> ends_with_slash n = false.
Proof.
  induction n as [|x n IH]; [done|]. cbn [string_has]. intros [Hx Hn]%orb_false_iff.
  destruct n; [cbn [ends_with_slash]; by rewrite Ascii.eqb_sym | by apply IH].
Qed.

Lemma ends_with_slash_app a n : n <> "" -> ends_with_slash (a +:+ n) = ends_with_slash n.
Proof.
  intros Hn. induction a as [|x a IH]; [done|]. cbn [String.append].
  rewrite <- IH. destruct (a +:+ n) eqn:E; [|done].
  destruct a, n; simpl in E; congruence.
Qed.

(** [./n] resolves to the entry [n] of the working directory. *)
Lemma resolve_dot_slash F n :
  plain_name n = true -> resolve F ("./" +:+ n) = Ok (fs_cwd F ++ [n]).
Proof.
  intros Hn. pose proof (plain_name_spec n Hn) as (Hs & Hne & _).
  simpl. rewrite split_on_nosep by done.
  rewrite (strip_trailing_last ["."] n Hne : strip_trailing [".";n] = [".";n]). simpl. by rewrite final_component_plain.
Qed.

(** [./n/m] resolves to the entry [m] of the directory [./n]. *)
Lemma resolve_dot_slash2 F n m :
  plain_name n = true -> plain_name m = true -> fs_cwd F ++ [n] ∈ fs_dirs F ->
  resolve F ("./" +:+ n +:+ "/" +:+ m) = Ok (fs_cwd F ++ [n; m]).
Proof.
  intros Hn Hm Hd. pose proof (plain_name_spec n Hn) as (Hsn & _).
  pose proof (plain_name_spec m Hm) as (Hsm & _).
  simpl. rewrite (split_on_sep_app slash n m Hsn : split_on slash (n +:+ String "/"%char m) = _).
  rewrite (split_on_nosep slash m Hsm).
  pose proof (plain_name_spec m Hm) as (_ & Hme & _).
  rewrite (strip_trailing_last [".";n] m Hme : strip_trailing [".";n;m] = [".";n;m]). simpl.
  pose proof (plain_name_spec n Hn) as (_ & H1 & H2 & H3).
  rewrite (proj2 (String.eqb_neq _ _) H1), (proj2 (String.eqb_neq _ _) H2),
    (proj2 (String.eqb_neq _ _) H3). simpl.
  rewrite (proj2 (is_dir_true _ _) Hd), final_component_plain by done.
  by rewrite <- app_assoc.
Qed.

(** The first three components of [./a/b/a/rest] are walked as
    directories: when [./a/b] is a directory but [./a/b/a] is nothing, the
    path does not resolve. *)
Lemma resolve_missing_third F a b rest :
  plain_name a = true -> plain_name b = true -> string_has slash rest = false -> rest <> "" ->
  fs_cwd F ++ [a] ∈ fs_dirs F -> fs_cwd F ++ [a; b] ∈ fs_dirs F ->
  fs_cwd F ++ [a; b; a] ∉ fs_dirs F -> fs_files F !! (fs_cwd F ++ [a; b; a]) = None ->
  resolve F ("./" +:+ a +:+ "/" +:+ b +:+ "/" +:+ a +:+ "/" +:+ rest) = Exc FileNotFoundError.
Proof.
  intros Ha Hb Hr Hne Hd1 Hd2 Hn3 Hf3.
  pose proof (plain_name_spec a Ha) as (Hsa & Ha1 & Ha2 & Ha3).
  pose proof (plain_name_spec b Hb) as (Hsb & Hb1 & Hb2 & Hb3).
  simpl. rewrite (split_on_sep_app slash a _ Hsa : split_on slash (a +:+ String "/"%char _) = _).
  rewrite (split_on_sep_app slash b _ Hsb : split_on slash (b +:+ String "/"%char _) = _).
  rewrite (split_on_sep_app slash a _ Hsa : split_on slash (a +:+ String "/"%char _) = _).
  rewrite (split_on_nosep slash rest Hr).
  rewrite (strip_trailing_last [".";a;b;a] rest Hne : strip_trailing [".";a;b;a;rest] = _).
  change (walk F (fs_cwd F) (["."; a; b; a] ++ [rest])) with (walk F (fs_cwd F) [a; b; a; rest]).
  cbn [walk]. rewrite !(proj2 (String.eqb_neq _ _)) by done. cbn [orb].
  rewrite <- !app_assoc. cbn [app].
  rewrite (proj2 (is_dir_true _ _) Hd1), (proj2 (is_dir_true _ _) Hd2).
  replace (is_dir F (fs_cwd F ++ [a; b; a])) with false
    by (symmetry; apply not_true_iff_false; by rewrite is_dir_true).
  by rewrite (proj2 (is_file_false _ _) Hf3).
Qed.

Lemma string_has_false_Forall c s :
  string_has c s = false <-> Forall (fun x => x <> c) (String.list_ascii_of_string s).
Proof.
  induction s as [|x s IH]; simpl; [split; auto|].
  rewrite orb_false_iff, Forall_cons, IH, <- not_true_iff_false, Ascii.eqb_eq.
  split; intros [? ?]; split; congruence.
Qed.

Lemma span_to_slash_app a b :
  Forall (fun x => x <> slash) a -> span_to_slash (a ++ slash :: b) = (a, slash :: b).
Proof.
  induction 1 as [|x a Hx _ IH]; simpl; [done|].
  rewrite IH. destruct (Ascii.eqb_spec x slash); [done | reflexivity].
Qed.

(** [os.path.split('./n')] is [('.', 'n')]. *)
Lemma path_split_dot_slash n :
  plain_name n = true -> path_split ("./" +:+ n) = (".", n).
Proof.
  intros (Hs & Hne & _)%plain_name_spec. unfold path_split.
  change (String.list_ascii_of_string ("./" +:+ n))
    with ("."%char :: slash :: String.list_ascii_of_string n).
  cbn [rev]. rewrite <- app_assoc. cbn [app].
  rewrite span_to_slash_app by (apply Forall_rev, string_has_false_Forall; done).
  simpl. by rewrite rev_involutive, String.string_of_list_ascii_of_string.
Qed.

Lemma path_exists_dot F : fs_wf F -> path_exists F "." = true.
Proof.
  intros (_ & Hcwd & _). unfold path_exists. simpl.
  change (final_component (fs_cwd F) ".") with (fs_cwd F).
  by rewrite (proj2 (is_dir_true _ _) Hcwd).
Qed.

Lemma path_exists_dot_slash F n :
  plain_name n = true ->
  path_exists F ("./" +:+ n) = is_dir F (fs_cwd F ++ [n]) || is_file F (fs_cwd F ++ [n]).
Proof.
  intros Hn. pose proof (plain_name_spec n Hn) as (Hs & Hne & _). unfold path_exists.
  by rewrite resolve_dot_slash, ends_with_slash_app, ends_with_slash_plain.
Qed.

(** [os.makedirs('./n')] only calls [os.mkdir('./n')], since [.] exists. *)
Lemma makedirs_dot_slash F n :
  fs_wf F -> plain_name n = true -> makedirs ("./" +:+ n) F = mkdir ("./" +:+ n) F.
Proof.
  intros Hwf Hn. pose proof (plain_name_spec n Hn) as (_ & Hne & _).
  unfold makedirs. cbn [makedirs_go]. rewrite path_split_dot_slash by done.
  rewrite (proj2 (String.eqb_neq _ _) Hne). unfold st_bind, st_get.
  rewrite path_exists_dot by done. change (negb true) with false.
  by rewrite andb_false_r.
Qed.

(** [os.mkdir('./n')] creates the entry [n] of the working directory when
    nothing has that name. *)
Lemma mkdir_fresh F n :
  fs_wf F -> plain_name n = true ->
  is_dir F (fs_cwd F ++ [n]) = false -> is_file F (fs_cwd F ++ [n]) = false ->
  mkdir ("./" +:+ n) F = (Ok tt, mkFs (fs_cwd F) ({[fs_cwd F ++ [n]]} ∪ fs_dirs F) (fs_files F)).
Proof.
  intros (_ & Hcwd & _) Hn Hd Hf. unfold mkdir. rewrite resolve_dot_slash by done.
  rewrite Hd, Hf, removelast_last. simpl. by rewrite (proj2 (is_dir_true _ _) Hcwd).
Qed.

(** ** [os.makedirs] has enough fuel *)

Lemma length_string_of_list_ascii l : String.length (String.string_of_list_ascii l) = length l.
Proof. induction l; simpl; auto. Qed.

Lemma length_list_ascii_of_string s : length (String.list_ascii_of_string s) = String.length s.
Proof. induction s; simpl; auto. Qed.

Lemma span_to_slash_length l a b : span_to_slash l = (a, b) -> length a + length b = length l.
Proof.
  revert a b. induction l as [|c l IH]; intros a b; simpl; [by intros [= <- <-]|].
  destruct (Ascii.eqb c slash); [by intros [= <- <-]|].
  destruct (span_to_slash l) as [a' b']. intros [= <- <-]. simpl. by rewrite (IH a' b').
Qed.

Lemma drop_slashes_length l : length (drop_slashes l) <= length l.
Proof. induction l as [|c l IH]; simpl; [lia|]. destruct (Ascii.eqb c slash); simpl; lia. Qed.

(** [os.path.split] never lengthens: head and tail together are at most
    the path. *)
Lemma path_split_length p h t :
  path_split p = (h, t) -> String.length h + String.length t <= String.length p.
Proof.
  unfold path_split. destruct (span_to_slash _) as [rt rh] eqn:E.
  apply span_to_slash_length in E. rewrite length_rev, length_list_ascii_of_string in E.
  intros [= <- <-]. rewrite !length_string_of_list_ascii, !length_rev.
  pose proof (drop_slashes_length rh). destruct (drop_slashes rh); simpl in *; lia.
Qed.

Lemma string_neq_nil_length t : String.eqb t "" = false -> 0 < String.length t.
Proof. destruct t; simpl; [done | lia]. Qed.

(** Every step of fuel above the length of the path gives the same run. *)
Lemma makedirs_go_fuel n m name F :
  String.length name < n -> String.length name < m ->
  makedirs_go n name F = makedirs_go m name F.
Proof.
  revert m name F. induction n as [|n IH]; intros [|m] name F Hn Hm; try lia.
  cbn [makedirs_go]. destruct (path_split name) as [h0 t0] eqn:E0.
  apply path_split_length in E0.
  assert (Hht : forall h t, (if String.eqb t0 "" then path_split h0 else (h0, t0)) = (h, t) ->
            String.length h + String.length t <= String.length name).
  { intros h t. destruct (String.eqb t0 ""); [|intros [= <- <-]; lia].
    intros ?%path_split_length. lia. }
  destruct (if String.eqb t0 "" then path_split h0 else (h0, t0)) as [h t].
  specialize (Hht h t eq_refl).
  apply st_bind_ext; [done|]. intros F' s.
  destruct (negb (String.eqb h "") && negb (String.eqb t "") && _) eqn:Hc; [|done].
  apply andb_true_iff in Hc as [[_ Ht]%andb_true_iff _].
  apply negb_true_iff, string_neq_nil_length in Ht.
  apply st_bind_ext; [|done]. intros s'. apply st_catch_ext. intros s''. apply IH; lia.
Qed.

(** [os.makedirs] terminates within the fuel the model gives it: the
    recursion on the head of [os.path.split] never needs more than
    [len(name) + 1] calls, so any larger amount of fuel runs the same and
    [makedirs] is what the unbounded recursion computes. *)
Lemma makedirs_fuel_enough n name F :
  String.length name < n -> makedirs_go n name F = makedirs name F.
Proof. intros Hn. apply makedirs_go_fuel; simpl; lia. Qed.

