(* ===== verification/World.v ===== *)
(** * The world the script acts on, and its primitive effects

    A run of [main] reads standard input ([input()], line 61), writes log
    records ([logging.info]/[logging.error]), issues HTTP GET requests
    ([requests.get], line 22) and changes the filesystem.  The world holds
    each of these: the remaining input lines, the log so far, the trace of
    requested URLs in order, the network, and the filesystem.  The network
    is an oracle from the request's position in the trace and its URL to a
    response, so that two requests for the same URL may get different
    answers, as on the real network.  [M] is the state-and-exception monad
    over the world. *)

From S2P Require Import Prelude PyValue StateExc FileSystem.

(** ** State *)

Inductive level := INFO | ERROR.

#[global] Instance level_eq_dec : EqDecision level.
Proof. solve_decision. Defined.

(** What [requests.get(url, timeout=10, headers=...)] produces: an exception
    of the transport (timeout, connection error, ...), or a response with
    its status code and the result of [response.json()] ([None] when the
    body is not JSON, where [response.json()] raises). *)
Inductive response :=
  | RTransportError
  | RHttp (status : Z) (body : option pyval).

(** [UA = UserAgent()] (line 14): the User-Agent generator.  Its property
    [random] (line 20) picks the User-Agent string of some browser at
    random; the model takes the picks as an oracle, [ua_pick n] being the
    string of the [n]-th draw, and counts the draws made so far. *)
Record user_agent := mkUserAgent { ua_pick : nat -> string; ua_draws : nat }.

(** The generator after one more draw. *)
Definition ua_draw (u : user_agent) : user_agent := mkUserAgent (ua_pick u) (S (ua_draws u)).

(** A fresh generator whose every draw gives the same browser. *)
Definition browser_ua : user_agent :=
  mkUserAgent (fun _ => "Mozilla/5.0 (X11; Linux x86_64) Firefox/128.0") 0.

(** [w_hdrs] holds the headers sent with each request of [w_reqs], in the
    same order. *)
Record world := mkWorld {
  w_stdin : list string;
  w_log : list (level * string);
  w_reqs : list string;
  w_net : nat -> string -> response;
  w_fs : fs;
  w_ua : user_agent;
  w_hdrs : list pyval
}.

Definition M := ST world.

(** ** Primitive effects *)

Definition set_log (w : world) (l : list (level * string)) : world :=
  mkWorld (w_stdin w) l (w_reqs w) (w_net w) (w_fs w) (w_ua w) (w_hdrs w).

Definition set_fs (w : world) (F : fs) : world :=
  mkWorld (w_stdin w) (w_log w) (w_reqs w) (w_net w) F (w_ua w) (w_hdrs w).

(** [logging.info(fmt, args)] / [logging.error(...)], with the message
    already formatted. *)
Definition log (lv : level) (msg : string) : M unit :=
  st_modify (fun w => set_log w (w_log w ++ [(lv, msg)])).

Definition log_info := log INFO.
Definition log_error := log ERROR.

(** [UA.random] (line 20): the next draw of the generator. *)
Definition ua_random : M string :=
  fun w =>
    (Ok (ua_pick (w_ua w) (ua_draws (w_ua w))),
     mkWorld (w_stdin w) (w_log w) (w_reqs w) (w_net w) (w_fs w) (ua_draw (w_ua w)) (w_hdrs w)).

(** [headers = {'User-Agent': UA.random}] (line 20). *)
Definition ua_headers (ua : string) : pyval := PyDict [("User-Agent", PyStr ua)].

(** [requests.get(url, timeout=10, headers=headers)] (line 22): the request
    and its headers are appended to the trace and the oracle answers it;
    the oracle sees the position and the URL, the answer of the server
    not depending on the browser it is told about. *)
Definition http_get (url : string) (headers : pyval) : M response :=
  fun w =>
    (Ok (w_net w (length (w_reqs w)) url),
     mkWorld (w_stdin w) (w_log w) (w_reqs w ++ [url]) (w_net w) (w_fs w)
       (w_ua w) (w_hdrs w ++ [headers])).

(** [input(prompt)]: the next line of standard input, or [EOFError]. *)
Definition py_input : M string :=
  fun w =>
    match w_stdin w with
    | line :: rest =>
        (Ok line, mkWorld rest (w_log w) (w_reqs w) (w_net w) (w_fs w) (w_ua w) (w_hdrs w))
    | [] => (Exc EOFError, w)
    end.

(** Run a filesystem operation on the world's filesystem. *)
Definition on_fs {A} (m : ST fs A) : M A :=
  fun w => let '(r, F) := m (w_fs w) in (r, set_fs w F).

Definition os_path_exists (p : string) : M bool :=
  fun w => (Ok (path_exists (w_fs w) p), w).

(** ** Frame lemmas *)

Lemma log_bind {A} lv msg (k : unit -> M A) w :
  st_bind (log lv msg) k w = k tt (set_log w (w_log w ++ [(lv, msg)])).
Proof. done. Qed.

Lemma py_input_bind {A} line rest (k : string -> M A) w :
  w_stdin w = line :: rest ->
  st_bind py_input k w =
  k line (mkWorld rest (w_log w) (w_reqs w) (w_net w) (w_fs w) (w_ua w) (w_hdrs w)).
Proof. intros H. unfold st_bind, py_input. by rewrite H. Qed.

Lemma os_path_exists_bind {A} p (k : bool -> M A) w :
  st_bind (os_path_exists p) k w = k (path_exists (w_fs w) p) w.
Proof. done. Qed.

Lemma on_fs_run {A} (m : ST fs A) w r F :
  m (w_fs w) = (r, F) -> on_fs m w = (r, set_fs w F).
Proof. intros H. unfold on_fs. by rewrite H. Qed.

(** The filesystem invariant of the world. *)
Definition world_wf (w : world) : Prop := fs_wf (w_fs w).

Lemma on_fs_wf {A} (m : ST fs A) : preserves fs_wf m -> preserves world_wf (on_fs m).
Proof.
  intros Hm w Hw. unfold on_fs, world_wf in *.
  specialize (Hm _ Hw). destruct (m (w_fs w)). done.
Qed.

Lemma log_wf lv msg : preserves world_wf (log lv msg).
Proof. by intros w. Qed.

Lemma http_get_wf url headers : preserves world_wf (http_get url headers).
Proof. by intros w. Qed.

Lemma ua_random_wf : preserves world_wf ua_random.
Proof. by intros w. Qed.

Lemma py_input_wf : preserves world_wf py_input.
Proof. intros w Hw. unfold py_input. by destruct (w_stdin w). Qed.

Lemma os_path_exists_wf p : preserves world_wf (os_path_exists p).
Proof. by intros w. Qed.

#[export] Hint Resolve on_fs_wf log_wf http_get_wf ua_random_wf py_input_wf os_path_exists_wf : spider.
#[export] Hint Unfold log_info log_error : spider.
