(* ===== verification/Logging.v ===== *)
(** * The logging configuration (lines 9-13)

<<
    logging.basicConfig(
        level=logging.INFO,
        format='%(asctime)s %(levelname)s %(message)s',
        datefmt='%Y-%m-%d %H:%M:%S'
    )
>>
    [basicConfig] installs on the root logger a [StreamHandler] writing to
    standard error with a [Formatter] built from [format] and [datefmt],
    and sets the root level to [INFO].  A record of level [lv] and message
    [msg] logged at local time [t] is written, when [levelno lv >= INFO],
    as the line [format % attrs] followed by a newline, where [attrs] maps
    [asctime] to [time.strftime(datefmt, t)], [levelname] to the level's
    name and [message] to [msg].  This file models the three arguments as
    the data they are, [%]-formatting with [%(name)s] and [%%], the
    [strftime] directives [%Y %m %d %H %M %S %%], the level filter and the
    handler's output ([emit]).  The local time of each record is an
    oracle (the [clock]).  The theorem of the file: the line layout is
    unambiguous, a line giving back its level and message.  Not modelled: the traceback that [exc_info=True] (line 27)
    appends to an error record, and [%]-conversions other than [s] and
    [strftime] directives other than the six above, which the
    configuration does not use (the model refuses them). *)

From S2P Require Import Prelude PyValue StateExc FileSystem World.

(** ** The configuration as data *)

(** [logging.INFO] and [logging.ERROR]. *)
Definition levelno (lv : level) : Z := match lv with INFO => 20 | ERROR => 40 end%Z.

Definition levelname (lv : level) : string :=
  match lv with INFO => "INFO" | ERROR => "ERROR" end.

Record log_config := mkLogConfig {
  cfg_level : Z;
  cfg_format : string;
  cfg_datefmt : string
}.

Definition basic_config : log_config :=
  mkLogConfig 20 "%(asctime)s %(levelname)s %(message)s" "%Y-%m-%d %H:%M:%S".

(** A broken-down local time, as [time.localtime] returns it. *)
Record tm := mkTm {
  tm_year : Z; tm_mon : Z; tm_mday : Z; tm_hour : Z; tm_min : Z; tm_sec : Z
}.

(** ** [time.strftime] *)

(** A two-digit field, zero-padded ([%m], [%d], [%H], [%M], [%S]). *)
Definition pad2 (n : Z) : string :=
  if (0 <=? n)%Z && (n <? 10)%Z then "0" +:+ pretty n else pretty n.

Definition strftime_field (c : ascii) (t : tm) : option string :=
  if Ascii.eqb c "Y" then Some (pretty (tm_year t))
  else if Ascii.eqb c "m" then Some (pad2 (tm_mon t))
  else if Ascii.eqb c "d" then Some (pad2 (tm_mday t))
  else if Ascii.eqb c "H" then Some (pad2 (tm_hour t))
  else if Ascii.eqb c "M" then Some (pad2 (tm_min t))
  else if Ascii.eqb c "S" then Some (pad2 (tm_sec t))
  else if Ascii.eqb c "%" then Some "%"
  else None.

Fixpoint strftime (fmt : string) (t : tm) : option string :=
  match fmt with
  | EmptyString => Some EmptyString
  | String c fmt' =>
      if Ascii.eqb c "%" then
        match fmt' with
        | String d fmt'' =>
            match strftime_field d t, strftime fmt'' t with
            | Some x, Some r => Some (x +:+ r)
            | _, _ => None
            end
        | EmptyString => None
        end
      else option_map (String c) (strftime fmt' t)
  end.

(** ** [%]-formatting with a mapping *)

(** The record attribute [name]. *)
Definition attr_lookup (name : string) (attrs : list (string * string)) : option string :=
  option_map snd (List.find (fun kv => String.eqb kv.1 name) attrs).

Inductive pct_state :=
  | PText                       (** literal text *)
  | PPct                        (** just read [%] *)
  | PName (rname : list ascii)  (** inside [%(...)], the name so far, reversed *)
  | PConv (name : string).      (** after [%(name)], before the conversion *)

(** [fmt % attrs] for a format whose fields are [%(name)s] and [%%]. *)
Fixpoint pct_format_go (attrs : list (string * string)) (st : pct_state) (s : string)
    : result string :=
  match s with
  | EmptyString => match st with PText => Ok EmptyString | _ => Exc ValueError end
  | String c s' =>
      match st with
      | PText =>
          if Ascii.eqb c "%" then pct_format_go attrs PPct s'
          else r <-? pct_format_go attrs PText s' ;; Ok (String c r)
      | PPct =>
          if Ascii.eqb c "%" then r <-? pct_format_go attrs PText s' ;; Ok (String "%" r)
          else if Ascii.eqb c "(" then pct_format_go attrs (PName []) s'
          else Exc ValueError
      | PName acc =>
          if Ascii.eqb c ")" then pct_format_go attrs (PConv (String.string_of_list_ascii (rev acc))) s'
          else pct_format_go attrs (PName (c :: acc)) s'
      | PConv name =>
          if Ascii.eqb c "s" then
            match attr_lookup name attrs with
            | Some v => r <-? pct_format_go attrs PText s' ;; Ok (v +:+ r)
            | None => Exc KeyError
            end
          else Exc ValueError
      end
  end.

Definition pct_format (fmt : string) (attrs : list (string * string)) : result string :=
  pct_format_go attrs PText fmt.

(** ** Records and the handler *)

(** [Formatter.format(record)]: the attributes of the record, then the
    format. *)
Definition format_record (cfg : log_config) (t : tm) (lv : level) (msg : string)
    : result string :=
  match strftime (cfg_datefmt cfg) t with
  | Some asctime =>
      pct_format (cfg_format cfg)
        [("asctime", asctime); ("levelname", levelname lv); ("message", msg)]
  | None => Exc ValueError
  end.

(** What the root logger's handler writes to standard error for the log of
    a run, the [n]-th record having been made at local time [clock n]:
    the records the level lets through, one line each, in order. *)
Fixpoint emit_from (cfg : log_config) (clock : nat -> tm) (n : nat)
    (log : list (level * string)) : result string :=
  match log with
  | [] => Ok EmptyString
  | (lv, msg) :: log' =>
      if (cfg_level cfg <=? levelno lv)%Z then
        line <-? format_record cfg (clock n) lv msg ;;
        rest <-? emit_from cfg clock (S n) log' ;;
        Ok (line +:+ String "010" rest)
      else emit_from cfg clock (S n) log'
  end.

Definition emit (cfg : log_config) (clock : nat -> tm) (log : list (level * string)) : result string :=
  emit_from cfg clock 0 log.

(** ** The configuration of the script, written out *)

(** [time.strftime('%Y-%m-%d %H:%M:%S', t)]. *)
Definition asctime (t : tm) : string :=
  pretty (tm_year t) +:+ "-" +:+ pad2 (tm_mon t) +:+ "-" +:+ pad2 (tm_mday t) +:+ " " +:+
  pad2 (tm_hour t) +:+ ":" +:+ pad2 (tm_min t) +:+ ":" +:+ pad2 (tm_sec t).

(** The line of one record. *)
Definition log_line (t : tm) (lv : level) (msg : string) : string :=
  asctime t +:+ " " +:+ levelname lv +:+ " " +:+ msg.

(** ** Lengths of printed numbers *)

Lemma pretty_N_go_length (k : nat) (n : N) s :
  (10 ^ N.of_nat k <= n < 10 ^ N.of_nat (S k))%N ->
  String.length (pretty_N_go n s) = S k + String.length s.
Proof.
  revert n s. induction k as [|k IH]; intros n s Hn.
  - cbn [N.of_nat N.pow] in Hn.
    rewrite pretty_N_go_step, N.div_small, pretty_N_go_0 by lia. done.
  - rewrite pretty_N_go_step by lia. rewrite IH; [cbn [String.length]; lia|].
    rewrite !Nat2N.inj_succ, !N.pow_succ_r' in *. split.
    + apply N.div_le_lower_bound; lia.
    + apply N.Div0.div_lt_upper_bound; lia.
Qed.

Lemma pretty_Z_pos_go p : pretty (Z.pos p) = pretty_N_go (N.pos p) "".
Proof. unfold pretty, pretty_Z, pretty_positive, pretty, pretty_N. by case_decide. Qed.

Lemma pretty_Z_length (z : Z) (k : nat) :
  (10 ^ Z.of_nat k <= z < 10 ^ Z.of_nat (S k))%Z -> String.length (pretty z) = S k.
Proof.
  intros Hz. assert (0 < 10 ^ Z.of_nat k)%Z by (apply Z.pow_pos_nonneg; lia).
  destruct z as [|p|p]; [lia | | lia].
  rewrite pretty_Z_pos_go, (pretty_N_go_length k); [cbn [String.length]; lia|].
  split; [apply N2Z.inj_le | apply N2Z.inj_lt];
    rewrite N2Z.inj_pow, nat_N_Z; cbn [Z.of_N]; lia.
Qed.

Lemma pad2_length (n : Z) : (0 <= n < 100)%Z -> String.length (pad2 n) = 2.
Proof.
  intros Hn. unfold pad2. destruct (Z.leb_spec 0 n), (Z.ltb_spec n 10); simpl; try lia.
  - destruct (Z.eq_dec n 0) as [->|Hn0]; [done|].
    rewrite (pretty_Z_length n 0); [done | simpl; lia].
  - apply (pretty_Z_length n 1). simpl. lia.
Qed.

(** A time whose fields are in their ranges, with a four-digit year. *)
Definition tm_valid (t : tm) : bool :=
  (1000 <=? tm_year t)%Z && (tm_year t <=? 9999)%Z &&
  (1 <=? tm_mon t)%Z && (tm_mon t <=? 12)%Z && (1 <=? tm_mday t)%Z && (tm_mday t <=? 31)%Z &&
  (0 <=? tm_hour t)%Z && (tm_hour t <=? 23)%Z && (0 <=? tm_min t)%Z && (tm_min t <=? 59)%Z &&
  (0 <=? tm_sec t)%Z && (tm_sec t <=? 61)%Z.

Lemma asctime_length t : tm_valid t = true -> String.length (asctime t) = 19.
Proof.
  unfold tm_valid. rewrite !andb_true_iff, !Z.leb_le. intros H. unfold asctime.
  rewrite !string_length_app, (pretty_Z_length (tm_year t) 3), !pad2_length by (simpl; lia).
  done.
Qed.

(** ** Reading a line back *)

(** [s] without its first [n] characters. *)
Fixpoint skip (n : nat) (s : string) : string :=
  match n, s with
  | O, _ => s
  | S n', String _ s' => skip n' s'
  | S _, EmptyString => EmptyString
  end.

Lemma skip_app a b : skip (String.length a) (a +:+ b) = b.
Proof. induction a; simpl; auto. Qed.

(** The level and the message of a line whose timestamp has 19
    characters. *)
Definition parse_log_line (line : string) : option (level * string) :=
  let rest := skip 20 line in
  match strip_prefix "INFO " rest with
  | Some m => Some (INFO, m)
  | None => option_map (fun m => (ERROR, m)) (strip_prefix "ERROR " rest)
  end.

(** C15: The log lines are unambiguous: for a local time whose fields are
    in range (a four-digit year), the timestamp [%Y-%m-%d %H:%M:%S] has
    exactly 19 characters, and the level and the message of a record are
    read back from its line. *)
Theorem log_line_roundtrip t lv msg :
  tm_valid t = true ->
  String.length (asctime t) = 19 /\ parse_log_line (log_line t lv msg) = Some (lv, msg).
Proof.
  intros Hv. pose proof (asctime_length t Hv) as Hl. split; [done|].
  unfold parse_log_line, log_line. rewrite string_app_assoc.
  replace 20 with (String.length (asctime t +:+ " ")) by (rewrite string_length_app, Hl; done).
  rewrite skip_app. destruct lv.
  - change (levelname INFO +:+ " " +:+ msg) with ("INFO " +:+ msg). by rewrite strip_prefix_app.
  - change (levelname ERROR +:+ " " +:+ msg) with ("ERROR " +:+ msg).
    change (strip_prefix "INFO " ("ERROR " +:+ msg)) with (@None string). cbv iota.
    by rewrite strip_prefix_app.
Qed.

(** The first of May 2024, 09:30:00. *)
Definition may_first : tm := mkTm 2024 5 1 9 30 0.

Lemma log_line_roundtrip_witness :
  tm_valid may_first = true /\
  log_line may_first ERROR "boom" = "2024-05-01 09:30:00 ERROR boom" /\
  (String.length (asctime may_first) = 19 /\
   parse_log_line (log_line may_first ERROR "boom") = Some (ERROR, "boom")).
Proof.
  split; [reflexivity | split; [reflexivity | apply log_line_roundtrip; reflexivity]].
Defined.
