(* ===== verification/PyFormat.v ===== *)
(** * [str.format] and the script's templates

    The script builds every URL and file name with [str.format] on a module
    constant: [INDEX_URL] (line 7), [DETAIL_URL] (line 8) and [FILENAME]
    (line 15), with keyword arguments.  This file models [str.format] as a
    scan of the template: [{{] and [}}] stand for braces, [{name}] is
    replaced by [str()] of the keyword argument [name], and the errors come
    in the order the scan meets them ([KeyError] for a missing name,
    [IndexError] for an empty or numeric field, which would be positional,
    [ValueError] for a stray brace).  Field names are taken verbatim: the
    templates of the script use plain names, so attribute and index access
    ([{a.b}], [{a[0]}]) and format specifications ([{a:>3}]) are not
    modelled.  It then derives the URL and file-name equations. *)

From S2P Require Import Prelude PyValue StateExc FileSystem.

(** ** The scan *)

Inductive fmt_state :=
  | FText                      (** literal text *)
  | FOpen                      (** just read [{] *)
  | FClose                     (** just read [}] in literal text *)
  | FField (rname : list ascii). (** inside a field; the name so far, reversed *)

Definition is_digit (c : ascii) : bool :=
  let n := Ascii.nat_of_ascii c in (48 <=? n)%nat && (n <=? 57)%nat.

(** The value of a field: keyword arguments by name; an empty name or one
    starting with a digit asks for a positional argument, and there are
    none. *)
Definition format_field (args : list (string * pyval)) (name : string) : result string :=
  match name with
  | EmptyString => Exc IndexError
  | String c _ =>
      if is_digit c then Exc IndexError
      else match dict_lookup name args with
           | Some v => Ok (py_str v)
           | None => Exc KeyError
           end
  end.

Fixpoint format_go (args : list (string * pyval)) (st : fmt_state) (s : string)
  : result string :=
  match s with
  | EmptyString =>
      match st with FText => Ok EmptyString | _ => Exc ValueError end
  | String c s' =>
      match st with
      | FText =>
          if Ascii.eqb c "{"%char then format_go args FOpen s'
          else if Ascii.eqb c "}"%char then format_go args FClose s'
          else r <-? format_go args FText s' ;; Ok (String c r)
      | FOpen =>
          if Ascii.eqb c "{"%char then
            r <-? format_go args FText s' ;; Ok (String "{"%char r)
          else if Ascii.eqb c "}"%char then
            v <-? format_field args EmptyString ;;
            r <-? format_go args FText s' ;; Ok (v +:+ r)
          else format_go args (FField [c]) s'
      | FField acc =>
          if Ascii.eqb c "}"%char then
            v <-? format_field args (String.string_of_list_ascii (rev acc)) ;;
            r <-? format_go args FText s' ;; Ok (v +:+ r)
          else if Ascii.eqb c "{"%char then Exc ValueError
          else format_go args (FField (c :: acc)) s'
      | FClose =>
          if Ascii.eqb c "}"%char then
            r <-? format_go args FText s' ;; Ok (String "}"%char r)
          else Exc ValueError
      end
  end.

(** [template.format(name=value, ...)]. *)
Definition py_format (template : string) (args : list (string * pyval)) : result string :=
  format_go args FText template.

(** ** The templates (lines 7, 8, 15) *)

Definition INDEX_URL : string :=
  "https://careers.tencent.com/tencentcareer/api/post/Query?keyword={keyword}&pageIndex={page}&pageSize=10".

Definition DETAIL_URL : string :=
  "https://careers.tencent.com/tencentcareer/api/post/ByPostId?postId={post_id}".

Definition FILENAME : string := "{dirname}/{keyword}{page}.json".

(** The formatted strings, written out. *)
Definition index_url (keyword : string) (page : pyval) : string :=
  "https://careers.tencent.com/tencentcareer/api/post/Query?keyword=" +:+ keyword
  +:+ "&pageIndex=" +:+ py_str page +:+ "&pageSize=10".

Definition detail_url (post_id : pyval) : string :=
  "https://careers.tencent.com/tencentcareer/api/post/ByPostId?postId=" +:+ py_str post_id.

Definition filename (dirname keyword : string) (page : pyval) : string :=
  dirname +:+ "/" +:+ keyword +:+ py_str page +:+ ".json".

Lemma format_INDEX_URL keyword page :
  py_format INDEX_URL [("keyword", PyStr keyword); ("page", page)] =
  Ok (index_url keyword page).
Proof. reflexivity. Qed.

Lemma format_DETAIL_URL post_id :
  py_format DETAIL_URL [("post_id", post_id)] = Ok (detail_url post_id).
Proof. unfold detail_url. rewrite <- (string_app_nil_r (py_str post_id)). reflexivity. Qed.

Lemma format_FILENAME dirname keyword page :
  py_format FILENAME [("dirname", PyStr dirname); ("keyword", PyStr keyword); ("page", page)] =
  Ok (filename dirname keyword page).
Proof. reflexivity. Qed.

#[export] Hint Rewrite format_INDEX_URL format_DETAIL_URL format_FILENAME : spider_rw.

(** ** File names *)

(** A file name [FILENAME] builds ends in [.json], not in a slash. *)
Lemma string_app_neq_nil a b : b <> "" -> a +:+ b <> "".
Proof. destruct a; [done | discriminate]. Qed.

Lemma filename_not_dir d k page : ends_with_slash (filename d k page) = false.
Proof.
  unfold filename.
  rewrite !ends_with_slash_app by (repeat apply string_app_neq_nil; discriminate).
  reflexivity.
Qed.

(** ** File names are plain names *)

(** [str()] of an integer is made of digits and a minus sign only. *)
Lemma pretty_N_char_digit x c : is_digit c = false -> pretty_N_char x <> c.
Proof. intros Hc <-. unfold pretty_N_char in Hc. by repeat (discriminate || case_match). Qed.

Lemma string_has_pretty_N_go c x s :
  is_digit c = false -> string_has c s = false -> string_has c (pretty_N_go x s) = false.
Proof.
  intros Hc. revert s. induction (N.lt_wf_0 x) as [x _ IH]; intros s Hs.
  destruct (decide (x = 0%N)) as [->|Hx]; [by rewrite pretty_N_go_0|].
  rewrite pretty_N_go_step by lia. apply IH; [apply N.div_lt; lia|].
  cbn [string_has]. rewrite Hs, orb_false_r.
  destruct (Ascii.eqb_spec c (pretty_N_char (x mod 10))) as [E|E]; [|done].
  by destruct (pretty_N_char_digit (x mod 10) c).
Qed.

Lemma string_has_pretty_pos c (p : positive) :
  is_digit c = false -> string_has c (pretty p) = false.
Proof.
  intros Hc. unfold pretty, pretty_positive. unfold pretty, pretty_N.
  case_decide; [by destruct c as [[] [] [] [] [] [] [] []] | by apply string_has_pretty_N_go].
Qed.

Lemma string_has_pretty_Z c (z : Z) :
  is_digit c = false -> c <> "-"%char -> string_has c (pretty z) = false.
Proof.
  intros Hc Hm. destruct z as [|p|p]; [by destruct c as [[] [] [] [] [] [] [] []]
    | by apply string_has_pretty_pos |].
  change (pretty (Z.neg p)) with ("-" +:+ pretty p).
  rewrite string_has_app, string_has_pretty_pos by done. simpl.
  destruct (Ascii.eqb_spec c "-"); [done | reflexivity].
Qed.

(** The name of the page's file inside the output directory. *)
Definition page_file_name (keyword : string) (p : Z) : string :=
  keyword +:+ pretty p +:+ ".json".

Lemma filename_split (dn keyword : string) (p : Z) :
  filename ("./" +:+ dn) keyword (PyInt p) = "./" +:+ dn +:+ "/" +:+ page_file_name keyword p.
Proof. unfold filename, page_file_name. simpl. reflexivity. Qed.

Lemma page_file_name_plain keyword p :
  string_has slash keyword = false -> plain_name (page_file_name keyword p) = true.
Proof.
  intros Hk. unfold plain_name, page_file_name.
  rewrite !string_has_app, Hk, string_has_pretty_Z by done. simpl.
  assert (4 < String.length (keyword +:+ pretty p +:+ ".json")).
  { rewrite !string_length_app. simpl. lia. }
  repeat (apply andb_true_intro; split); apply negb_true_iff, String.eqb_neq;
    intros Heq; rewrite Heq in H; simpl in H; lia.
Qed.
