(* ===== verification/Query.v ===== *)
(** * What the server reads from the index URL

    [INDEX_URL.format(keyword=keyword, page=page)] (lines 31 and 38) puts
    the keyword into the query string as it is, without percent-encoding.
    This file gives the server's reading of a URL's query string (the text
    after the first [?] and before a [#], split at [&] into [name=value]
    pairs, each split at its first [=]) and shows that the index URL reads
    back as the three intended parameters exactly when the keyword has no
    [&] and no [#]; a keyword with an [&] adds parameters of its own. *)

From S2P Require Import Prelude PyValue StateExc FileSystem PyFormat.











