(* ===== verification/JsonDump.v ===== *)
(** * [json.dump(data, f, ensure_ascii=False, indent=2)]

    [save_data] (lines 50-52) serialises the page's list of detail records
    with the standard library's encoder.  With [indent] set, [json.dump]
    uses the pure-Python [_make_iterencode] of [json/encoder.py]:
    - [None], [True], [False] are [null], [true], [false]; an [int] is its
      decimal [int.__repr__];
    - a [str] goes through [encode_basestring] ([ensure_ascii=False]): it is
      quoted, [\\] and the double quote are backslash-escaped, [\n], [\r],
      [\t], [\b], [\f] get their short escapes and the other characters
      below [0x20] become [\u00xx] (lower-case hex); everything else,
      non-ASCII bytes included, is written as it is;
    - an empty list or dict is [[]] or [{}]; otherwise the items are written
      one per line, each line indented by two spaces per nesting level,
      separated by [","], with [": "] between a key and its value, and the
      closing bracket on its own line at the enclosing level.
    The chunks that [json.dump] writes concatenate to [json_dumps v]. *)

From S2P Require Import Prelude PyValue.

Definition json_escape_char (c : ascii) : string :=
  let n := Ascii.N_of_ascii c in
  if Ascii.eqb c dquote then String "\"%char (String dquote EmptyString)
  else if Ascii.eqb c "\"%char then "\\"
  else if Ascii.eqb c "010"%char then "\n"
  else if Ascii.eqb c "013"%char then "\r"
  else if Ascii.eqb c "009"%char then "\t"
  else if Ascii.eqb c "008"%char then "\b"
  else if Ascii.eqb c "012"%char then "\f"
  else if (n <? 32)%N then
    "\u00" +:+ String (hex_digit (n / 16)) (String (hex_digit (n mod 16)) EmptyString)
  else String c EmptyString.

Fixpoint json_escape (s : string) : string :=
  match s with
  | EmptyString => EmptyString
  | String c s' => json_escape_char c +:+ json_escape s'
  end.

(** [encode_basestring(s)] ([py_encode_basestring] in [json/encoder.py]). *)
Definition encode_basestring (s : string) : string :=
  String dquote (json_escape s +:+ String dquote EmptyString).

(** ['\n' + ' ' * (2 * level)]. *)
Definition newline_indent (level : nat) : string :=
  String "010"%char (String.string_of_list_ascii (repeat " "%char (2 * level))).

(** [_iterencode(o, level)] for the values [json.loads] produces. *)
Fixpoint json_enc (level : nat) (v : pyval) : string :=
  match v with
  | PyNone => "null"
  | PyBool true => "true"
  | PyBool false => "false"
  | PyInt z => pretty z
  | PyStr s => encode_basestring s
  | PyList l =>
      match l with
      | [] => "[]"
      | _ =>
          "[" +:+ newline_indent (S level)
          +:+ String.concat ("," +:+ newline_indent (S level)) (map (json_enc (S level)) l)
          +:+ newline_indent level +:+ "]"
      end
  | PyDict kvs =>
      match kvs with
      | [] => "{}"
      | _ =>
          "{" +:+ newline_indent (S level)
          +:+ String.concat ("," +:+ newline_indent (S level))
                (map (fun '(k, x) => encode_basestring k +:+ ": " +:+ json_enc (S level) x) kvs)
          +:+ newline_indent level +:+ "}"
      end
  end.

(** The text [json.dump(v, f, ensure_ascii=False, indent=2)] writes. *)
Definition json_dumps (v : pyval) : string := json_enc 0 v.
