(* ===== verification/JsonLoad.v ===== *)
(** * Reading back what [save_data] writes

    [save_data] writes [json.dump(data, f, ensure_ascii=False, indent=2)]
    ([JsonDump.json_dumps]).  This file gives a JSON decoder, as
    [json.loads] (strict mode) reads a document: whitespace around tokens,
    [null], [true], [false], integers without leading zeros, strings with
    the escapes of RFC 8259 (a raw control character is refused), arrays
    and objects, in which a repeated key keeps its first position and its
    last value, as [dict] does.  A fraction or an exponent (a [float]) and
    a [\u] escape above [\u007f] (a character outside ASCII) are not
    modelled: the decoder refuses them.  The decoder is recursive descent
    with fuel; one step of fuel is spent per value and per array or object
    item, and [String.length s + 1] steps are enough for any document [s]
    of the encoder.  The decoder is not part of the program model:
    [response.json()] (line 24) is the network oracle's decoded value.
    The theorem of the file: the text [json.dump] writes for every value
    whose dicts have distinct keys decodes back to the value. *)

From S2P Require Import Prelude PyValue StateExc FileSystem PyFormat JsonDump.

(** ** Lexical level *)

Definition is_ws (c : ascii) : bool :=
  Ascii.eqb c " " || Ascii.eqb c "010" || Ascii.eqb c "013" || Ascii.eqb c "009".

Fixpoint skip_ws (s : string) : string :=
  match s with
  | String c s' => if is_ws c then skip_ws s' else s
  | EmptyString => EmptyString
  end.

Definition digit_val (c : ascii) : N := (Ascii.N_of_ascii c - 48)%N.

Fixpoint read_digits (acc : N) (s : string) : N * string :=
  match s with
  | String c s' => if is_digit c then read_digits (acc * 10 + digit_val c)%N s' else (acc, s)
  | EmptyString => (acc, EmptyString)
  end.

(** The digits of a number: [0], or a non-zero digit followed by digits.
    A fraction or an exponent would make a [float]. *)
Definition parse_unsigned (s : string) : option (N * string) :=
  match s with
  | String c s2 =>
      if is_digit c then
        let '(n, s3) := if Ascii.eqb c "0" then (0%N, s2) else read_digits (digit_val c) s2 in
        match s3 with
        | String d _ => if Ascii.eqb d "." || Ascii.eqb d "e" || Ascii.eqb d "E" then None
                        else Some (n, s3)
        | EmptyString => Some (n, s3)
        end
      else None
  | EmptyString => None
  end.

(** A number: an optional minus sign, then its digits. *)
Definition parse_number (s : string) : option (Z * string) :=
  match s with
  | String c s' =>
      if Ascii.eqb c "-" then option_map (fun '(n, r) => (Z.opp (Z.of_N n), r)) (parse_unsigned s')
      else option_map (fun '(n, r) => (Z.of_N n, r)) (parse_unsigned s)
  | EmptyString => None
  end.

Definition hex_val (c : ascii) : option N :=
  let n := Ascii.N_of_ascii c in
  if (48 <=? n)%N && (n <=? 57)%N then Some (n - 48)%N
  else if (97 <=? n)%N && (n <=? 102)%N then Some (n - 87)%N
  else if (65 <=? n)%N && (n <=? 70)%N then Some (n - 55)%N
  else None.

(** The character a short escape [\e] stands for. *)
Definition short_escape (e : ascii) : option ascii :=
  if Ascii.eqb e dquote then Some dquote
  else if Ascii.eqb e "\" then Some "\"%char
  else if Ascii.eqb e "/" then Some "/"%char
  else if Ascii.eqb e "b" then Some "008"%char
  else if Ascii.eqb e "f" then Some "012"%char
  else if Ascii.eqb e "n" then Some "010"%char
  else if Ascii.eqb e "r" then Some "013"%char
  else if Ascii.eqb e "t" then Some "009"%char
  else None.

Definition str_cons (c : ascii) (o : option (string * string)) : option (string * string) :=
  match o with Some (t, r) => Some (String c t, r) | None => None end.

(** The body of a string literal after its opening quote: the text up to
    the closing quote, and what follows it. *)
Fixpoint parse_str (s : string) : option (string * string) :=
  match s with
  | EmptyString => None
  | String c s' =>
      if Ascii.eqb c dquote then Some (EmptyString, s')
      else if Ascii.eqb c "\" then
        match s' with
        | String e s'' =>
            match short_escape e with
            | Some x => str_cons x (parse_str s'')
            | None =>
                if Ascii.eqb e "u" then
                  match s'' with
                  | String h1 (String h2 (String h3 (String h4 s5))) =>
                      match hex_val h1, hex_val h2, hex_val h3, hex_val h4 with
                      | Some a, Some b, Some c', Some d =>
                          let code := (((a * 16 + b) * 16 + c') * 16 + d)%N in
                          if (code <? 128)%N then str_cons (Ascii.ascii_of_N code) (parse_str s5)
                          else None
                      | _, _, _, _ => None
                      end
                  | _ => None
                  end
                else None
            end
        | EmptyString => None
        end
      else if (Ascii.N_of_ascii c <? 32)%N then None
      else str_cons c (parse_str s')
  end.

(** ** Values *)

(** [d[k] = v] on a dict built in order. *)
Definition dict_set (k : string) (v : pyval) (kvs : list (string * pyval)) :
    list (string * pyval) :=
  if existsb (fun kv => String.eqb kv.1 k) kvs
  then map (fun kv => if String.eqb kv.1 k then (k, v) else kv) kvs
  else kvs ++ [(k, v)].

Definition after_value (v : pyval) (o : option string) : option (pyval * string) :=
  match o with Some r => Some (v, r) | None => None end.

Fixpoint parse_value (fuel : nat) (s : string) : option (pyval * string) :=
  match fuel with
  | O => None
  | S f =>
      match skip_ws s with
      | EmptyString => None
      | String c s1 =>
          if Ascii.eqb c "n" then after_value PyNone (strip_prefix "ull" s1)
          else if Ascii.eqb c "t" then after_value (PyBool true) (strip_prefix "rue" s1)
          else if Ascii.eqb c "f" then after_value (PyBool false) (strip_prefix "alse" s1)
          else if Ascii.eqb c dquote then
            match parse_str s1 with Some (t, r) => Some (PyStr t, r) | None => None end
          else if Ascii.eqb c "[" then
            match skip_ws s1 with
            | String d r => if Ascii.eqb d "]" then Some (PyList [], r) else parse_items f s1 []
            | EmptyString => None
            end
          else if Ascii.eqb c "{" then
            match skip_ws s1 with
            | String d r => if Ascii.eqb d "}" then Some (PyDict [], r) else parse_members f s1 []
            | EmptyString => None
            end
          else match parse_number (String c s1) with Some (z, r) => Some (PyInt z, r) | None => None end
      end
  end
with parse_items (fuel : nat) (s : string) (acc : list pyval) : option (pyval * string) :=
  match fuel with
  | O => None
  | S f =>
      match parse_value f s with
      | Some (v, s1) =>
          match skip_ws s1 with
          | String d s2 =>
              if Ascii.eqb d "," then parse_items f s2 (acc ++ [v])
              else if Ascii.eqb d "]" then Some (PyList (acc ++ [v]), s2)
              else None
          | EmptyString => None
          end
      | None => None
      end
  end
with parse_members (fuel : nat) (s : string) (acc : list (string * pyval)) :
    option (pyval * string) :=
  match fuel with
  | O => None
  | S f =>
      match skip_ws s with
      | String q s1 =>
          if Ascii.eqb q dquote then
            match parse_str s1 with
            | Some (k, s2) =>
                match skip_ws s2 with
                | String col s3 =>
                    if Ascii.eqb col ":" then
                      match parse_value f s3 with
                      | Some (v, s4) =>
                          match skip_ws s4 with
                          | String d s5 =>
                              if Ascii.eqb d "," then parse_members f s5 (dict_set k v acc)
                              else if Ascii.eqb d "}" then Some (PyDict (dict_set k v acc), s5)
                              else None
                          | EmptyString => None
                          end
                      | None => None
                      end
                    else None
                | EmptyString => None
                end
            | None => None
            end
          else None
      | EmptyString => None
      end
  end.

(** [json.loads(s)]: one value, surrounded by whitespace only. *)
Definition json_loads (s : string) : option pyval :=
  match parse_value (S (String.length s)) s with
  | Some (v, r) => if String.eqb (skip_ws r) "" then Some v else None
  | None => None
  end.

(** ** Lexical lemmas *)

Lemma skip_ws_spaces n s :
  skip_ws (String.string_of_list_ascii (repeat " "%char n) +:+ s) = skip_ws s.
Proof. induction n as [|n IH]; simpl; [done | exact IH]. Qed.

Lemma skip_ws_nl k s : skip_ws (newline_indent k +:+ s) = skip_ws s.
Proof. unfold newline_indent. cbn [String.append skip_ws is_ws Ascii.eqb orb]. apply skip_ws_spaces. Qed.

Lemma skip_ws_char c s : is_ws c = false -> skip_ws (String c s) = String c s.
Proof. simpl. by intros ->. Qed.

(** The decoder only sees a text after its leading whitespace. *)
Lemma parse_value_skip F s t : skip_ws s = skip_ws t -> parse_value F s = parse_value F t.
Proof. destruct F as [|f]; [done|]. simpl. by intros ->. Qed.

Lemma parse_items_skip F s t acc :
  skip_ws s = skip_ws t -> parse_items F s acc = parse_items F t acc.
Proof. destruct F as [|f]; [done|]. intros H. simpl. by rewrite (parse_value_skip f s t H). Qed.

Lemma parse_members_skip F s t acc :
  skip_ws s = skip_ws t -> parse_members F s acc = parse_members F t acc.
Proof. destruct F as [|f]; [done|]. simpl. by intros ->. Qed.

(** Every character written by [json_escape_char] reads back as itself
    (checked on the 256 characters). *)
Lemma parse_str_escape_char c t :
  parse_str (json_escape_char c +:+ t) = str_cons c (parse_str t).
Proof. destruct c as [[] [] [] [] [] [] [] []]; reflexivity. Qed.

Lemma parse_str_escape s rest :
  parse_str (json_escape s +:+ String dquote rest) = Some (s, rest).
Proof.
  induction s as [|c s IH]; [reflexivity|]. cbn [json_escape].
  by rewrite <- string_app_assoc, parse_str_escape_char, IH.
Qed.

(** ** Numbers *)

(** What may follow a number: nothing, or a character that cannot extend it. *)
Definition num_delim (s : string) : bool :=
  match s with
  | String d _ => negb (is_digit d || Ascii.eqb d "." || Ascii.eqb d "e" || Ascii.eqb d "E")
  | EmptyString => true
  end.

Lemma pretty_N_go_app x s t : pretty_N_go x s +:+ t = pretty_N_go x (s +:+ t).
Proof.
  revert s. induction (N.lt_wf_0 x) as [x _ IH]; intros s.
  destruct (decide (x = 0%N)) as [->|Hx]; [by rewrite !pretty_N_go_0|].
  rewrite (pretty_N_go_step x s), (pretty_N_go_step x (s +:+ t)) by lia.
  rewrite IH by (apply N.div_lt; lia). done.
Qed.

Lemma pretty_N_char_val m :
  (m < 10)%N -> is_digit (pretty_N_char m) = true /\ digit_val (pretty_N_char m) = m.
Proof.
  intros Hm. assert (m = 0 \/ m = 1 \/ m = 2 \/ m = 3 \/ m = 4 \/ m = 5 \/ m = 6 \/
    m = 7 \/ m = 8 \/ m = 9)%N as Hc by lia.
  by destruct_or! Hc; subst.
Qed.

(** Reading the digits that [str()] writes gives the number back. *)
Lemma read_digits_pretty x s : read_digits 0 (pretty_N_go x s) = read_digits x s.
Proof.
  revert s. induction (N.lt_wf_0 x) as [x _ IH]; intros s.
  destruct (decide (x = 0%N)) as [->|Hx]; [by rewrite pretty_N_go_0|].
  rewrite pretty_N_go_step by lia. rewrite IH by (apply N.div_lt; lia).
  destruct (pretty_N_char_val (x mod 10)) as [Hd Hv]; [apply N.mod_lt; lia|].
  cbn [read_digits]. rewrite Hd, Hv. f_equal. pose proof (N.div_mod x 10). lia.
Qed.

Lemma pretty_N_go_first x s :
  (0 < x)%N -> exists c t, pretty_N_go x s = String c t /\ is_digit c = true /\ c <> "0"%char.
Proof.
  revert s. induction (N.lt_wf_0 x) as [x _ IH]; intros s Hx.
  rewrite pretty_N_go_step by lia.
  destruct (decide (x / 10 = 0)%N) as [Hq|Hq].
  - assert (x < 10)%N by (apply N.div_small_iff; [lia | done]).
    rewrite Hq, pretty_N_go_0, N.mod_small by done. eexists _, _. split; [done|].
    split; [by apply pretty_N_char_val|].
    intros Hc. assert (x = 0)%N by (apply pretty_N_char_inj; [lia | lia | exact Hc]). lia.
  - apply IH; [apply N.div_lt; lia | destruct (x / 10)%N; [done | lia]].
Qed.

Lemma read_digits_delim n s : num_delim s = true -> read_digits n s = (n, s).
Proof. destruct s as [|d s]; [done|]. simpl. by destruct (is_digit d). Qed.

Lemma number_end {A} (n : A) s :
  num_delim s = true ->
  match s with
  | String d _ => if Ascii.eqb d "." || Ascii.eqb d "e" || Ascii.eqb d "E" then None
                  else Some (n, s)
  | EmptyString => Some (n, s)
  end = Some (n, s).
Proof.
  destruct s as [|d s]; [done|]. simpl.
  by destruct (is_digit d), (Ascii.eqb d "."), (Ascii.eqb d "e"), (Ascii.eqb d "E").
Qed.

Lemma parse_unsigned_pretty (x : N) rest :
  num_delim rest = true -> parse_unsigned (pretty x +:+ rest) = Some (x, rest).
Proof.
  intros Hr. unfold pretty, pretty_N. case_decide as Hx.
  - subst x. cbn. by apply number_end.
  - rewrite pretty_N_go_app. change ("" +:+ rest) with rest.
    destruct (pretty_N_go_first x rest) as (c & t & Ht & Hd & Hc); [lia|].
    pose proof (read_digits_pretty x rest) as Hrd.
    rewrite Ht in Hrd. cbn [read_digits] in Hrd. rewrite Hd in Hrd.
    rewrite (read_digits_delim x rest Hr) in Hrd.
    replace (0 * 10 + digit_val c)%N with (digit_val c) in Hrd by lia.
    rewrite Ht. cbn [parse_unsigned]. rewrite Hd.
    destruct (Ascii.eqb_spec c "0"); [done|]. rewrite Hrd. by apply number_end.
Qed.

Lemma pretty_pos_first (p : positive) :
  exists c t, pretty p = String c t /\ is_digit c = true.
Proof.
  unfold pretty, pretty_positive, pretty, pretty_N. case_decide; [done|].
  destruct (pretty_N_go_first (N.pos p) "") as (c & t & -> & ? & _); [lia|]. eauto.
Qed.

(** [str(z)] reads back as [z]. *)
Lemma parse_number_pretty (z : Z) rest :
  num_delim rest = true -> parse_number (pretty z +:+ rest) = Some (z, rest).
Proof.
  intros Hr. destruct z as [|p|p].
  - cbn. by rewrite number_end.
  - change (pretty (Z.pos p)) with (pretty (N.pos p)).
    destruct (pretty_pos_first p) as (c & t & Ht & Hd).
    change (pretty (N.pos p)) with (pretty p). rewrite Ht. cbn [String.append parse_number].
    destruct (Ascii.eqb_spec c "-") as [->|_]; [done|].
    change (String c (t +:+ rest)) with (String c t +:+ rest). rewrite <- Ht.
    change (pretty p) with (pretty (N.pos p)). by rewrite parse_unsigned_pretty.
  - change (pretty (Z.neg p)) with ("-" +:+ pretty (N.pos p)).
    cbn [String.append parse_number Ascii.eqb Bool.eqb andb].
    by rewrite parse_unsigned_pretty.
Qed.

(** ** Values *)

(** The values [json.loads] produces: the keys of every dict are distinct. *)
Fixpoint json_wf (v : pyval) : bool :=
  match v with
  | PyList l => forallb json_wf l
  | PyDict kvs =>
      bool_decide (NoDup (map fst kvs)) && forallb (fun '(_, x) => json_wf x) kvs
  | _ => true
  end.

(** The fuel the decoder spends on a value: one step for the value and one
    per item of an array or object, plus the items' own. *)
Fixpoint json_size (v : pyval) : nat :=
  match v with
  | PyList l => S (sum_list_with (fun x => S (json_size x)) l)
  | PyDict kvs => S (sum_list_with (fun '(_, x) => S (json_size x)) kvs)
  | _ => 1
  end.

Lemma pretty_Z_first (z : Z) :
  exists c t, pretty z = String c t /\ (is_digit c = true \/ c = "-"%char).
Proof.
  destruct z as [|p|p].
  - exists "0"%char, "". split; [done | by left].
  - destruct (pretty_pos_first p) as (c & t & Ht & Hd). exists c, t. split; [exact Ht | by left].
  - exists "-"%char, (pretty p). split; [done | by right].
Qed.

(** The text of a value starts with a character that is not whitespace
    and does not close an array or an object. *)
Lemma json_enc_first level v :
  exists c t, json_enc level v = String c t /\
    is_ws c = false /\ c <> "]"%char /\ c <> "}"%char.
Proof.
  destruct v as [| [] | z | s | [|x l] | [|kv kvs]]; try by eexists _, _.
  destruct (pretty_Z_first z) as (c & t & Ht & [Hd | ->]); [|by eexists _, _].
  exists c, t. cbn [json_enc]. rewrite Ht. split_and!; [done | | |];
    by destruct c as [[] [] [] [] [] [] [] []].
Qed.

Lemma skip_ws_enc level v rest : skip_ws (json_enc level v +:+ rest) = json_enc level v +:+ rest.
Proof.
  destruct (json_enc_first level v) as (c & t & Ht & Hw & _). rewrite Ht. by apply skip_ws_char.
Qed.

Lemma encode_basestring_app k s :
  encode_basestring k +:+ s = String dquote (json_escape k +:+ String dquote s).
Proof. unfold encode_basestring. cbn [String.append]. by rewrite <- string_app_assoc. Qed.

Lemma dict_set_fresh k v kvs :
  k ∉ map fst kvs -> dict_set k v kvs = kvs ++ [(k, v)].
Proof.
  intros Hk. unfold dict_set. replace (existsb _ kvs) with false; [done|].
  symmetry. apply not_true_iff_false. rewrite existsb_exists.
  intros ([k' x] & Hin & Heq%String.eqb_eq). simpl in Heq. subst k'.
  apply Hk, list_elem_of_In, in_map_iff. by exists (k, x).
Qed.

(** What the round trip says of one value. *)
Definition decodes (v : pyval) : Prop :=
  forall level F rest, json_size v <= F -> num_delim rest = true ->
  parse_value F (json_enc level v +:+ rest) = Some (v, rest).

Lemma num_delim_nl k s : num_delim (newline_indent k +:+ s) = true.
Proof. done. Qed.

Lemma parse_items_S f s acc :
  parse_items (S f) s acc =
  match parse_value f s with
  | Some (v, s1) =>
      match skip_ws s1 with
      | String d s2 =>
          if Ascii.eqb d "," then parse_items f s2 (acc ++ [v])
          else if Ascii.eqb d "]" then Some (PyList (acc ++ [v]), s2)
          else None
      | EmptyString => None
      end
  | None => None
  end.
Proof. done. Qed.

(** The items of a non-empty array, each written at [level + 1] and
    separated by [","] and a new line, then the closing bracket. *)
Lemma parse_items_enc level l acc F rest :
  Forall decodes l -> l <> [] -> sum_list_with (fun x => S (json_size x)) l <= F ->
  parse_items F (String.concat ("," +:+ newline_indent (S level)) (map (json_enc (S level)) l)
                 +:+ newline_indent level +:+ "]" +:+ rest) acc = Some (PyList (acc ++ l), rest).
Proof.
  intros Hl. revert acc F. induction Hl as [|x l Hx Hl IH]; intros acc F Hne HF; [done|].
  destruct F as [|f]; [simpl in HF; lia|]. rewrite parse_items_S.
  cbn [sum_list_with] in HF. destruct l as [|y l].
  - cbn [map String.concat]. rewrite Hx by (done || lia).
    by rewrite skip_ws_nl.
  - cbn [map]. change (String.concat ?sep (?a :: ?b :: ?l)) with (a +:+ sep +:+ String.concat sep (b :: l)).
    rewrite <- !string_app_assoc, Hx by (done || lia). cbn [skip_ws is_ws Ascii.eqb Bool.eqb andb orb String.append].
    rewrite (parse_items_skip f _ (String.concat ("," +:+ newline_indent (S level))
      (map (json_enc (S level)) (y :: l)) +:+ newline_indent level +:+ "]" +:+ rest));
      [| by rewrite skip_ws_nl].
    rewrite IH by (done || cbn [sum_list_with] in *; lia). by rewrite <- app_assoc.
Qed.

Lemma parse_members_S f s acc :
  parse_members (S f) s acc =
  match skip_ws s with
  | String q s1 =>
      if Ascii.eqb q dquote then
        match parse_str s1 with
        | Some (k, s2) =>
            match skip_ws s2 with
            | String col s3 =>
                if Ascii.eqb col ":" then
                  match parse_value f s3 with
                  | Some (v, s4) =>
                      match skip_ws s4 with
                      | String d s5 =>
                          if Ascii.eqb d "," then parse_members f s5 (dict_set k v acc)
                          else if Ascii.eqb d "}" then Some (PyDict (dict_set k v acc), s5)
                          else None
                      | EmptyString => None
                      end
                  | None => None
                  end
                else None
            | EmptyString => None
            end
        | None => None
        end
      else None
  | EmptyString => None
  end.
Proof. done. Qed.

(** One member [key: value] of an object, followed by [tail]. *)
Lemma parse_member_step f level k x tail acc :
  decodes x -> json_size x <= f -> num_delim tail = true ->
  parse_members (S f) ((encode_basestring k +:+ ": " +:+ json_enc level x) +:+ tail) acc =
  match skip_ws tail with
  | String d s5 =>
      if Ascii.eqb d "," then parse_members f s5 (dict_set k x acc)
      else if Ascii.eqb d "}" then Some (PyDict (dict_set k x acc), s5)
      else None
  | EmptyString => None
  end.
Proof.
  intros Hx Hf Ht. rewrite parse_members_S, <- !string_app_assoc, encode_basestring_app.
  rewrite skip_ws_char by reflexivity. cbv iota beta. rewrite Ascii.eqb_refl, parse_str_escape.
  change (": " +:+ ?y) with (String ":" (String " " y)).
  rewrite skip_ws_char by reflexivity. cbv iota beta. rewrite Ascii.eqb_refl.
  rewrite (parse_value_skip f _ (json_enc level x +:+ tail)) by reflexivity.
  by rewrite Hx.
Qed.

(** The members of a non-empty object with distinct keys. *)
Lemma parse_members_enc level kvs acc F rest :
  Forall (fun kv => decodes kv.2) kvs -> kvs <> [] -> NoDup (map fst (acc ++ kvs)) ->
  sum_list_with (fun '(_, x) => S (json_size x)) kvs <= F ->
  parse_members F (String.concat ("," +:+ newline_indent (S level))
      (map (fun '(k, x) => encode_basestring k +:+ ": " +:+ json_enc (S level) x) kvs)
    +:+ newline_indent level +:+ "}" +:+ rest) acc = Some (PyDict (acc ++ kvs), rest).
Proof.
  intros Hl. revert acc F. induction Hl as [|[k x] l Hx Hl IH]; intros acc F Hne Hnd HF; [done|].
  destruct F as [|f]; [simpl in HF; lia|]. cbn [sum_list_with] in HF. simpl in Hx.
  assert (Hk : k ∉ map fst acc).
  { rewrite map_app in Hnd. apply NoDup_app in Hnd as (_ & Hd & _). intros Hin.
    apply (Hd k Hin). simpl. left. }
  destruct l as [|[k' y] l].
  - cbn [map String.concat]. rewrite parse_member_step by (done || lia).
    rewrite skip_ws_nl. cbn. by rewrite dict_set_fresh.
  - cbn [map]. change (String.concat ?sep (?a :: ?b :: ?l)) with (a +:+ sep +:+ String.concat sep (b :: l)).
    rewrite <- string_app_assoc, parse_member_step by (done || lia).
    cbn [String.append skip_ws is_ws Ascii.eqb Bool.eqb andb orb].
    rewrite (parse_members_skip f _ (String.concat ("," +:+ newline_indent (S level))
      (map (fun '(k, x) => encode_basestring k +:+ ": " +:+ json_enc (S level) x) ((k', y) :: l))
      +:+ newline_indent level +:+ "}" +:+ rest)); [| by rewrite <- string_app_assoc, skip_ws_nl].
    rewrite dict_set_fresh, IH by (done || rewrite <- ?app_assoc; done || cbn [sum_list_with] in *; lia).
    by rewrite <- app_assoc.
Qed.

(** Comparisons of two known characters, computed. *)
Ltac reduce_eqb :=
  repeat match goal with
  | |- context [Ascii.eqb ?a ?b] =>
      let e := eval cbv in (Ascii.eqb a b) in
      match e with
      | true => change (Ascii.eqb a b) with true
      | false => change (Ascii.eqb a b) with false
      end
  end; cbv iota beta.

Lemma parse_value_S f s :
  parse_value (S f) s =
  match skip_ws s with
  | EmptyString => None
  | String c s1 =>
      if Ascii.eqb c "n" then after_value PyNone (strip_prefix "ull" s1)
      else if Ascii.eqb c "t" then after_value (PyBool true) (strip_prefix "rue" s1)
      else if Ascii.eqb c "f" then after_value (PyBool false) (strip_prefix "alse" s1)
      else if Ascii.eqb c dquote then
        match parse_str s1 with Some (t, r) => Some (PyStr t, r) | None => None end
      else if Ascii.eqb c "[" then
        match skip_ws s1 with
        | String d r => if Ascii.eqb d "]" then Some (PyList [], r) else parse_items f s1 []
        | EmptyString => None
        end
      else if Ascii.eqb c "{" then
        match skip_ws s1 with
        | String d r => if Ascii.eqb d "}" then Some (PyDict [], r) else parse_members f s1 []
        | EmptyString => None
        end
      else match parse_number (String c s1) with Some (z, r) => Some (PyInt z, r) | None => None end
  end.
Proof. done. Qed.

(** The first character of a number selects the number branch. *)
Lemma number_head c :
  is_digit c = true \/ c = "-"%char ->
  is_ws c = false /\ Ascii.eqb c "n" = false /\ Ascii.eqb c "t" = false /\
  Ascii.eqb c "f" = false /\ Ascii.eqb c dquote = false /\ Ascii.eqb c "[" = false /\
  Ascii.eqb c "{" = false.
Proof. destruct c as [[] [] [] [] [] [] [] []]; intros [H|H]; done. Qed.

Lemma items_head lv sep x l R :
  exists c t, skip_ws (String.concat sep (map (json_enc lv) (x :: l)) +:+ R) = String c t /\
    c <> "]"%char.
Proof.
  destruct (json_enc_first lv x) as (c & t & Ht & _ & Hc & _).
  destruct l as [|y l]; cbn [map String.concat]; [|rewrite <- string_app_assoc];
    rewrite skip_ws_enc, Ht; eauto.
Qed.

Lemma forallb_Forall_wf {A} (g : A -> pyval) (P : pyval -> Prop) (l : list A) :
  Forall (fun a => json_wf (g a) = true -> P (g a)) l ->
  forallb (fun a => json_wf (g a)) l = true -> Forall (fun a => P (g a)) l.
Proof.
  induction 1 as [|a l Ha _ IH]; simpl; [done|].
  intros [Hw Hl]%andb_true_iff. constructor; auto.
Qed.

Lemma forallb_pairs (kvs : list (string * pyval)) :
  forallb (fun '(_, x) => json_wf x) kvs = forallb (fun kv => json_wf kv.2) kvs.
Proof. induction kvs as [|[k x] kvs IH]; simpl; congruence. Qed.

Lemma members_head lv sep k x l R :
  exists t, skip_ws (String.concat sep
    (map (fun '(k, x) => encode_basestring k +:+ ": " +:+ json_enc lv x) ((k, x) :: l)) +:+ R) =
    String dquote t.
Proof.
  destruct l as [|y l]; cbn [map String.concat]; rewrite <- !string_app_assoc, encode_basestring_app;
    cbn [String.append]; rewrite skip_ws_char by reflexivity; eauto.
Qed.

(** Every well-formed value decodes from its text, whatever follows it
    that cannot extend a number. *)
Lemma json_decodes v : json_wf v = true -> decodes v.
Proof.
  induction v as [| b | z | s | l IH | kvs IH] using pyval_ind';
    intros Hwf level F rest HF Hr; (destruct F as [|f]; [simpl in HF; lia|]).
  - reflexivity.
  - by destruct b.
  - destruct (pretty_Z_first z) as (c & t & Ht & Hc).
    destruct (number_head c Hc) as (Hw & H1 & H2 & H3 & H4 & H5 & H6).
    rewrite parse_value_S. cbn [json_enc]. rewrite Ht. cbn [String.append].
    rewrite skip_ws_char by done. cbv iota. rewrite H1, H2, H3, H4, H5, H6.
    change (String c (t +:+ rest)) with (String c t +:+ rest). rewrite <- Ht.
    by rewrite parse_number_pretty.
  - rewrite parse_value_S. cbn [json_enc]. rewrite encode_basestring_app.
    rewrite skip_ws_char by reflexivity. cbv iota. reduce_eqb.
    by rewrite parse_str_escape.
  - destruct l as [|x l]; [reflexivity|].
    cbn [json_enc json_size] in *. rewrite <- !string_app_assoc, parse_value_S.
    change ("[" +:+ ?y) with (String "[" y).
    rewrite skip_ws_char by reflexivity. cbv iota. reduce_eqb.
    rewrite skip_ws_nl.
    destruct (items_head (S level) ("," +:+ newline_indent (S level)) x l
      (newline_indent level +:+ "]" +:+ rest)) as (c & t & -> & Hc).
    destruct (Ascii.eqb_spec c "]"); [done|].
    rewrite (parse_items_skip f _ (String.concat ("," +:+ newline_indent (S level))
      (map (json_enc (S level)) (x :: l)) +:+ newline_indent level +:+ "]" +:+ rest))
      by apply skip_ws_nl.
    apply (parse_items_enc level (x :: l) [] f rest); [|done|lia].
    apply (forallb_Forall_wf id); [by apply Forall_impl with (1 := IH) | exact Hwf].
  - destruct kvs as [|[k x] kvs]; [reflexivity|].
    apply andb_true_iff in Hwf as [Hnd%bool_decide_eq_true Hwf].
    rewrite forallb_pairs in Hwf.
    cbn [json_enc json_size] in *. rewrite <- !string_app_assoc, parse_value_S.
    change ("{" +:+ ?y) with (String "{" y).
    rewrite skip_ws_char by reflexivity. cbv iota. reduce_eqb.
    rewrite skip_ws_nl.
    destruct (members_head (S level) ("," +:+ newline_indent (S level)) k x kvs
      (newline_indent level +:+ "}" +:+ rest)) as (t & ->).
    reduce_eqb.
    rewrite (parse_members_skip f _ (String.concat ("," +:+ newline_indent (S level))
      (map (fun '(k, x) => encode_basestring k +:+ ": " +:+ json_enc (S level) x) ((k, x) :: kvs))
      +:+ newline_indent level +:+ "}" +:+ rest)) by apply skip_ws_nl.
    apply (parse_members_enc level ((k, x) :: kvs) [] f rest); [|done|done|lia].
    apply (forallb_Forall_wf snd); [by apply Forall_impl with (1 := IH) | exact Hwf].
Qed.

(** ** Enough fuel *)

Lemma length_newline_indent k : String.length (newline_indent k) = S (2 * k).
Proof.
  unfold newline_indent. cbn [String.length]. f_equal.
  rewrite length_string_of_list_ascii. apply repeat_length.
Qed.

Lemma length_concat sep xs :
  String.length (String.concat sep xs) =
  sum_list_with String.length xs + (length xs - 1) * String.length sep.
Proof.
  induction xs as [|x xs IH]; [done|]. destruct xs as [|y xs]; [simpl; lia|].
  change (String.concat sep (x :: y :: xs)) with (x +:+ sep +:+ String.concat sep (y :: xs)).
  rewrite !string_length_app, IH. cbn [sum_list_with length]. lia.
Qed.

Lemma sum_list_with_S {A} (f : A -> nat) l :
  sum_list_with (fun x => S (f x)) l = length l + sum_list_with f l.
Proof. induction l; simpl; lia. Qed.

Lemma sum_list_with_le {A} (f g : A -> nat) l :
  Forall (fun x => f x <= g x) l -> sum_list_with f l <= sum_list_with g l.
Proof. induction 1; simpl; lia. Qed.

Lemma sum_list_with_map {A B} (f : B -> nat) (h : A -> B) l :
  sum_list_with f (map h l) = sum_list_with (fun x => f (h x)) l.
Proof. induction l; simpl; lia. Qed.

Lemma length_pretty_Z (z : Z) : 1 <= String.length (pretty z).
Proof. destruct (pretty_Z_first z) as (c & t & -> & _). simpl. lia. Qed.

(** The fuel a value needs is at most the length of its text. *)
Lemma json_size_le v level : json_size v <= String.length (json_enc level v).
Proof.
  revert level. induction v as [| b | z | s | l IH | kvs IH] using pyval_ind'; intros level.
  - simpl. lia.
  - destruct b; simpl; lia.
  - apply length_pretty_Z.
  - simpl. lia.
  - destruct l as [|x l]; [simpl; lia|].
    cbn [json_enc json_size]. rewrite !string_length_app, !length_newline_indent, length_concat.
    rewrite sum_list_with_map, sum_list_with_S.
    assert (sum_list_with json_size (x :: l) <=
            sum_list_with (fun y => String.length (json_enc (S level) y)) (x :: l)).
    { apply sum_list_with_le. eapply Forall_impl; [exact IH|]. intros y Hy. apply Hy. }
    cbn [String.length String.append] in *. rewrite length_map, ?length_newline_indent. nia.
  - destruct kvs as [|[k x] kvs]; [simpl; lia|].
    cbn [json_enc json_size]. rewrite !string_length_app, !length_newline_indent, length_concat.
    rewrite sum_list_with_map.
    assert (sum_list_with (fun '(_, y) => S (json_size y)) ((k, x) :: kvs) <=
            sum_list_with (fun kv : string * pyval => String.length
              (let '(k, y) := kv in encode_basestring k +:+ ": " +:+ json_enc (S level) y))
              ((k, x) :: kvs)).
    { apply sum_list_with_le. eapply Forall_impl; [exact IH|]. intros [k' y] Hy. simpl in Hy.
      rewrite !string_length_app. specialize (Hy (S level)). simpl. lia. }
    cbn [String.length String.append] in *. rewrite length_map, ?length_newline_indent. nia.
Qed.

(** C7: Round trip of the persistence format: the text that
    [json.dump(data, f, ensure_ascii=False, indent=2)] writes for a value
    whose dicts have distinct keys (every value [json.loads] returns, so
    every record the API sends) is read back by [json.loads] as the same
    value. *)
Theorem json_loads_dumps v : json_wf v = true -> json_loads (json_dumps v) = Some v.
Proof.
  intros Hwf. unfold json_loads, json_dumps.
  pose proof (json_decodes v Hwf 0 (S (String.length (json_enc 0 v))) "") as H.
  rewrite string_app_nil_r in H. rewrite H; [done | | done].
  pose proof (json_size_le v 0). lia.
Qed.

(** ** What the decoder returns is well formed *)

(** A page of two records as the API sends them, with a quote, a
    backslash, a tab, a negative number and nested containers. *)
Definition sample_page : pyval :=
  PyList [PyDict [("Code", PyInt 200);
                  ("Data", PyDict [("PostId", PyStr "p1");
                                   ("RecruitPostName", PyStr ("C" +:+ String dquote "++" +:+ String "\"%char (String "009" "x")));
                                   ("Tags", PyList [PyInt (-3); PyBool false; PyNone; PyList []])])];
          PyDict [("Code", PyInt 200); ("Data", PyDict [])]].

Lemma json_loads_dumps_witness :
  json_wf sample_page = true /\ json_loads (json_dumps sample_page) = Some sample_page.
Proof. split; [reflexivity | apply json_loads_dumps; reflexivity]. Defined.

