(* ===== verification/Client.v ===== *)
(** * The API client: [scrape_api] (lines 18-27)

<<
    def scrape_api(url):
        logging.info('scraping %s', url)
        headers = {'User-Agent': UA.random}
        try:
            response = requests.get(url, timeout=10, headers=headers)
            if response.status_code == 200:
                return response.json()
            logging.error('get invalid status code %s while scraping %s', ...)
        except Exception:
            logging.error('error occurred while scraping %s', url, exc_info=True)
>>
    The contract the rest of the script relies on (spec, section 4.1) is
    stated as the type class [ApiClient] with its laws [ApiClientLaws]: a
    fetch never raises, issues exactly one request, leaves the filesystem
    and standard input alone, only appends to the log, and returns the
    parsed body of a 200 response and [None] otherwise.  The orchestrator
    ([Pagination], [Index], [Spider]) is written and proved against the
    class; [scrape_api] is its instance and discharges the laws.  The last
    section defines the log-audit invariant (the [scraping <url>] lines of
    the log are the requests issued) and shows that [scrape_api] keeps it. *)

From S2P Require Import Prelude PyValue StateExc FileSystem World.

(** ** The contract *)

(** What a fetch returns for a response: the body of a 200 response whose
    body is JSON, and [None] for everything else. *)
Definition response_value (r : response) : pyval :=
  match r with
  | RHttp status (Some v) => if Z.eqb status 200 then v else PyNone
  | _ => PyNone
  end.

Class ApiClient := { fetch : string -> M pyval }.

(** The answer the network gives to the next request. *)
Definition next_response (w : world) (url : string) : response :=
  w_net w (length (w_reqs w)) url.

Class ApiClientLaws (C : ApiClient) : Prop := {
  fetch_result url w : (fetch url w).1 = Ok (response_value (next_response w url));
  fetch_reqs url w : w_reqs (fetch url w).2 = w_reqs w ++ [url];
  fetch_log url w : exists l, w_log (fetch url w).2 = w_log w ++ l;
  fetch_stdin url w : w_stdin (fetch url w).2 = w_stdin w;
  fetch_net url w : w_net (fetch url w).2 = w_net w;
  fetch_fs url w : w_fs (fetch url w).2 = w_fs w
}.

(** The User-Agent string of the generator's next draw. *)
Definition next_ua (w : world) : string := ua_pick (w_ua w) (ua_draws (w_ua w)).

(** ** The implementation *)

Definition scrape_api (url : string) : M pyval :=
  log_info ("scraping " +:+ url) ;;;
  ua <- ua_random ;;
  st_catch
    (response <- http_get url (ua_headers ua) ;;
     match response with
     | RTransportError => st_raise RequestException
     | RHttp status body =>
         if Z.eqb status 200 then
           match body with
           | Some v => st_ret v
           | None => st_raise JSONDecodeError
           end
         else
           log_error ("get invalid status code " +:+ pretty status
                      +:+ " while scraping " +:+ url) ;;;
           st_ret PyNone
     end)
    (fun _ => log_error ("error occurred while scraping " +:+ url) ;;; st_ret PyNone).

#[global] Instance scrape_api_client : ApiClient := { fetch := scrape_api }.

(** ** What [scrape_api] does *)

(** The error line [scrape_api] logs for a response: none for a 200 response
    with a JSON body, the status line for another status, and the
    exception line when [requests.get] or [response.json()] raises. *)
Definition client_error_log (url : string) (r : response) : list (level * string) :=
  match r with
  | RTransportError => [(ERROR, "error occurred while scraping " +:+ url)]
  | RHttp status body =>
      if Z.eqb status 200 then
        match body with
        | Some _ => []
        | None => [(ERROR, "error occurred while scraping " +:+ url)]
        end
      else [(ERROR, "get invalid status code " +:+ pretty status +:+ " while scraping " +:+ url)]
  end.

(** C5: [scrape_api(url)] never raises: on every answer of the network it
    returns the parsed body of a 200 response with a JSON body and [None]
    otherwise, after issuing exactly one request, for [url], with the
    header [{'User-Agent': UA.random}] of the generator's next draw, and
    logging the info line followed by the branch's error line; standard
    input, the network and the filesystem are untouched, and the generator
    has made exactly one draw. *)
Theorem scrape_api_run (url : string) (w : world) :
  let r := next_response w url in
  (scrape_api url w).1 = Ok (response_value r) /\
  w_log (scrape_api url w).2 = w_log w ++ (INFO, "scraping " +:+ url) :: client_error_log url r /\
  w_reqs (scrape_api url w).2 = w_reqs w ++ [url] /\
  w_hdrs (scrape_api url w).2 = w_hdrs w ++ [ua_headers (next_ua w)] /\
  w_stdin (scrape_api url w).2 = w_stdin w /\ w_net (scrape_api url w).2 = w_net w /\
  w_ua (scrape_api url w).2 = ua_draw (w_ua w) /\ w_fs (scrape_api url w).2 = w_fs w.
Proof.
  unfold scrape_api, next_response, next_ua, log_info, log_error, log, ua_random, http_get,
    st_catch, st_bind,
    st_modify, st_ret, st_raise, set_log; simpl.
  destruct (w_net w (length (w_reqs w)) url) as [|status [v|]]; simpl;
    try destruct (Z.eqb status 200); simpl; split_and!; by rewrite <- ?app_assoc.
Qed.

(** The whole effect of [scrape_api] as one equation on the world. *)
Lemma scrape_api_eq (url : string) (w : world) :
  scrape_api url w =
  (Ok (response_value (next_response w url)),
   mkWorld (w_stdin w)
     (w_log w ++ (INFO, "scraping " +:+ url) :: client_error_log url (next_response w url))
     (w_reqs w ++ [url]) (w_net w) (w_fs w) (ua_draw (w_ua w)) (w_hdrs w ++ [ua_headers (next_ua w)])).
Proof.
  unfold scrape_api, next_response, next_ua, log_info, log_error, log, ua_random, http_get,
    st_catch, st_bind,
    st_modify, st_ret, st_raise, set_log; simpl.
  destruct (w_net w (length (w_reqs w)) url) as [|status [v|]]; simpl;
    try destruct (Z.eqb status 200); simpl; by rewrite <- ?app_assoc.
Qed.

#[global] Instance scrape_api_laws : ApiClientLaws scrape_api_client.
Proof.
  split; intros url w; simpl; rewrite scrape_api_eq; simpl; eauto.
Qed.

(** ** Using the contract *)

Section contract.
Context `{C : ApiClient} `{!ApiClientLaws C}.

(** A computation that continues after a fetch continues with the value
    the contract gives. *)
Lemma fetch_bind {A} (url : string) (k : pyval -> M A) (w : world) :
  st_bind (fetch url) k w = k (response_value (next_response w url)) (fetch url w).2.
Proof.
  unfold st_bind. pose proof (fetch_result url w) as Hr.
  destruct (fetch url w) as [r w']. simpl in Hr. by subst r.
Qed.
End contract.

(** ** Servers that answer by URL *)

(** [serves srv w]: every request in the world [w] is answered by [srv],
    whatever its position in the trace. *)
Definition serves (srv : string -> response) (w : world) : Prop :=
  forall n url, w_net w n url = srv url.

Section serves.
Context `{C : ApiClient} `{!ApiClientLaws C}.

Lemma serves_next srv w url : serves srv w -> next_response w url = srv url.
Proof. intros Hs. apply Hs. Qed.

Lemma serves_fetch srv w url : serves srv w -> serves srv (fetch url w).2.
Proof. intros Hs n u. rewrite fetch_net. apply Hs. Qed.
End serves.

(** [fetched srv w urls w']: going from [w] to [w'] issued exactly the
    requests [urls], to a world still served by [srv], without touching
    the filesystem or standard input. *)
Definition fetched (srv : string -> response) (w : world) (urls : list string) (w' : world) : Prop :=
  serves srv w' /\ w_reqs w' = w_reqs w ++ urls /\ w_fs w' = w_fs w /\ w_stdin w' = w_stdin w.

Section fetched.
Context `{C : ApiClient} `{!ApiClientLaws C}.

Lemma fetched_fetch srv w url : serves srv w -> fetched srv w [url] (fetch url w).2.
Proof.
  intros Hs. split_and!; [by apply serves_fetch | apply fetch_reqs | apply fetch_fs | apply fetch_stdin].
Qed.
End fetched.

Lemma fetched_refl srv w : serves srv w -> fetched srv w [] w.
Proof. intros Hs. split_and!; [done | by rewrite app_nil_r | done | done]. Qed.

Lemma fetched_trans srv w1 w2 w3 u1 u2 :
  fetched srv w1 u1 w2 -> fetched srv w2 u2 w3 -> fetched srv w1 (u1 ++ u2) w3.
Proof.
  intros (_ & R1 & F1 & I1) (S3 & R2 & F2 & I2). split_and!; [done | | congruence | congruence].
  by rewrite R2, R1, app_assoc.
Qed.

#[export] Hint Resolve fetched_fetch fetched_refl fetched_trans : spider.

Lemma fetch_wf `{C : ApiClient} `{!ApiClientLaws C} url : preserves world_wf (fetch url).
Proof. intros w Hw. unfold world_wf. by rewrite fetch_fs. Qed.

#[export] Hint Resolve fetch_wf : spider.

(** ** The log is an audit trail of the requests *)

(** The URL an INFO line [scraping <url>] reports as requested. *)
Definition request_line (e : level * string) : option string :=
  match e with
  | (INFO, msg) => strip_prefix "scraping " msg
  | (ERROR, _) => None
  end.

(** The requests the log reports, in order. *)
Definition request_lines (l : list (level * string)) : list string := omap request_line l.

(** The log reports exactly the requests issued so far. *)
Definition log_audit (w : world) : Prop := request_lines (w_log w) = w_reqs w.

Lemma request_lines_client_error url r : request_lines (client_error_log url r) = [].
Proof.
  unfold request_lines. destruct r as [|status [v|]]; simpl; [done | |]; by destruct (Z.eqb status 200).
Qed.

Lemma request_lines_app l1 l2 :
  request_lines (l1 ++ l2) = request_lines l1 ++ request_lines l2.
Proof. apply omap_app. Qed.

Lemma request_lines_scraping url l :
  request_lines ((INFO, "scraping " +:+ url) :: l) = url :: request_lines l.
Proof.
  unfold request_lines.
  change (omap request_line ((INFO, "scraping " +:+ url) :: l)) with
    (match request_line (INFO, "scraping " +:+ url) with
     | Some y => y :: omap request_line l | None => omap request_line l end).
  unfold request_line at 1. by rewrite strip_prefix_app.
Qed.

Lemma scrape_api_audit url : preserves log_audit (scrape_api url).
Proof.
  intros w Hw. rewrite scrape_api_eq. unfold log_audit in *. cbn [w_log w_reqs snd].
  by rewrite request_lines_app, Hw, request_lines_scraping, request_lines_client_error.
Qed.

Lemma log_error_audit msg : preserves log_audit (log_error msg).
Proof.
  intros w Hw. unfold log_audit in *. simpl.
  by rewrite request_lines_app, Hw, app_nil_r.
Qed.

Lemma on_fs_audit {A} (m : ST fs A) : preserves log_audit (on_fs m).
Proof. intros w Hw. unfold on_fs. by destruct (m (w_fs w)). Qed.

Lemma py_input_audit : preserves log_audit py_input.
Proof. intros w Hw. unfold py_input. by destruct (w_stdin w). Qed.

Lemma os_path_exists_audit p : preserves log_audit (os_path_exists p).
Proof. by intros w. Qed.

#[export] Hint Resolve scrape_api_audit log_error_audit on_fs_audit py_input_audit
  os_path_exists_audit : spider.
