(* ===== verification/Pagination.v ===== *)
(** * The page count: [get_total_page] (lines 30-34)

<<
    def get_total_page(keyword):
        url = INDEX_URL.format(keyword=keyword, page=1)
        count = scrape_api(url).get('Data').get('Count')
        page = count // 10 + 1 if count % 10 else count // 10
        return page
>>
    The arithmetic is [page_count]; [get_total_page] is written against the
    client interface.  The theorems show that the formula is exactly the
    ceiling of [count / 10] for every integer (so the off-by-one that the
    spec's design notes suspect for exact multiples of 10 is not there),
    that pages [1..total] of size 10 cover exactly the results, and what
    [get_total_page] does on every shape of the first index response,
    failures included (none of the accesses is guarded). *)

From S2P Require Import Prelude PyValue StateExc FileSystem World PyFormat Client.

Local Open Scope Z_scope.

(** [count // 10 + 1 if count % 10 else count // 10]: the condition is
    evaluated first. *)
Definition page_count (count : pyval) : result pyval :=
  m <-? py_mod count (PyInt 10) ;;
  if truthy m then
    q <-? py_floordiv count (PyInt 10) ;; py_add q (PyInt 1)
  else py_floordiv count (PyInt 10).

Section with_client.
Context `{C : ApiClient}.

Definition get_total_page (keyword : string) : M pyval :=
  url <- st_lift (py_format INDEX_URL [("keyword", PyStr keyword); ("page", PyInt 1)]) ;;
  r <- fetch url ;;
  data <- st_lift (py_get r "Data") ;;
  count <- st_lift (py_get data "Count") ;;
  st_lift (page_count count).
End with_client.

(** ** The arithmetic *)

(** C4: For every [int] (or [bool]) count the page count is the ceiling of
    [count / 10], computed as [(count + 9) // 10] with Python's floor
    division; on any other value [%] or [//] raises [TypeError]. *)
Theorem page_count_ceil (v : pyval) :
  page_count v =
  match as_int v with
  | Some c => Ok (PyInt ((c + 9) / 10))
  | None => Exc TypeError
  end.
Proof.
  unfold page_count, py_mod, py_floordiv, py_add.
  destruct (as_int v) as [c|]; simpl; [|done].
  destruct (Z.eqb_spec (c mod 10) 0) as [H|H]; simpl; do 2 f_equal;
    Z.div_mod_to_equations; lia.
Qed.

(** The [int] case, for the callers. *)
Lemma page_count_int (c : Z) : page_count (PyInt c) = Ok (PyInt ((c + 9) / 10)).
Proof.
  unfold page_count, py_mod, py_floordiv, py_add. simpl.
  destruct (Z.eqb_spec (c mod 10) 0) as [H|H]; simpl; do 2 f_equal;
    Z.div_mod_to_equations; lia.
Qed.

(** C16: For a count of results [c >= 0], the [p] pages of 10 results that
    the script visits are exactly enough: the last page is not empty
    ([10 * p - 10 < c]), no result is beyond it ([c <= 10 * p]), and the
    result at position [i] is on page [i // 10 + 1], between 1 and [p]. *)
Theorem page_count_covers (c p : Z) :
  page_count (PyInt c) = Ok (PyInt p) -> 0 <= c ->
  10 * p - 10 < c <= 10 * p /\
  forall i, 0 <= i < c -> 1 <= i / 10 + 1 <= p.
Proof.
  rewrite page_count_int. intros [= <-] Hc.
  split; [Z.div_mod_to_equations; lia|].
  intros i Hi. split; [Z.div_mod_to_equations; lia|].
  assert (i / 10 < (c + 9) / 10); [|lia].
  apply Z.div_lt_upper_bound; [lia|]. Z.div_mod_to_equations. lia.
Qed.

(** The examples of the spec: 25 results make 3 pages, 20 make 2, none make
    none. *)
Lemma page_count_covers_witness :
  (page_count (PyInt 25) = Ok (PyInt 3) /\ page_count (PyInt 20) = Ok (PyInt 2) /\
   page_count (PyInt 0) = Ok (PyInt 0)) /\
  (10 * 3 - 10 < 25 <= 10 * 3 /\ forall i, 0 <= i < 25 -> 1 <= i / 10 + 1 <= 3).
Proof.
  split; [split_and!; reflexivity|].
  apply page_count_covers; [reflexivity | lia].
Defined.

(** ** [get_total_page] against the client contract *)

Section get_total_page_spec.
Context `{C : ApiClient} `{!ApiClientLaws C}.

(** [get_total_page] issues the request for page 1 and continues with the
    value the contract gives. *)
Lemma get_total_page_run keyword w :
  get_total_page keyword w =
  ((data <-? py_get (response_value (next_response w (index_url keyword (PyInt 1)))) "Data" ;;
    count <-? py_get data "Count" ;; page_count count),
   (fetch (index_url keyword (PyInt 1)) w).2).
Proof.
  unfold get_total_page. rewrite (st_bind_lift_ok _ _ _ _ (format_INDEX_URL keyword (PyInt 1))).
  rewrite fetch_bind. unfold st_bind, st_lift, result_bind.
  destruct (py_get _ "Data") as [d|]; [|done].
  by destruct (py_get d _).
Qed.

(** C17: When the first index response carries [Data.Count = c],
    [get_total_page] returns the ceiling of [c / 10], after exactly one
    request, for page 1 of the keyword. *)
Theorem get_total_page_count keyword w d (c : Z) :
  py_get (response_value (next_response w (index_url keyword (PyInt 1)))) "Data" = Ok d ->
  py_get d "Count" = Ok (PyInt c) ->
  (get_total_page keyword w).1 = Ok (PyInt ((c + 9) / 10)) /\
  w_reqs (get_total_page keyword w).2 = w_reqs w ++ [index_url keyword (PyInt 1)].
Proof.
  intros Hd Hc. rewrite get_total_page_run, Hd. simpl. rewrite Hc. simpl.
  split; [apply page_count_int | apply fetch_reqs].
Qed.

(** The same, as the first step of a longer computation. *)
Lemma get_total_page_bind {A} keyword w d (c : Z) (k : pyval -> M A) :
  py_get (response_value (next_response w (index_url keyword (PyInt 1)))) "Data" = Ok d ->
  py_get d "Count" = Ok (PyInt c) ->
  st_bind (get_total_page keyword) k w =
  k (PyInt ((c + 9) / 10)) (fetch (index_url keyword (PyInt 1)) w).2.
Proof.
  intros Hd Hc. unfold st_bind at 1. rewrite get_total_page_run, Hd. simpl.
  rewrite Hc. simpl. by rewrite page_count_int.
Qed.

(** C18: The first index request is not guarded: when it fails ([None]),
    or when its body has no [Data], [get_total_page] raises
    [AttributeError]; when [Data] has no [Count], [TypeError]. *)
Theorem get_total_page_unguarded keyword w :
  let v := response_value (next_response w (index_url keyword (PyInt 1))) in
  (v = PyNone -> (get_total_page keyword w).1 = Exc AttributeError) /\
  (py_get v "Data" = Ok PyNone -> (get_total_page keyword w).1 = Exc AttributeError) /\
  (forall d, py_get v "Data" = Ok d -> py_get d "Count" = Ok PyNone ->
     (get_total_page keyword w).1 = Exc TypeError).
Proof.
  simpl. rewrite get_total_page_run. simpl.
  split_and!; [intros -> | intros -> | intros d Hd Hc; rewrite Hd; simpl; rewrite Hc];
    done.
Qed.
End get_total_page_spec.

(** A network that answers every request with [{"Data": {"Count": c}}], or
    with a transport error. *)
Definition count_world (r : response) : world :=
  mkWorld [] [] [] (fun _ _ => r) (mkFs [] (list_to_set [[]]) ∅) browser_ua [].

Definition count_response (c : Z) : response :=
  RHttp 200 (Some (PyDict [("Data", PyDict [("Count", PyInt c)])])).

Lemma get_total_page_count_witness :
  (get_total_page "engineer" (count_world (count_response 25))).1 = Ok (PyInt ((25 + 9) / 10)) /\
  w_reqs (get_total_page "engineer" (count_world (count_response 25))).2 =
    w_reqs (count_world (count_response 25)) ++ [index_url "engineer" (PyInt 1)].
Proof.
  apply (get_total_page_count "engineer" _ (PyDict [("Count", PyInt 25)]) 25);
    reflexivity.
Defined.

Lemma get_total_page_unguarded_witness :
  (get_total_page "engineer" (count_world RTransportError)).1 = Exc AttributeError.
Proof. apply (proj1 (get_total_page_unguarded "engineer" (count_world RTransportError))). reflexivity. Defined.
