(* ===== verification/Index.v ===== *)
(** * The index page: [parse_index] (lines 42-47)

<<
    def parse_index(index_json):
        jobs = index_json.get('Data')
        if not jobs:
            return
        for job in jobs.get('Posts'):
            yield job.get('PostId')
>>
    [parse_index] is a generator: calling it runs nothing, and its body runs
    as the caller's [for] loop asks for items, so an exception of the body
    surfaces at the [next()] that reaches it, after the items yielded
    before.  Its body has no effect, so the generator is modelled by the
    finite sequence of its steps, [gen]: the items it yields, ended by
    [GStop] (the body returned) or [GRaise e] (the body raised [e]).  The
    consumer ([Spider.collect_details]) interleaves its own effects with
    these steps.  The theorems give the yielded items on a well-formed
    index, and the outcome on a missing [Data], on a falsy [Data], and on
    [None] (where the spec expects an empty sequence and the code raises). *)

From S2P Require Import Prelude PyValue.

Inductive gen :=
  | GStop
  | GRaise (e : exn)
  | GYield (v : pyval) (rest : gen).

(** The generator that yields the items of a list and stops. *)
Fixpoint gen_of_list (l : list pyval) : gen :=
  match l with
  | [] => GStop
  | v :: l' => GYield v (gen_of_list l')
  end.

(** The generator that yields the items of a list and then continues as
    [g]. *)
Fixpoint gen_prepend (l : list pyval) (g : gen) : gen :=
  match l with
  | [] => g
  | v :: l' => GYield v (gen_prepend l' g)
  end.

(** [for job in posts: yield job.get('PostId')]. *)
Fixpoint yield_post_ids (jobs : list pyval) : gen :=
  match jobs with
  | [] => GStop
  | job :: jobs' =>
      match py_get job "PostId" with
      | Ok post_id => GYield post_id (yield_post_ids jobs')
      | Exc e => GRaise e
      end
  end.

Definition parse_index (index_json : pyval) : gen :=
  match py_get index_json "Data" with
  | Exc e => GRaise e
  | Ok jobs =>
      if negb (truthy jobs) then GStop
      else match py_get jobs "Posts" with
           | Exc e => GRaise e
           | Ok posts =>
               match py_iter posts with
               | Exc e => GRaise e
               | Ok items => yield_post_ids items
               end
           end
  end.

(** The items a generator yields before it ends, and how it ends. *)
Fixpoint gen_items (g : gen) : list pyval :=
  match g with
  | GYield v g' => v :: gen_items g'
  | _ => []
  end.

Fixpoint gen_exn (g : gen) : option exn :=
  match g with
  | GStop => None
  | GRaise e => Some e
  | GYield _ g' => gen_exn g'
  end.

(** ** Properties *)

Lemma gen_of_list_prepend l : gen_of_list l = gen_prepend l GStop.
Proof. induction l; simpl; congruence. Qed.

Lemma gen_items_of_list l : gen_items (gen_of_list l) = l.
Proof. induction l; simpl; congruence. Qed.

Lemma gen_exn_of_list l : gen_exn (gen_of_list l) = None.
Proof. by induction l. Qed.

Lemma yield_post_ids_ok jobs ids :
  Forall2 (fun job id => py_get job "PostId" = Ok id) jobs ids ->
  yield_post_ids jobs = gen_of_list ids.
Proof. induction 1 as [|job id jobs ids Hj _ IH]; simpl; [done|]. by rewrite Hj, IH. Qed.

(** C19: On an index whose [Data] is a non-empty dict with a list [Posts]
    of dicts, [parse_index] yields the [PostId] of every post, in order,
    and then stops. *)
Theorem parse_index_posts (index_json data : pyval) (posts ids : list pyval) :
  py_get index_json "Data" = Ok data -> truthy data = true ->
  py_get data "Posts" = Ok (PyList posts) ->
  Forall2 (fun job id => py_get job "PostId" = Ok id) posts ids ->
  parse_index index_json = gen_of_list ids.
Proof.
  intros Hd Ht Hp Hids. unfold parse_index. rewrite Hd, Ht. simpl.
  rewrite Hp. simpl. by apply yield_post_ids_ok.
Qed.

(** The spec's example: [{"Data": {"Posts": [{"PostId": "A"}, {"PostId": "B"}]}}]
    yields exactly ["A"] and ["B"]. *)
Lemma parse_index_posts_witness :
  parse_index (PyDict [("Data", PyDict [("Posts",
    PyList [PyDict [("PostId", PyStr "A")]; PyDict [("PostId", PyStr "B")]])])])
  = gen_of_list [PyStr "A"; PyStr "B"].
Proof.
  apply (parse_index_posts _ (PyDict [("Posts",
    PyList [PyDict [("PostId", PyStr "A")]; PyDict [("PostId", PyStr "B")]])])
    [PyDict [("PostId", PyStr "A")]; PyDict [("PostId", PyStr "B")]]);
    [reflexivity | reflexivity | reflexivity | repeat constructor].
Defined.

(** C20: [parse_index] stops without yielding when the index has no [Data]
    or a falsy one ([{}] included), but it raises [AttributeError] at the
    first [next()] when it is given [None] (or any value that is not a
    dict), where the spec says it yields an empty sequence. *)
Theorem parse_index_absent (index_json : pyval) :
  (forall kvs, index_json = PyDict kvs -> dict_lookup "Data" kvs = None ->
     parse_index index_json = GStop) /\
  (forall data, py_get index_json "Data" = Ok data -> truthy data = false ->
     parse_index index_json = GStop) /\
  ((forall kvs, index_json <> PyDict kvs) ->
     parse_index index_json = GRaise AttributeError).
Proof.
  unfold parse_index. split_and!.
  - intros kvs -> Hn. simpl. by rewrite Hn.
  - intros data -> Hf. by rewrite Hf.
  - intros Hnd. destruct index_json; try done. by destruct (Hnd kvs).
Qed.

(** [parse_index({})] stops and [parse_index(None)] raises. *)
Lemma parse_index_absent_witness :
  parse_index (PyDict []) = GStop /\ parse_index PyNone = GRaise AttributeError.
Proof.
  split.
  - apply (proj1 (parse_index_absent (PyDict [])) []); reflexivity.
  - apply (proj2 (proj2 (parse_index_absent PyNone))). intros kvs H. discriminate H.
Defined.

(** A generator that does not raise yields its items and stops. *)
Lemma gen_exn_none g : gen_exn g = None -> g = gen_of_list (gen_items g).
Proof. induction g as [| e | v g IH]; simpl; [done | done | intros H; by rewrite <- IH]. Qed.
