(* ===== verification/Spider.v ===== *)
(** * The orchestrator: [scrape_index], [scrape_detail], [save_data], [main]

<<
    def main():
        keyword = input('...')
        total_page = get_total_page(keyword)
        dirname = f'./{keyword}' if keyword else './all_jobs'
        os.path.exists(dirname) or os.makedirs(dirname)
        for page in range(1, total_page + 1):
            jobs = []
            index_json = scrape_index(keyword, page)
            if not index_json:
                continue
            for post_id in parse_index(index_json):
                data = scrape_detail(post_id)
                if data.get('Code') != 200:
                    logging.error('get invalid data while scraping %s', detail_url)
                    continue
                jobs.append(data)
            logging.info('saving page %s data', page)
            save_data(jobs, FILENAME.format(dirname=dirname, keyword=keyword, page=page))
>>
    [main] is split as the code is: the body of the page loop is
    [scrape_page], and the inner loop over the generator is
    [collect_details], which interleaves the generator's steps with the
    detail requests.  Line 73 passes the name [detail_url] to
    [logging.error]; no such variable exists in [main] (only the module
    constant [DETAIL_URL]), so evaluating the argument raises [NameError]
    before anything is logged, and the [continue] is never reached.  All
    operations are written against the client interface [ApiClient].

    The theorems: the detail loop and one page on every branch; the
    invariants of a whole run, from [main_inv], which takes one hypothesis
    per kind of operation; the spec's account of a run ([page_records],
    [write_page], [expected_files], [page_requests]) and the refinement
    [main_refines]; the progress of the page loop over every page
    ([page_loop_visits_every_page]); and the fate of a page for a keyword
    with a slash ([scrape_page_keyword_with_slash]).  The worlds at the
    end of the file are the spec's scenario and a keyword with a slash, on
    which the witnesses apply the theorems. *)

From S2P Require Import Prelude PyValue StateExc FileSystem World PyFormat JsonDump Client Pagination Index.

Section with_client.
Context `{C : ApiClient}.

(** Lines 37-39. *)
Definition scrape_index (keyword : string) (page : pyval) : M pyval :=
  url <- st_lift (py_format INDEX_URL [("keyword", PyStr keyword); ("page", page)]) ;;
  fetch url.

(** Lines 55-57. *)
Definition scrape_detail (post_id : pyval) : M pyval :=
  url <- st_lift (py_format DETAIL_URL [("post_id", post_id)]) ;;
  fetch url.

(** Lines 50-52: [open(filename, 'w')], then the text of [json.dump]. *)
Definition save_data (data : pyval) (fname : string) : M unit :=
  f <- on_fs (open_w fname) ;;
  on_fs (write_text f (json_dumps data)).

(** Lines 70-75: the loop over the generator; [jobs] is the list built
    so far. *)
Fixpoint collect_details (g : gen) (jobs : list pyval) : M (list pyval) :=
  match g with
  | GStop => st_ret jobs
  | GRaise e => st_raise e
  | GYield post_id g' =>
      data <- scrape_detail post_id ;;
      code <- st_lift (py_get data "Code") ;;
      if negb (py_eq_int code 200) then st_raise NameError
      else collect_details g' (jobs ++ [data])
  end.

(** Lines 66-77: one iteration of the page loop. *)
Definition scrape_page (keyword dirname : string) (page : pyval) : M unit :=
  index_json <- scrape_index keyword page ;;
  if negb (truthy index_json) then st_ret tt
  else
    jobs <- collect_details (parse_index index_json) [] ;;
    log_info ("saving page " +:+ py_str page +:+ " data") ;;;
    fname <- st_lift (py_format FILENAME
               [("dirname", PyStr dirname); ("keyword", PyStr keyword); ("page", page)]) ;;
    save_data (PyList jobs) fname.

(** [f'./{keyword}' if keyword else './all_jobs'] (line 63). *)
Definition output_dir (keyword : string) : string :=
  if truthy (PyStr keyword) then "./" +:+ keyword else "./all_jobs".

(** Lines 60-77. *)
Definition main : M unit :=
  keyword <- py_input ;;
  total_page <- get_total_page keyword ;;
  let dirname := output_dir keyword in
  ex <- os_path_exists dirname ;;
  (if ex then st_ret tt else on_fs (makedirs dirname)) ;;;
  stop <- st_lift (py_add total_page (PyInt 1)) ;;
  pages <- st_lift (py_range (PyInt 1) stop) ;;
  st_for_each pages (scrape_page keyword dirname).
End with_client.

(** ** The detail loop *)

(** A detail record is accepted when its [Code] is 200. *)
Definition valid_detail (d : pyval) : bool :=
  match py_get d "Code" with
  | Ok code => py_eq_int code 200
  | Exc _ => false
  end.

Section details.
Context `{C : ApiClient} `{!ApiClientLaws C}.
Variable srv : string -> response.

(** The detail record the server returns for a post id. *)
Definition detail_of (post_id : pyval) : pyval := response_value (srv (detail_url post_id)).

Lemma scrape_detail_bind {A} post_id (k : pyval -> M A) w :
  serves srv w ->
  st_bind (scrape_detail post_id) k w = k (detail_of post_id) (fetch (detail_url post_id) w).2.
Proof.
  intros Hs. unfold scrape_detail. rewrite st_bind_assoc.
  rewrite (st_bind_lift_ok _ _ _ _ (format_DETAIL_URL post_id)).
  by rewrite fetch_bind, (serves_next srv).
Qed.

(** The loop goes through a prefix of valid records, keeping each one. *)
Lemma collect_details_prefix pre g jobs w :
  serves srv w -> Forall (fun id => valid_detail (detail_of id) = true) pre ->
  exists w', fetched srv w (map detail_url pre) w' /\
    collect_details (gen_prepend pre g) jobs w =
    collect_details g (jobs ++ map detail_of pre) w'.
Proof.
  revert jobs w. induction pre as [|id pre IH]; intros jobs w Hs Hv; simpl.
  - exists w. rewrite app_nil_r. auto with spider.
  - apply Forall_cons in Hv as [Hid Hv].
    rewrite scrape_detail_bind by done. cbv beta. unfold valid_detail in Hid.
    destruct (py_get (detail_of id) "Code") as [code|] eqn:Hc; [|done].
    rewrite (st_bind_lift_ok _ code _ _ eq_refl). cbv beta. rewrite Hid. simpl.
    pose proof (fetched_fetch srv w (detail_url id) Hs) as Hf.
    destruct (IH (jobs ++ [detail_of id]) _ (proj1 Hf) Hv) as (w' & Hf' & ->).
    exists w'. rewrite <- app_assoc. split; [|done].
    apply (fetched_trans _ _ _ _ [_] _ Hf Hf').
Qed.

(** C14: When every post id yields a record with [Code] 200, the loop
    keeps all the records, in the order of the ids, after one request
    per id in that order, and changes neither the filesystem nor the
    input. *)
Theorem collect_details_valid ids jobs w :
  serves srv w -> Forall (fun id => valid_detail (detail_of id) = true) ids ->
  exists w', fetched srv w (map detail_url ids) w' /\
    collect_details (gen_of_list ids) jobs w = (Ok (jobs ++ map detail_of ids), w').
Proof.
  intros Hs Hv. rewrite gen_of_list_prepend.
  destruct (collect_details_prefix ids GStop jobs w Hs Hv) as (w' & Hf & ->). eauto.
Qed.

(** C2: A record whose [Code] is not 200 is not skipped as the spec says
    (and as the [continue] of line 74 intends): the argument [detail_url]
    of the [logging.error] call on line 73 is an undefined name, so the
    loop, and with it the run, ends with [NameError]. *)
Theorem collect_details_invalid_code pre bad g jobs w code :
  serves srv w -> Forall (fun id => valid_detail (detail_of id) = true) pre ->
  py_get (detail_of bad) "Code" = Ok code -> py_eq_int code 200 = false ->
  (collect_details (gen_prepend pre (GYield bad g)) jobs w).1 = Exc NameError.
Proof.
  intros Hs Hv Hc Hne.
  destruct (collect_details_prefix pre (GYield bad g) jobs w Hs Hv) as (w' & Hf & ->).
  simpl. rewrite (scrape_detail_bind _ _ _ (proj1 Hf)). cbv beta.
  rewrite (st_bind_lift_ok _ _ _ _ Hc), Hne.
  done.
Qed.

(** C3: A detail request that fails ([scrape_api] returns [None]) is not
    skipped either: [data.get('Code')] on [None] raises [AttributeError]. *)
Theorem collect_details_fetch_failed pre bad g jobs w :
  serves srv w -> Forall (fun id => valid_detail (detail_of id) = true) pre ->
  detail_of bad = PyNone ->
  (collect_details (gen_prepend pre (GYield bad g)) jobs w).1 = Exc AttributeError.
Proof.
  intros Hs Hv Hn.
  destruct (collect_details_prefix pre (GYield bad g) jobs w Hs Hv) as (w' & Hf & ->).
  simpl. rewrite (scrape_detail_bind _ _ _ (proj1 Hf)). cbv beta. by rewrite Hn.
Qed.
End details.

(** ** One page *)

(** [save_data] on a path that resolves to [r], a non-directory inside an
    existing directory: the file [r] holds exactly the JSON text. *)
Lemma save_data_run `{C : ApiClient} v fname w r :
  resolve (w_fs w) fname = Ok r -> is_dir (w_fs w) r = false ->
  is_dir (w_fs w) (removelast r) = true -> ends_with_slash fname = false ->
  save_data v fname w =
  (Ok tt, set_fs w (mkFs (fs_cwd (w_fs w)) (fs_dirs (w_fs w))
                        (<[r := json_dumps v]> (fs_files (w_fs w))))).
Proof.
  intros Hr Hd Hp He. unfold save_data, on_fs, open_w, write_text, st_bind.
  rewrite Hr, Hd, He, Hp. simpl. rewrite lookup_insert_eq. simpl.
  by rewrite insert_insert_eq.
Qed.

Section page.
Context `{C : ApiClient} `{!ApiClientLaws C}.
Variable srv : string -> response.

(** The index the server returns for a page of a keyword. *)
Definition index_of (keyword : string) (page : pyval) : pyval :=
  response_value (srv (index_url keyword page)).

Lemma scrape_index_bind {A} keyword page (k : pyval -> M A) w :
  serves srv w ->
  st_bind (scrape_index keyword page) k w =
  k (index_of keyword page) (fetch (index_url keyword page) w).2.
Proof.
  intros Hs. unfold scrape_index. rewrite st_bind_assoc.
  rewrite (st_bind_lift_ok _ _ _ _ (format_INDEX_URL keyword page)).
  by rewrite fetch_bind, (serves_next srv).
Qed.

(** C9: A page whose index is falsy ([None] after a failed request, or
    an empty body) is skipped: one request, no file written, no error. *)
Theorem scrape_page_skip keyword dirname page w :
  serves srv w -> truthy (index_of keyword page) = false ->
  exists w', fetched srv w [index_url keyword page] w' /\
    scrape_page keyword dirname page w = (Ok tt, w').
Proof.
  intros Hs Hf. unfold scrape_page.
  rewrite scrape_index_bind by done. cbv beta. rewrite Hf. simpl.
  eexists. split; [by apply fetched_fetch | done].
Qed.

(** C8: A page whose index lists the ids [ids], each of whose records has
    [Code] 200, is written to its file: after one index request and one
    request per id, in order, the file that [FILENAME] names holds the
    [json.dump] of the records in the order of the ids, and nothing else
    of the filesystem changes. *)
Theorem scrape_page_save keyword dirname page ids w r :
  serves srv w -> truthy (index_of keyword page) = true ->
  parse_index (index_of keyword page) = gen_of_list ids ->
  Forall (fun id => valid_detail (detail_of srv id) = true) ids ->
  resolve (w_fs w) (filename dirname keyword page) = Ok r ->
  is_dir (w_fs w) r = false -> is_dir (w_fs w) (removelast r) = true ->
  exists w', scrape_page keyword dirname page w = (Ok tt, w') /\
    fetched srv w (index_url keyword page :: map detail_url ids)
      (set_fs w' (w_fs w)) /\
    w_fs w' = mkFs (fs_cwd (w_fs w)) (fs_dirs (w_fs w))
      (<[r := json_dumps (PyList (map (detail_of srv) ids))]> (fs_files (w_fs w))).
Proof.
  intros Hs Ht Hp Hv Hr Hd Hpd. unfold scrape_page.
  rewrite scrape_index_bind by done. cbv beta. rewrite Ht. simpl. rewrite Hp.
  pose proof (fetched_fetch srv w (index_url keyword page) Hs) as Hf1.
  rewrite gen_of_list_prepend.
  destruct (collect_details_prefix srv ids GStop [] _ (proj1 Hf1) Hv) as (w2 & Hf2 & Hc).
  rewrite (st_bind_ok _ _ _ _ _ (eq_trans Hc eq_refl)).
  unfold log_info. rewrite log_bind.
  rewrite (st_bind_lift_ok _ _ _ _ (format_FILENAME dirname keyword page)).
  pose proof (fetched_trans _ _ _ _ _ _ Hf1 Hf2) as (Hs2 & Hq2 & Hfs2 & Hi2).
  rewrite <- Hfs2 in Hr, Hd, Hpd.
  rewrite (save_data_run _ _ _ r) by (done || apply filename_not_dir).
  eexists. split; [done|]. split.
  - split_and!; simpl; [intros n u; apply Hs2 | exact Hq2 | done | exact Hi2].
  - simpl. by rewrite Hfs2.
Qed.

(** The file of page [p] for the keyword [a/b]: the keyword is used
    unescaped in [dirname] and again in the name. *)
Lemma filename_slash_keyword a b p :
  plain_name a = true ->
  filename (output_dir (a +:+ "/" +:+ b)) (a +:+ "/" +:+ b) (PyInt p) =
  "./" +:+ a +:+ "/" +:+ b +:+ "/" +:+ a +:+ "/" +:+ page_file_name b p.
Proof.
  intros (_ & Ha & _)%plain_name_spec. unfold output_dir, filename, page_file_name.
  destruct a as [|c a]; [done|]. cbn [truthy String.append String.eqb negb].
  by rewrite <- !string_app_assoc.
Qed.

(** C13: A keyword with a slash, [a/b], is used unescaped both as the
    output directory [./a/b] and inside the file name, so the file of
    every page is [./a/b/a/b<p>.json], inside a directory [./a/b/a] that
    [os.makedirs('./a/b')] does not create.  Where that directory does not
    exist, a page whose records are all fetched and valid is not saved:
    the [open] of line 51 raises [FileNotFoundError], ending the run, and
    the filesystem is left as it was. *)
Theorem scrape_page_keyword_with_slash a b p ids w :
  serves srv w -> plain_name a = true -> plain_name b = true ->
  truthy (index_of (a +:+ "/" +:+ b) (PyInt p)) = true ->
  parse_index (index_of (a +:+ "/" +:+ b) (PyInt p)) = gen_of_list ids ->
  Forall (fun id => valid_detail (detail_of srv id) = true) ids ->
  fs_cwd (w_fs w) ++ [a] ∈ fs_dirs (w_fs w) -> fs_cwd (w_fs w) ++ [a; b] ∈ fs_dirs (w_fs w) ->
  fs_cwd (w_fs w) ++ [a; b; a] ∉ fs_dirs (w_fs w) ->
  fs_files (w_fs w) !! (fs_cwd (w_fs w) ++ [a; b; a]) = None ->
  exists w', scrape_page (a +:+ "/" +:+ b) (output_dir (a +:+ "/" +:+ b)) (PyInt p) w =
               (Exc FileNotFoundError, w') /\ w_fs w' = w_fs w.
Proof.
  intros Hs Ha Hb Ht Hp Hv Hd1 Hd2 Hn3 Hf3. unfold scrape_page.
  rewrite scrape_index_bind by done. cbv beta. rewrite Ht. cbn [negb]. rewrite Hp.
  pose proof (fetched_fetch srv w (index_url (a +:+ "/" +:+ b) (PyInt p)) Hs) as Hf1.
  rewrite gen_of_list_prepend.
  destruct (collect_details_prefix srv ids GStop [] _ (proj1 Hf1) Hv) as (w2 & Hf2 & Hc).
  rewrite (st_bind_ok _ _ _ _ _ (eq_trans Hc eq_refl)).
  unfold log_info. rewrite log_bind.
  rewrite (st_bind_lift_ok _ _ _ _ (format_FILENAME _ (a +:+ "/" +:+ b) (PyInt p))).
  pose proof (fetched_trans _ _ _ _ _ _ Hf1 Hf2) as (_ & _ & Hfs2 & _).
  rewrite <- Hfs2 in Hd1, Hd2, Hn3, Hf3.
  pose proof (page_file_name_plain b p (proj1 (plain_name_spec b Hb))) as (Hr & Hre & _)%plain_name_spec.
  unfold save_data, on_fs, open_w, st_bind at 1. cbn [w_fs set_log].
  rewrite filename_slash_keyword, resolve_missing_third by done.
  eexists. split; [reflexivity|]. simpl. by rewrite Hfs2.
Qed.
End page.

(** ** The whole run *)

(** The operations a run of [main] performs, apart from the control flow:
    an invariant that each of them preserves holds after every run,
    whatever the input, the network's answers and the exception that may
    end it. *)
Section invariant.
Context `{C : ApiClient}.
Variable I : world -> Prop.
Hypothesis fetch_I : forall url, preserves I (fetch url).
Hypothesis py_input_I : preserves I py_input.
Hypothesis os_path_exists_I : forall p, preserves I (os_path_exists p).
Hypothesis makedirs_I : forall d, preserves I (on_fs (makedirs d)).
Hypothesis save_data_I : forall v fname, preserves I (save_data v fname).
Hypothesis saving_I : forall page, preserves I (log_info ("saving page " +:+ py_str page +:+ " data")).

Lemma collect_details_inv g jobs : preserves I (collect_details g jobs).
Proof.
  revert jobs. induction g as [| e | v g IH]; intros jobs; simpl; auto with spider.
  unfold scrape_detail. apply preserves_bind; auto with spider.
  intros data. apply preserves_bind; auto with spider.
  intros code. destruct (negb _); auto with spider.
Qed.

Lemma scrape_page_inv keyword dirname page : preserves I (scrape_page keyword dirname page).
Proof.
  unfold scrape_page. apply preserves_bind; [unfold scrape_index; auto with spider|].
  intros idx. destruct (negb _); [auto with spider|].
  apply preserves_bind; [apply collect_details_inv|]. intros jobs.
  apply preserves_bind; [apply saving_I|]. intros _.
  apply preserves_bind; auto with spider.
Qed.

Lemma main_inv : preserves I main.
Proof.
  unfold main, get_total_page.
  repeat (apply preserves_bind; auto with spider; intros).
  - match goal with |- preserves _ (if ?b then _ else _) => destruct b end;
      eauto using preserves_ret.
  - apply preserves_for_each. intros page _. apply scrape_page_inv.
Qed.
End invariant.

(** The premises of [main_inv] for the log audit of the concrete client. *)
Ltac audit_premise :=
  first [ apply scrape_api_audit | apply py_input_audit | apply os_path_exists_audit
        | apply on_fs_audit
        | unfold save_data; apply preserves_bind; intros; apply on_fs_audit
        | let Hw := fresh "Hw" in intros ? Hw; unfold log_audit in *; simpl;
          by rewrite request_lines_app, Hw, app_nil_r ].


(** C10: The log is an audit trail of the network: after every run of
    [main] from a world whose log reports its requests, ending normally or
    by an exception, the INFO lines [scraping <url>] of the log are exactly
    the requests issued, in order, and no other line of the run reads as
    one ([saving page ...] and the error lines do not). *)
Theorem main_log_audit : preserves log_audit (@main scrape_api_client).
Proof.
  apply main_inv; intros; audit_premise.
Qed.

(** ** What a run promises *)

(** The entry of the working directory that [main] writes into. *)
Definition dir_name (keyword : string) : string :=
  if truthy (PyStr keyword) then keyword else "all_jobs".

Lemma output_dir_name keyword : output_dir keyword = "./" +:+ dir_name keyword.
Proof. unfold output_dir, dir_name. by destruct (truthy _). Qed.

(** The page numbers [1..n] that [range(1, n + 1)] goes through. *)
Definition page_numbers (n : Z) : list Z := map (fun i => (1 + Z.of_nat i)%Z) (seq 0 (Z.to_nat n)).

Lemma py_range_pages n : py_range (PyInt 1) (PyInt (n + 1)) = Ok (map PyInt (page_numbers n)).
Proof.
  unfold py_range, page_numbers. simpl. rewrite map_map.
  by replace (n + 1 - 1)%Z with n by lia.
Qed.

Section spec.
Variable srv : string -> response.

(** The spec's account of one page: no file when the index response is
    falsy, otherwise the records of the ids the index lists, in order. *)
Definition page_records (keyword : string) (p : Z) : option (list pyval) :=
  let idx := index_of srv keyword (PyInt p) in
  if truthy idx then Some (map (detail_of srv) (gen_items (parse_index idx))) else None.

(** The requests the spec's account of one page issues: the index, then
    the record of every id it lists when it is truthy. *)
Definition page_requests (keyword : string) (p : Z) : list string :=
  let idx := index_of srv keyword (PyInt p) in
  index_url keyword (PyInt p) ::
    (if truthy idx then map detail_url (gen_items (parse_index idx)) else []).

Definition write_page (keyword : string) (dir : list string)
    (files : gmap (list string) string) (p : Z) : gmap (list string) string :=
  match page_records keyword p with
  | Some recs => <[dir ++ [page_file_name keyword p] := json_dumps (PyList recs)]> files
  | None => files
  end.

(** The files after the pages [pages], as the spec describes them. *)
Definition expected_files (keyword : string) (dir : list string) (pages : list Z)
    (files : gmap (list string) string) : gmap (list string) string :=
  fold_left (write_page keyword dir) pages files.

(** A page that the server answers the way the spec assumes: when the index
    is truthy, it lists its ids without error and every record has [Code]
    200. *)
Definition good_page (keyword : string) (p : Z) : Prop :=
  truthy (index_of srv keyword (PyInt p)) = true ->
  gen_exn (parse_index (index_of srv keyword (PyInt p))) = None /\
  Forall (fun id => valid_detail (detail_of srv id) = true)
    (gen_items (parse_index (index_of srv keyword (PyInt p)))).
End spec.

Lemma expected_files_cons srv keyword dir p l files :
  expected_files srv keyword dir (p :: l) files =
  expected_files srv keyword dir l (write_page srv keyword dir files p).
Proof. done. Qed.

Lemma serves_set_fs srv w F : serves srv w -> serves srv (set_fs w F).
Proof. done. Qed.

Section refinement.
Context `{C : ApiClient} `{!ApiClientLaws C}.
Variable srv : string -> response.

(** One iteration of the page loop on a page the server answers as the
    spec assumes: it writes the file [write_page] describes and issues the
    requests [page_requests] lists. *)
Lemma scrape_page_step keyword p w :
  serves srv w ->
  plain_name (dir_name keyword) = true -> string_has slash keyword = false ->
  fs_cwd (w_fs w) ++ [dir_name keyword] ∈ fs_dirs (w_fs w) ->
  fs_cwd (w_fs w) ++ [dir_name keyword; page_file_name keyword p] ∉ fs_dirs (w_fs w) ->
  good_page srv keyword p ->
  exists w', scrape_page keyword (output_dir keyword) (PyInt p) w = (Ok tt, w') /\
    serves srv w' /\ w_reqs w' = w_reqs w ++ page_requests srv keyword p /\
    w_fs w' = mkFs (fs_cwd (w_fs w)) (fs_dirs (w_fs w))
      (write_page srv keyword (fs_cwd (w_fs w) ++ [dir_name keyword]) (fs_files (w_fs w)) p).
Proof.
  intros Hs Hdn Hk Hdir Hfresh Hgood. unfold scrape_page, write_page, page_records, page_requests.
  rewrite (scrape_index_bind srv) by done. cbv beta.
  pose proof (fetched_fetch srv w (index_url keyword (PyInt p)) Hs) as (Hs1 & Hq1 & Hfs1 & _).
  destruct (truthy (index_of srv keyword (PyInt p))) eqn:Ht; cbn [negb];
    [|eexists; split_and!; [done | done | by rewrite Hq1 | rewrite Hfs1; by destruct (w_fs w)]].
  destruct (Hgood Ht) as [Hex Hval].
  set (ids := gen_items (parse_index (index_of srv keyword (PyInt p)))) in *.
  rewrite (gen_exn_none _ Hex), gen_of_list_prepend. fold ids.
  destruct (collect_details_prefix srv ids GStop [] _ Hs1 Hval) as (w2 & (Hs2 & Hq2 & Hfs2 & _) & Hc).
  rewrite (st_bind_ok _ _ _ _ _ (eq_trans Hc eq_refl)). unfold log_info. rewrite log_bind.
  rewrite (st_bind_lift_ok _ _ _ _ (format_FILENAME _ keyword (PyInt p))).
  rewrite (save_data_run _ _ _ (fs_cwd (w_fs w) ++ [dir_name keyword; page_file_name keyword p]));
    simpl; rewrite ?Hfs2, ?Hfs1.
  - eexists. split_and!; [done | intros n u; apply Hs2 | | simpl; by rewrite <- app_assoc].
    simpl. rewrite Hq2, Hq1. by rewrite <- app_assoc.
  - rewrite output_dir_name, filename_split.
    apply resolve_dot_slash2; [done | by apply page_file_name_plain | done].
  - apply not_true_iff_false. by rewrite is_dir_true.
  - change [dir_name keyword; page_file_name keyword p]
      with ([dir_name keyword] ++ [page_file_name keyword p]).
    rewrite app_assoc, removelast_last. by apply is_dir_true.
  - apply filename_not_dir.
Qed.

(** The page loop of [main] writes exactly the files the spec describes,
    one page after the other. *)
Lemma scrape_pages keyword (l : list Z) w :
  serves srv w ->
  plain_name (dir_name keyword) = true -> string_has slash keyword = false ->
  fs_cwd (w_fs w) ++ [dir_name keyword] ∈ fs_dirs (w_fs w) ->
  (forall p, p ∈ l ->
     fs_cwd (w_fs w) ++ [dir_name keyword; page_file_name keyword p] ∉ fs_dirs (w_fs w)) ->
  (forall p, p ∈ l -> good_page srv keyword p) ->
  exists w', st_for_each (map PyInt l) (scrape_page keyword (output_dir keyword)) w = (Ok tt, w') /\
    w_fs w' = mkFs (fs_cwd (w_fs w)) (fs_dirs (w_fs w))
      (expected_files srv keyword (fs_cwd (w_fs w) ++ [dir_name keyword]) l (fs_files (w_fs w))) /\
    w_reqs w' = w_reqs w ++ concat (map (page_requests srv keyword) l).
Proof.
  revert w. induction l as [|p l IH]; intros w Hs Hdn Hk Hdir Hfresh Hgood.
  - exists w. rewrite app_nil_r. by destruct (w_fs w).
  - cbn [map st_for_each concat]. rewrite expected_files_cons.
    destruct (scrape_page_step keyword p w) as (w1 & Hrun & Hs1 & Hq1 & Hfs1);
      [done | done | done | done | apply Hfresh; set_solver | apply Hgood; set_solver |].
    rewrite (st_bind_ok _ _ _ _ _ Hrun).
    destruct (IH w1) as (w2 & Hrun2 & Hfs2 & Hq2); rewrite ?Hfs1;
      [done | done | done | done | intros p' Hp'; apply Hfresh; set_solver
      | intros p' Hp'; apply Hgood; set_solver |].
    exists w2. split_and!; [done | by rewrite Hfs2, Hfs1 | by rewrite Hq2, Hq1, <- app_assoc].
Qed.

(** C1: Refinement of the spec's orchestrator.  Given a keyword whose
    output directory [./keyword] (or [./all_jobs]) is a directory or does
    not exist yet, whose page files are not taken by directories, a server
    that reports [Count = c] on page 1 and answers every page as the spec
    assumes, [main] ends normally; it has created the output directory if
    it was missing and nothing else, and it has written, for each page [p]
    of [1..ceil(c/10)] in turn, the file [keyword<p>.json] with the records
    of the page when its index is truthy and no file when it is not:
    exactly the files [expected_files] describes, existing files of those
    names being overwritten.  Its requests are, in order, page 1 for the
    count and then, page after page, the index and (when it is truthy) the
    record of every id it lists ([page_requests]). *)
Theorem main_refines keyword rest w d c :
  serves srv w -> w_stdin w = keyword :: rest -> fs_wf (w_fs w) ->
  plain_name (dir_name keyword) = true -> string_has slash keyword = false ->
  is_file (w_fs w) (fs_cwd (w_fs w) ++ [dir_name keyword]) = false ->
  (forall p, p ∈ page_numbers ((c + 9) / 10) ->
     fs_cwd (w_fs w) ++ [dir_name keyword; page_file_name keyword p] ∉ fs_dirs (w_fs w)) ->
  py_get (index_of srv keyword (PyInt 1)) "Data" = Ok d ->
  py_get d "Count" = Ok (PyInt c) ->
  (forall p, p ∈ page_numbers ((c + 9) / 10) -> good_page srv keyword p) ->
  exists w', main w = (Ok tt, w') /\
    w_fs w' = mkFs (fs_cwd (w_fs w))
      ({[fs_cwd (w_fs w) ++ [dir_name keyword]]} ∪ fs_dirs (w_fs w))
      (expected_files srv keyword (fs_cwd (w_fs w) ++ [dir_name keyword])
         (page_numbers ((c + 9) / 10)) (fs_files (w_fs w))) /\
    w_reqs w' = w_reqs w ++ index_url keyword (PyInt 1) ::
      concat (map (page_requests srv keyword) (page_numbers ((c + 9) / 10))).
Proof.
  intros Hs Hin Hwf Hdn Hk Hnf Hfresh Hd Hc Hgood. unfold main.
  rewrite (py_input_bind _ _ _ _ Hin).
  rewrite (get_total_page_bind _ _ d c); [| by rewrite (serves_next srv) | done].
  pose proof (fetched_fetch srv (mkWorld rest (w_log w) (w_reqs w) (w_net w) (w_fs w) (w_ua w) (w_hdrs w))
    (index_url keyword (PyInt 1)) Hs) as (Hs2 & Hq2 & Hfs2 & _).
  cbv beta. rewrite os_path_exists_bind, Hfs2, output_dir_name. simpl w_fs.
  rewrite path_exists_dot_slash, Hnf, orb_false_r by done.
  set (w2 := (fetch (index_url keyword (PyInt 1))
                (mkWorld rest (w_log w) (w_reqs w) (w_net w) (w_fs w) (w_ua w) (w_hdrs w))).2) in *.
  set (D := fs_cwd (w_fs w) ++ [dir_name keyword]).
  (* The world after [os.path.exists(dirname) or os.makedirs(dirname)]. *)
  assert (Hmk : exists w3,
    st_bind (if is_dir (w_fs w) D then st_ret tt else on_fs (makedirs ("./" +:+ dir_name keyword)))
      (fun _ => st_bind (st_lift (py_add (PyInt ((c + 9) / 10)) (PyInt 1))) (fun stop =>
        st_bind (st_lift (py_range (PyInt 1) stop))
          (fun pages => st_for_each pages (scrape_page keyword ("./" +:+ dir_name keyword))))) w2 =
    st_for_each (map PyInt (page_numbers ((c + 9) / 10)))
      (scrape_page keyword (output_dir keyword)) w3 /\
    serves srv w3 /\ w_reqs w3 = w_reqs w2 /\
    w_fs w3 = mkFs (fs_cwd (w_fs w)) ({[D]} ∪ fs_dirs (w_fs w)) (fs_files (w_fs w))).
  { destruct (is_dir (w_fs w) D) eqn:Hdir.
    - exists w2. rewrite st_bind_ret_l, Hfs2.
      rewrite (st_bind_lift_ok _ (PyInt ((c + 9) / 10 + 1)) _ _ eq_refl).
      rewrite (st_bind_lift_ok _ _ _ _ (py_range_pages _)), <- output_dir_name.
      split_and!; [done | done | done |]. simpl.
      apply is_dir_true, singleton_subseteq_l, subseteq_union_1_L in Hdir. rewrite Hdir.
      by destruct (w_fs w).
    - assert (Hm : makedirs ("./" +:+ dir_name keyword) (w_fs w2) =
        (Ok tt, mkFs (fs_cwd (w_fs w)) ({[D]} ∪ fs_dirs (w_fs w)) (fs_files (w_fs w)))).
      { rewrite Hfs2. cbn [w_fs]. rewrite makedirs_dot_slash by done. by apply mkdir_fresh. }
      rewrite (st_bind_ok _ _ _ _ _ (on_fs_run _ _ _ _ Hm)).
      rewrite (st_bind_lift_ok _ (PyInt ((c + 9) / 10 + 1)) _ _ eq_refl).
      rewrite (st_bind_lift_ok _ _ _ _ (py_range_pages _)), <- output_dir_name.
      eexists. split_and!; [done | done | done | done]. }
  destruct Hmk as (w3 & -> & Hs3 & Hq3 & Hfs3).
  destruct (scrape_pages keyword (page_numbers ((c + 9) / 10)) w3) as (w' & Hrun & Hfs' & Hq');
    rewrite ?Hfs3; simpl; try done.
  - set_solver.
  - intros p Hp [Heq | Hin']%elem_of_union; [|by apply (Hfresh p Hp)].
    apply elem_of_singleton, app_inv_head in Heq. discriminate.
  - exists w'. split_and!; [done | by rewrite Hfs', Hfs3 |].
    rewrite Hq', Hq3, Hq2. simpl. by rewrite <- app_assoc.
Qed.
(** C11: The page loop makes progress through every page: on pages the
    server answers as the spec assumes, a page whose index request fails
    or comes back empty is skipped without stopping the loop, which ends
    normally after requesting the index of every page. *)
Theorem page_loop_visits_every_page keyword (l : list Z) w :
  serves srv w ->
  plain_name (dir_name keyword) = true -> string_has slash keyword = false ->
  fs_cwd (w_fs w) ++ [dir_name keyword] ∈ fs_dirs (w_fs w) ->
  (forall p, p ∈ l ->
     fs_cwd (w_fs w) ++ [dir_name keyword; page_file_name keyword p] ∉ fs_dirs (w_fs w)) ->
  (forall p, p ∈ l -> good_page srv keyword p) ->
  exists w', st_for_each (map PyInt l) (scrape_page keyword (output_dir keyword)) w = (Ok tt, w') /\
    forall p, p ∈ l -> index_url keyword (PyInt p) ∈ w_reqs w'.
Proof.
  intros Hs Hdn Hk Hdir Hfresh Hgood.
  destruct (scrape_pages keyword l w) as (w' & Hrun & _ & Hq); [done..|].
  exists w'. split; [done|]. intros p Hp. rewrite Hq. apply elem_of_app. right.
  apply list_elem_of_In, in_concat. exists (page_requests srv keyword p).
  split; [apply in_map, list_elem_of_In, Hp | left; reflexivity].
Qed.
End refinement.

(** ** The scenario of the spec *)

(** Keyword [engineer]: the first index page reports 15 results and lists
    posts [p1] and [p2]; the second index request fails; the detail of [p1]
    is valid and the detail response of [p2] is a parameter. *)
Definition engineer_index : pyval :=
  PyDict [("Data", PyDict [("Count", PyInt 15);
    ("Posts", PyList [PyDict [("PostId", PyStr "p1")]; PyDict [("PostId", PyStr "p2")]])])].

Definition engineer_detail (post_id : string) : pyval :=
  PyDict [("Code", PyInt 200); ("Data", PyDict [("PostId", PyStr post_id)])].

Definition engineer_srv (p2 : response) (url : string) : response :=
  if String.eqb url (index_url "engineer" (PyInt 1)) then RHttp 200 (Some engineer_index)
  else if String.eqb url (index_url "engineer" (PyInt 2)) then RTransportError
  else if String.eqb url (detail_url (PyStr "p1")) then RHttp 200 (Some (engineer_detail "p1"))
  else if String.eqb url (detail_url (PyStr "p2")) then p2
  else RHttp 404 None.

Definition p2_ok : response := RHttp 200 (Some (engineer_detail "p2")).

(** A home directory [/home] as the working directory. *)
Definition fs_home : fs := mkFs ["home"] (list_to_set [[]; ["home"]]) ∅.

Definition engineer_world (p2 : response) : world :=
  mkWorld ["engineer"] [] [] (fun _ => engineer_srv p2) fs_home browser_ua [].

Lemma engineer_serves p2 : serves (engineer_srv p2) (engineer_world p2).
Proof. by intros n url. Qed.

Lemma collect_details_valid_witness :
  exists w', fetched (engineer_srv p2_ok) (engineer_world p2_ok)
      (map detail_url [PyStr "p1"; PyStr "p2"]) w' /\
    collect_details (gen_of_list [PyStr "p1"; PyStr "p2"]) [] (engineer_world p2_ok) =
    (Ok ([] ++ map (detail_of (engineer_srv p2_ok)) [PyStr "p1"; PyStr "p2"]), w').
Proof.
  apply collect_details_valid; [apply engineer_serves | repeat constructor].
Defined.

Lemma collect_details_invalid_code_witness :
  (collect_details (gen_prepend [PyStr "p1"] (GYield (PyStr "p2") GStop)) []
     (engineer_world (RHttp 200 (Some (PyDict [("Code", PyInt 404)]))))).1 = Exc NameError.
Proof.
  apply (collect_details_invalid_code
    (engineer_srv (RHttp 200 (Some (PyDict [("Code", PyInt 404)])))) _ _ _ _ _ (PyInt 404));
    [apply engineer_serves | repeat constructor | reflexivity | reflexivity].
Defined.

Lemma collect_details_fetch_failed_witness :
  (collect_details (gen_prepend [PyStr "p1"] (GYield (PyStr "p2") GStop)) []
     (engineer_world RTransportError)).1 = Exc AttributeError.
Proof.
  apply (collect_details_fetch_failed (engineer_srv RTransportError));
    [apply engineer_serves | repeat constructor | reflexivity].
Defined.

Lemma scrape_page_skip_witness :
  exists w', fetched (engineer_srv p2_ok) (engineer_world p2_ok)
      [index_url "engineer" (PyInt 2)] w' /\
    scrape_page "engineer" "./engineer" (PyInt 2) (engineer_world p2_ok) = (Ok tt, w').
Proof. apply scrape_page_skip; [apply engineer_serves | reflexivity]. Defined.

(** The same world once [./engineer] exists. *)
Definition engineer_world_dir : world :=
  mkWorld [] [] [] (fun _ => engineer_srv p2_ok)
    (mkFs ["home"] (list_to_set [[]; ["home"]; ["home"; "engineer"]]) ∅) browser_ua [].

Lemma scrape_page_save_witness :
  exists w', scrape_page "engineer" "./engineer" (PyInt 1) engineer_world_dir = (Ok tt, w') /\
    fetched (engineer_srv p2_ok) engineer_world_dir
      (index_url "engineer" (PyInt 1) :: map detail_url [PyStr "p1"; PyStr "p2"])
      (set_fs w' (w_fs engineer_world_dir)) /\
    w_fs w' = mkFs (fs_cwd (w_fs engineer_world_dir)) (fs_dirs (w_fs engineer_world_dir))
      (<[["home"; "engineer"; "engineer1.json"] :=
          json_dumps (PyList (map (detail_of (engineer_srv p2_ok)) [PyStr "p1"; PyStr "p2"]))]>
        (fs_files (w_fs engineer_world_dir))).
Proof.
  apply scrape_page_save; [by intros n url | reflexivity | reflexivity | repeat constructor
    | vm_compute; reflexivity | vm_compute; reflexivity | vm_compute; reflexivity].
Defined.

Lemma fs_home_wf : fs_wf fs_home.
Proof.
  unfold fs_wf, fs_home; simpl. split_and!; [set_solver | set_solver | |].
  - intros dd Hdd. set_unfold in Hdd. destruct Hdd as [-> | [-> | []]]; simpl; set_solver.
  - intros f Hf. rewrite lookup_empty in Hf. by destruct Hf.
Qed.

Lemma main_log_audit_witness :
  log_audit (engineer_world p2_ok) /\ log_audit (main (engineer_world p2_ok)).2.
Proof. split; [reflexivity | apply main_log_audit; reflexivity]. Defined.

(** The two pages of the scenario are answered as the spec assumes: page
    1 lists valid records and page 2 fails. *)
Lemma engineer_good p :
  p ∈ page_numbers ((15 + 9) / 10) -> good_page (engineer_srv p2_ok) "engineer" p.
Proof.
  intros Hp. apply list_elem_of_In in Hp. vm_compute in Hp.
  destruct Hp as [<- | [<- | []]]; intros Ht.
  - split; [reflexivity | repeat constructor].
  - vm_compute in Ht. discriminate Ht.
Qed.

Lemma main_refines_witness :
  exists w', main (engineer_world p2_ok) = (Ok tt, w') /\
    w_fs w' = mkFs (fs_cwd fs_home) ({[fs_cwd fs_home ++ [dir_name "engineer"]]} ∪ fs_dirs fs_home)
      (expected_files (engineer_srv p2_ok) "engineer" (fs_cwd fs_home ++ [dir_name "engineer"])
         (page_numbers ((15 + 9) / 10)) (fs_files fs_home)) /\
    w_reqs w' = [] ++ index_url "engineer" (PyInt 1) ::
      concat (map (page_requests (engineer_srv p2_ok) "engineer") (page_numbers ((15 + 9) / 10))).
Proof.
  apply (main_refines (engineer_srv p2_ok) "engineer" [] (engineer_world p2_ok)
    (PyDict [("Count", PyInt 15); ("Posts", PyList [PyDict [("PostId", PyStr "p1")];
                                                    PyDict [("PostId", PyStr "p2")]])]) 15);
    [apply engineer_serves | reflexivity | apply fs_home_wf | reflexivity | reflexivity
    | vm_compute; reflexivity | | reflexivity | reflexivity |].
  { intros p _ Hin%elem_of_list_to_set. apply list_elem_of_In in Hin.
    destruct Hin as [H | [H | []]]; discriminate H. }
  apply engineer_good.
Defined.

Lemma page_loop_visits_every_page_witness :
  exists w', st_for_each (map PyInt (page_numbers ((15 + 9) / 10)))
      (scrape_page "engineer" (output_dir "engineer")) engineer_world_dir = (Ok tt, w') /\
    forall p, p ∈ page_numbers ((15 + 9) / 10) -> index_url "engineer" (PyInt p) ∈ w_reqs w'.
Proof.
  apply (page_loop_visits_every_page (engineer_srv p2_ok)); [by intros n url | reflexivity | reflexivity
    | vm_compute; set_solver | | apply engineer_good].
  intros p _ Hin%elem_of_list_to_set. apply list_elem_of_In in Hin.
  destruct Hin as [H | [H | [H | []]]]; discriminate H.
Defined.



(** ** A keyword with a slash *)

(** A server for the keyword [a/b]: page 1 lists the record [p1]. *)
Definition slash_srv (url : string) : response :=
  if String.eqb url (index_url "a/b" (PyInt 1)) then
    RHttp 200 (Some (PyDict [("Data", PyDict [("Count", PyInt 5);
      ("Posts", PyList [PyDict [("PostId", PyStr "p1")]])])]))
  else if String.eqb url (detail_url (PyStr "p1")) then RHttp 200 (Some (engineer_detail "p1"))
  else RTransportError.

(** The working directory [/home] after [os.makedirs('./a/b')]. *)
Definition slash_world : world :=
  mkWorld [] [] [] (fun _ => slash_srv)
    (mkFs ["home"] (list_to_set [[]; ["home"]; ["home"; "a"]; ["home"; "a"; "b"]]) ∅)
    browser_ua [].

Lemma scrape_page_keyword_with_slash_witness :
  exists w', scrape_page "a/b" (output_dir "a/b") (PyInt 1) slash_world =
               (Exc FileNotFoundError, w') /\ w_fs w' = w_fs slash_world.
Proof.
  apply (scrape_page_keyword_with_slash slash_srv "a" "b" 1 [PyStr "p1"] slash_world);
    [by intros n url | reflexivity | reflexivity | vm_compute; reflexivity
    | vm_compute; reflexivity | repeat constructor | vm_compute; set_solver
    | vm_compute; set_solver | | reflexivity].
  intros Hin%elem_of_list_to_set. apply list_elem_of_In in Hin.
  destruct Hin as [H | [H | [H | [H | []]]]]; discriminate H.
Defined.
