(* ===== verification/PageOrder.v ===== *)
(** * The order in which a run requests the index pages

    [main] asks the index endpoint ([INDEX_URL], line 7) for page 1 to
    count the results (line 31), then once per page of
    [range(1, total_page + 1)] (lines 65, 67); every other request is for a
    detail ([DETAIL_URL], line 56).  This file follows the index requests
    alone, through every statement of a run and whatever the network
    answers: [get_total_page] adds the request for page 1, [scrape_page p]
    adds exactly the request for page [p] (its detail requests and its
    save add none), and the page loop adds them in the order of the range,
    stopping only at a page that raises.  So a run that returns has asked
    for the index of every page [1..n] of the count it computed, once each
    and in order, and a run that raises has asked for a prefix of them. *)

From S2P Require Import Prelude PyValue StateExc FileSystem World PyFormat JsonDump Client Pagination Index Spider.

(** The index endpoint: the common start of the URLs [INDEX_URL] gives. *)
Definition INDEX_ENDPOINT : string :=
  "https://careers.tencent.com/tencentcareer/api/post/Query?".

Definition is_index_req (url : string) : bool := String.prefix INDEX_ENDPOINT url.

(** The index requests of a world's trace, in order. *)
Definition index_reqs (w : world) : list string :=
  filter (fun url => is_index_req url = true) (w_reqs w).

Lemma index_url_is_index keyword page : is_index_req (index_url keyword page) = true.
Proof. reflexivity. Qed.

Lemma detail_url_not_index post_id : is_index_req (detail_url post_id) = false.
Proof. reflexivity. Qed.

Section order.
Context `{C : ApiClient} `{!ApiClientLaws C}.

(** The index requests are [X]. *)
Definition idx_is (X : list string) (w : world) : Prop := index_reqs w = X.

Lemma fetch_index_reqs url w :
  index_reqs (fetch url w).2 = index_reqs w ++ (if is_index_req url then [url] else []).
Proof.
  unfold index_reqs. rewrite fetch_reqs, filter_app. f_equal.
  destruct (is_index_req url) eqn:E;
    [by rewrite filter_cons_True | rewrite filter_cons_False; [done | by rewrite E]].
Qed.

(** Operations that leave the request trace as it is. *)
Lemma idx_frame {A} X (m : M A) :
  (forall w, w_reqs (m w).2 = w_reqs w) -> preserves (idx_is X) m.
Proof. intros Hm w Hw. unfold idx_is, index_reqs in *. by rewrite Hm. Qed.

Lemma idx_log X lv msg : preserves (idx_is X) (log lv msg).
Proof. by apply idx_frame. Qed.

Lemma idx_on_fs X {A} (m : ST fs A) : preserves (idx_is X) (on_fs m).
Proof. apply idx_frame. intros w. unfold on_fs. by destruct (m (w_fs w)). Qed.

Lemma idx_save_data X v fname : preserves (idx_is X) (save_data v fname).
Proof. unfold save_data. apply preserves_bind; intros; apply idx_on_fs. Qed.

Lemma idx_scrape_detail X post_id : preserves (idx_is X) (scrape_detail post_id).
Proof.
  intros w Hw. unfold scrape_detail, st_bind, st_lift. rewrite format_DETAIL_URL.
  unfold idx_is in *. by rewrite fetch_index_reqs, detail_url_not_index, app_nil_r.
Qed.

Lemma idx_collect_details X g jobs : preserves (idx_is X) (collect_details g jobs).
Proof.
  revert jobs. induction g as [| e | v g IH]; intros jobs; simpl; auto with spider.
  apply preserves_bind; [apply idx_scrape_detail|]. intros data.
  apply preserves_bind; auto with spider. intros code. destruct (negb _); auto with spider.
Qed.

(** [fetch url] followed by a computation that sends no index request:
    the index request of [url], if any. *)
Lemma idx_after_fetch {B} url (k : pyval -> M B) w :
  (forall v X, preserves (idx_is X) (k v)) ->
  index_reqs (st_bind (fetch url) k w).2 =
  index_reqs w ++ (if is_index_req url then [url] else []).
Proof.
  intros Hk. rewrite fetch_bind. rewrite <- fetch_index_reqs. by apply Hk.
Qed.

(** [get_total_page] asks for page 1 of the index and nothing else. *)
Lemma get_total_page_idx keyword w :
  index_reqs (get_total_page keyword w).2 = index_reqs w ++ [index_url keyword (PyInt 1)].
Proof.
  unfold get_total_page.
  rewrite (st_bind_lift_ok _ _ _ _ (format_INDEX_URL keyword (PyInt 1))).
  rewrite idx_after_fetch, index_url_is_index; [done|].
  intros v X. repeat (apply preserves_bind; [apply preserves_lift | intros]). apply preserves_lift.
Qed.

(** One iteration of the page loop asks for the index of its page and for
    no other index. *)
Lemma scrape_page_idx keyword dirname page w :
  index_reqs (scrape_page keyword dirname page w).2 =
  index_reqs w ++ [index_url keyword page].
Proof.
  unfold scrape_page, scrape_index. rewrite st_bind_assoc.
  rewrite (st_bind_lift_ok _ _ _ _ (format_INDEX_URL keyword page)).
  rewrite idx_after_fetch, index_url_is_index; [done|].
  intros v X. destruct (negb _); [apply preserves_ret|].
  apply preserves_bind; [apply idx_collect_details|]. intros jobs.
  apply preserves_bind; [apply idx_log|]. intros _.
  apply preserves_bind; [apply preserves_lift|]. intros fname. apply idx_save_data.
Qed.

(** The page loop asks for the indexes of a prefix of its pages, in order,
    and of all of them when it completes. *)
Lemma page_loop_idx keyword dirname pages w :
  exists m,
    index_reqs (st_for_each pages (scrape_page keyword dirname) w).2 =
      index_reqs w ++ map (index_url keyword) (take m pages) /\
    ((st_for_each pages (scrape_page keyword dirname) w).1 = Ok tt -> m = length pages).
Proof.
  revert w. induction pages as [|p ps IH]; intros w.
  - exists 0. by rewrite app_nil_r.
  - cbn [st_for_each]. unfold st_bind.
    pose proof (scrape_page_idx keyword dirname p w) as Hp.
    destruct (scrape_page keyword dirname p w) as [[u|e] w1]; cbn [snd] in Hp.
    + destruct (IH w1) as (m & Hm & Hok). exists (S m). cbn [take map length].
      rewrite Hm, Hp, <- app_assoc. split; [done|]. intros ->%Hok. done.
    + exists 1. cbn [take map fst snd]. by rewrite Hp.
Qed.

(** The directory statement of lines 63-64 sends no request. *)
Lemma make_dir_reqs (b : bool) dirname w :
  w_reqs ((if b then st_ret tt else on_fs (makedirs dirname)) w).2 = w_reqs w.
Proof. destruct b; [done|]. unfold on_fs. by destruct (makedirs dirname (w_fs w)). Qed.
End order.

(** C6: A run of [main] asks for the index pages in order, none skipped
    and none twice, whatever the network answers: when the keyword read is
    [kw] and [get_total_page] computes [n] pages, the index requests of
    the run are page 1 (for the count), then pages [1..m] of
    [range(1, n + 1)] for some [m], and [m = n] when [main] returns. *)
Theorem main_index_requests `{C : ApiClient} `{!ApiClientLaws C} w kw rest n :
  w_stdin w = kw :: rest ->
  (get_total_page kw (mkWorld rest (w_log w) (w_reqs w) (w_net w) (w_fs w) (w_ua w) (w_hdrs w))).1
    = Ok (PyInt n) ->
  exists m,
    index_reqs (main w).2 =
      index_reqs w ++ index_url kw (PyInt 1) :: map (index_url kw) (take m (map PyInt (page_numbers n))) /\
    ((main w).1 = Ok tt -> m = Z.to_nat n).
Proof.
  intros Hin Hn.
  set (w1 := mkWorld rest (w_log w) (w_reqs w) (w_net w) (w_fs w) (w_ua w) (w_hdrs w)) in *.
  pose proof (get_total_page_idx kw w1) as H2.
  destruct (get_total_page kw w1) as [[tp|e] w2] eqn:E2; cbn [fst snd] in Hn, H2; [|discriminate].
  injection Hn as ->.
  set (mk := if path_exists (w_fs w2) (output_dir kw) then st_ret tt
             else on_fs (makedirs (output_dir kw))).
  pose proof (make_dir_reqs (path_exists (w_fs w2) (output_dir kw)) (output_dir kw) w2) as H3.
  fold mk in H3. destruct (mk w2) as [[u|e] w3] eqn:E3; cbn [snd] in H3;
    assert (I3 : index_reqs w3 = index_reqs w2) by (unfold index_reqs; by rewrite H3).
  - assert (Hmain : main w = st_for_each (map PyInt (page_numbers n)) (scrape_page kw (output_dir kw)) w3).
    { unfold main. rewrite (py_input_bind _ _ _ _ Hin), (st_bind_ok _ _ _ _ _ E2).
      cbv beta zeta. rewrite os_path_exists_bind, (st_bind_ok _ _ _ _ _ E3).
      rewrite (st_bind_lift_ok _ (PyInt (n + 1))) by reflexivity.
      by rewrite (st_bind_lift_ok _ _ _ _ (py_range_pages n)). }
    destruct (page_loop_idx kw (output_dir kw) (map PyInt (page_numbers n)) w3) as (m & Hm & Hok).
    exists m. rewrite Hmain, Hm, I3, H2. split; [by rewrite <- app_assoc|]. intros ->%Hok.
    unfold page_numbers. by rewrite !length_map, length_seq.
  - assert (Hmain : main w = (Exc e, w3)).
    { unfold main. rewrite (py_input_bind _ _ _ _ Hin), (st_bind_ok _ _ _ _ _ E2).
      cbv beta zeta. rewrite os_path_exists_bind. by rewrite (st_bind_exc _ _ _ _ _ E3). }
    exists 0. rewrite Hmain. cbn [fst snd]. rewrite I3, H2. split; [done | discriminate].
Qed.

Lemma main_index_requests_witness :
  w_stdin (engineer_world p2_ok) = ["engineer"] /\
  (get_total_page (C:=scrape_api_client) "engineer"
     (mkWorld [] [] [] (fun _ => engineer_srv p2_ok) fs_home browser_ua [])).1 = Ok (PyInt 2) /\
  exists m,
    index_reqs (main (engineer_world p2_ok)).2 =
      index_reqs (engineer_world p2_ok) ++ index_url "engineer" (PyInt 1) ::
        map (index_url "engineer") (take m (map PyInt (page_numbers 2))) /\
    ((main (engineer_world p2_ok)).1 = Ok tt -> m = Z.to_nat 2).
Proof.
  split; [reflexivity|]. split; [vm_compute; reflexivity|].
  apply (main_index_requests (engineer_world p2_ok) "engineer" []); [reflexivity | vm_compute; reflexivity].
Defined.
