(* ===== verification/UserAgent.v ===== *)
(** * The User-Agent header of every request

    [UA = UserAgent()] (line 14) is created once, when the module is
    loaded; every call of [scrape_api] draws [UA.random] (line 20) and sends
    it as the header [{'User-Agent': ...}] with its one request (line 22).
    [World] models the generator as the oracle [w_ua] with a count of the
    draws made, and keeps the headers sent with the requests in [w_hdrs].
    This file states what a run promises of them: the generator has made
    exactly one draw per request, and the [i]-th request of the trace went
    out with the header of the [i]-th draw, so no request is sent without a
    User-Agent and no draw is reused or skipped, whatever the network
    answers and however the run ends. *)

From S2P Require Import Prelude PyValue StateExc FileSystem World Client Pagination Index Spider.

(** One draw per request, and request [i] was sent with the header of
    draw [i]. *)
Definition ua_trace (w : world) : Prop :=
  ua_draws (w_ua w) = length (w_reqs w) /\
  w_hdrs w = map (fun n => ua_headers (ua_pick (w_ua w) n)) (seq 0 (length (w_reqs w))).

(** An operation that leaves the requests, the headers and the generator
    as they are keeps the trace. *)
Lemma ua_trace_frame {A} (m : M A) :
  (forall w, w_reqs (m w).2 = w_reqs w /\ w_hdrs (m w).2 = w_hdrs w /\ w_ua (m w).2 = w_ua w) ->
  preserves ua_trace m.
Proof. intros Hm w Hw. unfold ua_trace in *. by destruct (Hm w) as (-> & -> & ->). Qed.

Lemma ua_trace_log lv msg : preserves ua_trace (log lv msg).
Proof. by apply ua_trace_frame. Qed.

Lemma ua_trace_on_fs {A} (m : ST fs A) : preserves ua_trace (on_fs m).
Proof. apply ua_trace_frame. intros w. unfold on_fs. by destruct (m (w_fs w)). Qed.

Lemma ua_trace_py_input : preserves ua_trace py_input.
Proof. apply ua_trace_frame. intros w. unfold py_input. by destruct (w_stdin w). Qed.

Lemma ua_trace_os_path_exists p : preserves ua_trace (os_path_exists p).
Proof. by apply ua_trace_frame. Qed.

(** [scrape_api] adds one request with the header of the next draw. *)
Lemma ua_trace_scrape_api url : preserves ua_trace (scrape_api url).
Proof.
  intros w [Hd Hh]. rewrite scrape_api_eq. unfold ua_trace, next_ua, ua_draw.
  cbn [snd w_hdrs w_reqs w_ua ua_draws ua_pick]. rewrite length_app, Hd.
  split; [simpl; lia|]. by rewrite seq_app, map_app, <- Hh.
Qed.

Lemma ua_trace_save_data v fname : preserves ua_trace (save_data v fname).
Proof. unfold save_data. apply preserves_bind; intros; apply ua_trace_on_fs. Qed.

(** The premises of [main_inv] for the header trace. *)
Ltac ua_premise :=
  first [ apply ua_trace_scrape_api | apply ua_trace_py_input | apply ua_trace_os_path_exists
        | apply ua_trace_on_fs | apply ua_trace_save_data | apply ua_trace_log ].

(** C12: Every request of a run of [main] carries the User-Agent of its own
    draw: when the generator has made one draw per request of a world and
    the [i]-th request was sent with the header [{'User-Agent': UA.random}]
    of the [i]-th draw (as in a fresh process, which has made none), the
    same holds after the run, whether it returns or raises. *)
Theorem main_user_agent : preserves ua_trace (@main scrape_api_client).
Proof. apply main_inv; intros; ua_premise. Qed.

Lemma main_user_agent_witness :
  ua_trace (engineer_world p2_ok) /\ ua_trace (main (engineer_world p2_ok)).2.
Proof. split; [split; reflexivity | apply main_user_agent; split; reflexivity]. Defined.
