(* ===== verification/Script.v ===== *)
(** * Running the module (lines 80-81)

<<
    if __name__ == '__main__':
        main()
>>
    Run as a script, the module configures logging (lines 9-13, [Logging])
    and calls [main] with the real client [scrape_api]; what the user sees
    is the files [main] writes and the lines the root logger's handler
    writes to standard error.  [script_run] gives both, the local time of
    the [n]-th record being [clock n]; the tracebacks Python adds to
    standard error (the [exc_info=True] record of line 27, and an
    exception [main] does not catch) are not part of it. *)

From S2P Require Import Prelude PyValue StateExc FileSystem World Logging PyFormat JsonDump Client Pagination Index Spider.

(** [main()] with [scrape_api] as the client. *)
Definition script : M unit := @main scrape_api_client.

(** The outcome of a run, the world after it, and its standard error. *)
Definition script_run (clock : nat -> tm) (w : world) : result unit * world * result string :=
  let '(r, w') := script w in (r, w', emit basic_config clock (w_log w')).

